(** * DLPC900 control protocol: frames, chunked transfer, status checks

    A shallow embedding of the protocol layer of the [dlpyc900] package:

    - [dlpyc900.py]: the bit-string helpers ([number_to_bits],
      [bits_to_bytes]), [parse_reply], and the methods of class [dmd]
      that build and send command frames over the USB bulk endpoints;
    - [WCIL.py]: class [RS485Device], the serial envelope of the
      current driver.

    Python values are modelled as the code uses them: byte buffers are
    lists of integers, [str] is [string], exceptions are values of [exn]
    threaded through a state-and-error monad, and the transports are
    explicit worlds holding what the device will answer, which writes
    will fail, and the trace of calls made so far. *)

From Stdlib Require Import ZArith Lia Ascii String.
From stdpp Require Import base option list strings pretty gmap.

Local Open Scope string_scope.
Local Open Scope list_scope.
Local Open Scope Z_scope.

(** ** Python runtime *)

Module Py.

(** The exception classes the two modules raise or catch.  [DMDerror]
    comes from [dlpyc900.dlp_errors]; the others are builtins or belong
    to [usb] and [serial].  [OutOfFuel] is no Python exception: it marks
    a loop of the model that was given too few iterations, and is shown
    below never to be produced. *)
Inductive exn : Type :=
  | DMDerror (msg : string)
  | ValueError (msg : string)
  | ConnectionError (msg : string)
  | IndexError
  | KeyError
  | TypeError
  | USBError
  | SerialException (msg : string)
  | OutOfFuel.

Inductive result (A : Type) : Type :=
  | Ok (a : A)
  | Raise (e : exn).
Arguments Ok {A} a.
Arguments Raise {A} e.

#[global] Instance result_ret : MRet result := fun A a => Ok a.
#[global] Instance result_bind : MBind result := fun A B f m =>
  match m with
  | Ok a => f a
  | Raise e => Raise e
  end.
#[global] Instance result_fmap : FMap result := fun A B f m =>
  match m with
  | Ok a => Ok (f a)
  | Raise e => Raise e
  end.

(** *** Sequences: [len], indexing and slicing *)

Definition len {A} (l : list A) : Z := Z.of_nat (length l).

(** [l[i]]: a negative index counts from the end; out of range raises. *)
Definition index {A} (l : list A) (i : Z) : result A :=
  let j := if i <? 0 then len l + i else i in
  if (0 <=? j) && (j <? len l) then
    match l !! Z.to_nat j with
    | Some x => Ok x
    | None => Raise IndexError
    end
  else Raise IndexError.

(** A slice bound is clamped into [0, len]; a negative bound counts from
    the end before it is clamped. *)
Definition clamp (n i : Z) : Z :=
  if i <? 0 then Z.max 0 (n + i) else Z.min i n.

(** [l[start:stop]], either bound may be omitted. *)
Definition slice {A} (l : list A) (start stop : option Z) : list A :=
  let a := from_option (clamp (len l)) 0 start in
  let b := from_option (clamp (len l)) (len l) stop in
  take (Z.to_nat (b - a)) (drop (Z.to_nat a) l).

(** [range(start, stop, step)] for a positive step. *)
Definition range (start stop step : Z) : list Z :=
  (fun k => start + step * Z.of_nat k) <$>
    seq 0 (Z.to_nat ((stop - start + step - 1) / step)).

(** [bytes(l)]: every item must fit in one byte. *)
Definition bytes (l : list Z) : result (list Z) :=
  if forallb (fun x => (0 <=? x) && (x <? 256)) l then Ok l
  else Raise (ValueError "bytes must be in range(0, 256)").

(** [sum(l)] *)
Definition sum (l : list Z) : Z := foldr Z.add 0 l.

(** *** Strings *)

Definition chars (s : string) : list ascii := list_ascii_of_string s.
Definition str (l : list ascii) : string := string_of_list_ascii l.

Definition str_len (s : string) : Z := len (chars s).

Definition str_slice (s : string) (start stop : option Z) : string :=
  str (slice (chars s) start stop).

(** [s[i]] is the one-character string at position [i]. *)
Definition str_index (s : string) (i : Z) : result string :=
  c ← index (chars s) i; Ok (String c EmptyString).

(** *** [format(a, '0{w}b')] and [int(s, 2)] *)

(** Binary digits of a positive number, least significant first. *)
Fixpoint pos_digits (p : positive) : list ascii :=
  match p with
  | xH => ["1"%char]
  | xO q => "0"%char :: pos_digits q
  | xI q => "1"%char :: pos_digits q
  end.

Definition nat_digits (a : Z) : list ascii :=
  match a with
  | Zpos p => reverse (pos_digits p)
  | _ => ["0"%char]
  end.

Definition zfill (w : nat) (l : list ascii) : list ascii :=
  replicate (w - length l) "0"%char ++ l.

(** [format(a, '0{w}b')]: the binary numeral of [a], zero-filled on the
    left to [w] characters; the sign of a negative number counts as one
    of them. *)
Definition format_b (a : Z) (w : nat) : string :=
  if a <? 0 then str ("-"%char :: zfill (w - 1) (nat_digits (- a)))
  else str (zfill w (nat_digits a)).

Definition bit_of (c : ascii) : option Z :=
  if decide (c = "0"%char) then Some 0
  else if decide (c = "1"%char) then Some 1
  else None.

Fixpoint digits_val (acc : Z) (l : list ascii) : option Z :=
  match l with
  | [] => Some acc
  | c :: l' =>
      match bit_of c with
      | Some d => digits_val (2 * acc + d) l'
      | None => None
      end
  end.

Definition unsigned_val (l : list ascii) : option Z :=
  match l with
  | [] => None
  | _ => digits_val 0 l
  end.

(** [int(s, 2)] on the strings [format_b] and its slices can hold: an
    optional sign and at least one binary digit, anything else is a
    [ValueError]. *)
Definition int2 (s : string) : result Z :=
  let v :=
    match chars s with
    | c :: l =>
        if decide (c = "-"%char) then Z.opp <$> unsigned_val l
        else if decide (c = "+"%char) then unsigned_val l
        else unsigned_val (c :: l)
    | [] => None
    end in
  match v with
  | Some z => Ok z
  | None => Raise (ValueError "invalid literal for int() with base 2")
  end.

(** [==] between values of the two types the status checks compare: a
    [str] never equals an [int]. *)
Inductive value : Type :=
  | VInt (z : Z)
  | VStr (s : string).

Definition eq (a b : value) : bool :=
  match a, b with
  | VInt x, VInt y => bool_decide (x = y)
  | VStr x, VStr y => bool_decide (x = y)
  | _, _ => false
  end.

End Py.

Import Py.

(** ** dlpyc900.py: module-level helpers *)

(** [bits_to_bytes]: cut the bit string into groups of eight characters
    from the left, read each as a base-2 number, and reverse the list. *)
Definition bits_to_bytes (bits : string) : result (list Z) :=
  a ← mapM (fun i => int2 (str_slice bits (Some i) (Some (i + 8))))
           (range 0 (str_len bits) 8);
  Ok (reverse a).

Definition number_to_bits (a : Z) (bitlen : nat) : string :=
  format_b a bitlen.

(** [parse_reply]: the reply is the byte buffer read from the device, or
    [None] after a write-only command.  The result is the source's
    5-tuple [(error_flag, flag_byte, sequence_byte, length, data)]. *)
Definition Reply : Type := bool * string * Z * Z * list Z.

Definition reply_data (r : Reply) : list Z := r.2.
Definition reply_length (r : Reply) : Z := r.1.2.
Definition reply_sequence_byte (r : Reply) : Z := r.1.1.2.
Definition reply_flag_byte (r : Reply) : string := r.1.1.1.2.
Definition reply_error_flag (r : Reply) : bool := r.1.1.1.1.

Definition parse_reply (reply : option (list Z)) : result (option Reply) :=
  match reply with
  | None => Ok None
  | Some reply =>
      r0 ← index reply 0;
      let flag_byte := number_to_bits r0 8 in
      sequence_byte ← index reply 1;
      r2 ← index reply 2;
      r3 ← index reply 3;
      let length := Z.lor r2 (Z.shiftl r3 8) in
      let data := slice reply (Some 4) (Some (4 + length)) in
      let error_flag := negb (Z.land r0 0x20 =? 0) in
      Ok (Some (error_flag, flag_byte, sequence_byte, length, data))
  end.

(** [int(c)] for a one-character string: a decimal digit. *)
Definition int_char (c : ascii) : result Z :=
  let n := Z.of_nat (nat_of_ascii c) in
  if (48 <=? n) && (n <=? 57) then Ok (n - 48)
  else Raise (ValueError "invalid literal for int() with base 10").

(** [bits_to_bools]: [tuple(map(int, a))]. *)
Definition bits_to_bools (a : string) : result (list Z) :=
  mapM int_char (chars a).

(** [chr(i)] for a byte. *)
Definition chr (i : Z) : ascii := ascii_of_nat (Z.to_nat i).

(** ** dlpyc900.py: class [dmd] *)

Module DMD.

(** What the object does to the outside: calls on the USB device handle
    and sleeps.  Durations are in milliseconds. *)
Inductive event : Type :=
  | Write (endpoint : Z) (data : list Z) (ok : bool)
  | Read (endpoint size : Z) (answer : option (list Z))
  | Sleep (ms : Z).

(** The object and its transport.  [write_faults] tells which of the
    coming [dev.write] calls raise [usb.USBError] (calls beyond the list
    succeed); [replies] holds what the coming [dev.read] calls return (a
    read with nothing queued times out with [usb.USBError]). *)
Record world : Type := World {
  current_mode : string;
  write_faults : list bool;
  replies : list (list Z);
  trace : list event;
}.

Definition M (A : Type) : Type := world → result A * world.

#[global] Instance M_ret : MRet M := fun A a w => (Ok a, w).
#[global] Instance M_bind : MBind M := fun A B f m w =>
  match m w with
  | (Ok a, w') => f a w'
  | (Raise e, w') => (Raise e, w')
  end.

Definition raise {A} (e : exn) : M A := fun w => (Raise e, w).

Definition lift {A} (r : result A) : M A := fun w => (r, w).

(** [try: body except E: handler] *)
Definition try_except {A} (body : M A) (E : exn → bool) (handler : M A) : M A :=
  fun w =>
    match body w with
    | (Raise e, w') => if E e then handler w' else (Raise e, w')
    | r => r
    end.

Definition is_USBError (e : exn) : bool :=
  match e with USBError => true | _ => false end.
Definition is_IndexError (e : exn) : bool :=
  match e with IndexError => true | _ => false end.

Definition log (e : event) (w : world) : world :=
  World (current_mode w) (write_faults w) (replies w) (trace w ++ [e]).

Definition dev_write (endpoint : Z) (data : list Z) : M unit := fun w =>
  match write_faults w with
  | true :: fs =>
      (Raise USBError,
       World (current_mode w) fs (replies w) (trace w ++ [Write endpoint data false]))
  | false :: fs =>
      (Ok (), World (current_mode w) fs (replies w) (trace w ++ [Write endpoint data true]))
  | [] => (Ok (), log (Write endpoint data true) w)
  end.

Definition dev_read (endpoint size : Z) : M (list Z) := fun w =>
  match replies w with
  | r :: rs =>
      let answer := take (Z.to_nat size) r in
      (Ok answer,
       World (current_mode w) (write_faults w) rs
             (trace w ++ [Read endpoint size (Some answer)]))
  | [] => (Raise USBError, log (Read endpoint size None) w)
  end.

Definition time_sleep (ms : Z) : M unit := fun w => (Ok (), log (Sleep ms) w).

Definition get_current_mode : M string := fun w => (Ok (current_mode w), w).
Definition set_current_mode (m : string) : M unit := fun w =>
  (Ok (), World m (write_faults w) (replies w) (trace w)).

(** The two dictionaries [__init__] stores in the object. *)
Definition display_modes : gmap string Z :=
  <["video" := 0]> (<["pattern" := 1]> (<["video-pattern" := 2]> (<["otf" := 3]> ∅))).
Definition display_modes_inv : gmap Z string :=
  <[0 := "video"]> (<[1 := "pattern"]> (<[2 := "video-pattern"]> (<[3 := "otf"]> ∅))).

(** [d[k]] *)
Definition getitem `{Countable K} {V} (d : gmap K V) (k : K) : result V :=
  match d !! k with
  | Some v => Ok v
  | None => Raise KeyError
  end.

(** [ans[-1]]: the data of a reply; [None] is not subscriptable. *)
Definition last_item (ans : option Reply) : result (list Z) :=
  match ans with
  | Some r => Ok (reply_data r)
  | None => Raise TypeError
  end.

(** One pass of the loop that sends the payload beyond the first packet;
    [fuel] bounds the number of passes. *)
Fixpoint send_rest (fuel : nat) (remaining_data : list Z) : M unit :=
  if len remaining_data >? 0 then
    match fuel with
    | O => raise OutOfFuel
    | S fuel' =>
        let chunk := slice remaining_data None (Some 64) in
        let remaining_data := slice remaining_data (Some 64) None in
        let chunk :=
          if len chunk <? 64
          then chunk ++ replicate (Z.to_nat (64 - len chunk)) 0
          else chunk in
        try_except (dev_write 1 chunk) is_USBError
                   (time_sleep 100;; dev_write 1 chunk);;
        send_rest fuel' remaining_data
    end
  else mret ().

Definition send_command (mode : string) (sequence_byte command : Z)
    (payload : option (list Z)) : M (option Reply) :=
  let payload := default [] payload in
  (* Flag Byte *)
  let flag_string := (if decide (mode = "r") then "1" else "0") +:+ "1000000" in
  fb ← lift (bits_to_bytes flag_string);
  b0 ← lift (index fb 0);
  let buffer := [b0] in
  (* Sequence Byte *)
  let buffer := buffer ++ [sequence_byte] in
  (* Length Bytes *)
  temp ← lift (bits_to_bytes (number_to_bits (len payload + 2) 16));
  t0 ← lift (index temp 0);
  t1 ← lift (index temp 1);
  let buffer := buffer ++ [t0] ++ [t1] in
  (* Command Bytes *)
  let buffer := buffer ++ [Z.land command 0xFF] in
  let buffer := buffer ++ [Z.land (Z.shiftr command 8) 0xFF] in
  if len payload + 6 >? 512 then
    raise (DMDerror "Payload exceeds 512-byte buffer limit")
  else
    (if len buffer + len payload <? 65 then
       let buffer := buffer ++ payload in
       let buffer := buffer ++ replicate (Z.to_nat (64 - len buffer)) 0 in
       try_except (dev_write 1 buffer) is_USBError
                  (time_sleep 100;; dev_write 1 buffer)
     else
       let remaining_data := payload in
       let buffer := buffer ++ slice remaining_data None (Some 58) in
       dev_write 1 buffer;;
       let remaining_data := slice remaining_data (Some 58) None in
       send_rest (length remaining_data) remaining_data);;
    (* read reply if required *)
    if decide (mode = "r") then
      time_sleep 100;;
      answer ← dev_read 0x81 64;
      a0 ← lift (index answer 0);
      if negb (Z.land a0 0x20 =? 0) then
        raise (DMDerror "DMD reply has error flag set!")
      else lift (parse_reply (Some answer))
    else lift (parse_reply None).

(** *** Status checks *)

Definition check_communication_status : M unit :=
  ans ← send_command "r" 10 0x1A49 (Some []);
  d ← lift (last_item ans);
  d0 ← lift (index d 0);
  let ansbit := number_to_bits d0 8 in
  a0 ← lift (str_index ansbit 0);
  a2 ← lift (str_index ansbit 2);
  (* ansbit[0] == ansbit[2] == 0 *)
  if negb (eq (VStr a0) (VStr a2) && eq (VStr a2) (VInt 0)) then
    raise (DMDerror "Controller cannot communicate with DMD")
  else mret ().

Definition check_system_status : M unit :=
  ans ← send_command "r" 10 0x1A0B (Some []);
  d ← lift (last_item ans);
  d0 ← lift (index d 0);
  let ansbit := number_to_bits d0 8 in
  a0 ← lift (str_index ansbit 0);
  if eq (VStr a0) (VInt 0) then
    raise (DMDerror "Internal Memory Test failed")
  else mret ().

(** *** Display mode *)

Definition get_display_mode : M string :=
  ans ← send_command "r" 0x00 0x1A1B (Some []);
  d ← lift (last_item ans);
  d0 ← lift (index d 0);
  m ← lift (getitem display_modes_inv d0);
  set_current_mode m;;
  get_current_mode.

Definition set_display_mode (mode : string) : M unit :=
  cur ← get_current_mode;
  if bool_decide (display_modes !! mode = None) then
    raise (ValueError ("mode '" +:+ mode +:+ "' unknown"))
  else if bool_decide (mode = "video-pattern") && negb (bool_decide (cur = "video")) then
    raise (ValueError "To change to Video Pattern Mode the system must first change to Video Mode with the desired source enabled and sync must be locked before switching to Video Pattern Mode.")
  else
    code ← lift (getitem display_modes mode);
    send_command "w" 0x00 0x1A1B (Some [code]);;
    time_sleep 500;;
    new_display_mode ← try_except get_display_mode is_IndexError get_display_mode;
    if negb (bool_decide (new_display_mode = mode)) then
      raise (ConnectionError "Mode activation failed.")
    else mret ().

(** *** Pattern display *)

Definition start_pattern : M unit :=
  send_command "w" 5 0x1A24 (Some [2]);; mret ().
Definition pause_pattern : M unit :=
  send_command "w" 5 0x1A24 (Some [1]);; mret ().
Definition stop_pattern : M unit :=
  send_command "w" 5 0x1A24 (Some [0]);; mret ().

(** The payload [start_pattern_from_LUT] hands to [send_command]. *)
Definition start_pattern_from_LUT_payload
    (nr_of_LUT_entries nr_of_patterns_to_display : Z) : result (list Z) :=
  byte_01 ← bits_to_bytes (number_to_bits nr_of_LUT_entries 10);
  byte_25 ← bits_to_bytes (number_to_bits nr_of_patterns_to_display 32);
  Ok (byte_01 ++ byte_25).

Definition start_pattern_from_LUT
    (nr_of_LUT_entries nr_of_patterns_to_display : Z) : M unit :=
  payload ← lift (start_pattern_from_LUT_payload nr_of_LUT_entries
                                                 nr_of_patterns_to_display);
  send_command "w" 1 0x1A31 (Some payload);; mret ().

(** *** Power management *)

(** The function returns a [str], or [None] when it runs off its end. *)
Definition get_current_powermode : M (option string) :=
  r ← send_command "r" 0x00 0x0201 (Some []);
  d ← lift (last_item r);
  idlestatus ← lift (index d 0);
  r ← send_command "r" 0x00 0x0200 (Some []);
  d ← lift (last_item r);
  sleepstatus ← lift (index d 0);
  if sleepstatus =? 0 then
    if idlestatus =? 0 then mret (Some "normal")
    else if idlestatus =? 1 then mret (Some "idle")
    else mret None
  else if sleepstatus =? 1 then mret (Some "standby")
  else mret (Some "undocumented state").

Definition standby : M unit :=
  stop_pattern;;
  send_command "w" 0x00 0x0200 (Some [1]);;
  time_sleep 100;;
  pm ← get_current_powermode;
  if negb (bool_decide (pm = Some "standby")) then
    raise (DMDerror "Failed to enter standby mode")
  else mret ().

(** *** Further status queries *)

Definition get_main_status : M (list Z) :=
  ans ← send_command "r" 10 0x1A0C (Some []);
  d ← lift (last_item ans);
  d0 ← lift (index d 0);
  let ansbit := number_to_bits d0 8 in
  b ← lift (bits_to_bools ansbit);
  mret (slice b None (Some 6)).

Definition hardware_pos : gmap Z string :=
  <[0x00 := "unknown"]> (<[0x01 := "DLP6500"]> (<[0x02 := "DLP9000"]>
  (<[0x03 := "DLP670S"]> (<[0x04 := "DLP500YX"]> (<[0x05 := "DLP5500"]> ∅))))).

Definition get_hardware : M (string * string) :=
  ans ← send_command "r" 10 0x0206 (Some []);
  d ← lift (last_item ans);
  hw ← lift (index d 0);
  let fw := slice d (Some 1) None in
  let hardware :=
    match getitem hardware_pos hw with
    | Ok name => name
    | Raise _ => "undocumented hardware"
    end in
  let firmware := str (chr <$> fw) in
  mret (hardware, firmware).

Definition get_firmware_version
    : M ((Z * Z * Z) * (Z * Z * Z) * (Z * Z * Z) * (Z * Z * Z)) :=
  ans ← send_command "r" 10 0x0205 (Some []);
  data ← lift (last_item ans);
  let triple (major minor lo hi : Z) : result (Z * Z * Z) :=
    a ← index data major; b ← index data minor;
    c ← index data lo; d ← index data hi;
    Ok (a, b, Z.lor c (Z.shiftl d 8)) in
  app ← lift (triple 3 2 0 1);
  api ← lift (triple 7 6 4 5);
  sw_config ← lift (triple 11 10 8 9);
  seq_config ← lift (triple 15 14 12 13);
  mret (app, api, sw_config, seq_config).

Definition get_error_description : M string :=
  ans ← send_command "r" 10 0x0101 (Some []);
  d ← lift (last_item ans);
  mret (str (chr <$> List.filter (fun i => negb (i =? 0)) d)).

(** *** Parallel interface *)

Definition set_port_clock_definition (data_port px_clock data_enable vhsync : Z)
    : M unit :=
  let payload := 0 in
  let payload := Z.lor payload (Z.land data_port 0x03) in
  let payload := Z.lor payload (Z.shiftl (Z.land px_clock 0x03) 2) in
  let payload := Z.lor payload (Z.shiftl (Z.land data_enable 0x01) 4) in
  let payload := Z.lor payload (Z.shiftl (Z.land vhsync 0x01) 5) in
  send_command "w" 2 0x1A03 (Some [payload]);; mret ().

Definition set_input_source (source bitdepth : Z) : M unit :=
  let payload := 0 in
  let payload := Z.lor payload (Z.land source 0x07) in
  let payload := Z.lor payload (Z.shiftl (Z.land bitdepth 0x03) 3) in
  send_command "w" 1 0x1A00 (Some [payload]);; mret ().

Definition lock_displayport : M unit :=
  send_command "w" 0 0x1A01 (Some [2]);; set_input_source 0 0.
Definition lock_hdmi : M unit :=
  send_command "w" 0 0x1A01 (Some [1]);; set_input_source 0 0.
Definition lock_release : M unit :=
  send_command "w" 0 0x1A01 (Some [0]);; set_input_source 0 0.

Definition get_source_lock : M Z :=
  st ← get_main_status;
  locked ← lift (index st 3);
  if negb (locked =? 0) then
    port ← send_command "r" 0 0x1A01 (Some []);
    d ← lift (last_item port);
    lift (index d 0)
  else mret 0.

(** *** Further power and image commands *)

Definition wakeup : M unit :=
  send_command "w" 0x00 0x0200 (Some [0]);; mret ().
Definition reset : M unit :=
  send_command "w" 0x00 0x0200 (Some [2]);; mret ().
Definition idle_on : M unit :=
  stop_pattern;; send_command "w" 0x00 0x0201 (Some [1]);; mret ().
Definition idle_off : M unit :=
  send_command "w" 0x00 0x0201 (Some [3]);; mret ().

Definition set_flip_longaxis (flip : bool) : M unit :=
  send_command "w" 0 0x1008 (Some [Z.b2z flip]);; mret ().
Definition get_flip_longaxis : M bool :=
  answer ← send_command "r" 0 0x1008 None;
  d ← lift (last_item answer);
  d0 ← lift (index d 0);
  mret (d0 >? 0).
Definition set_flip_shortaxis (flip : bool) : M unit :=
  send_command "w" 0 0x1009 (Some [Z.b2z flip]);; mret ().
Definition get_flip_shortaxis : M bool :=
  answer ← send_command "r" 0 0x1009 None;
  d ← lift (last_item answer);
  d0 ← lift (index d 0);
  mret (d0 >? 0).

(** *** Source, test pattern, LED and trigger settings *)

Definition input_source_config_payload (width height frame_rate : Z) : list Z :=
  [ Z.land width 0xFF; Z.land (Z.shiftr width 8) 0xFF;
    Z.land height 0xFF; Z.land (Z.shiftr height 8) 0xFF;
    Z.land frame_rate 0xFF; Z.land (Z.shiftr frame_rate 8) 0xFF ].

Definition set_input_source_config (width height frame_rate : Z) : M unit :=
  let payload := input_source_config_payload width height frame_rate in
  send_command "w" 1 0x1A3C (Some payload);; mret ().

Definition set_test_pattern (pattern : Z) : M unit :=
  if negb ((0 <=? pattern) && (pattern <=? 10)) then
    raise (ValueError "Pattern index must be 0-10")
  else send_command "w" 1 0x1203 (Some [pattern]);; mret ().

(** The four bytes of a 32-bit value, low byte first, as written out in
    [set_min_led_pulse_width_us], [set_trigger_in1] and
    [load_pattern_on_the_fly]. *)
Definition four_bytes (v : Z) : list Z :=
  [ Z.land v 0xFF; Z.land (Z.shiftr v 8) 0xFF;
    Z.land (Z.shiftr v 16) 0xFF; Z.land (Z.shiftr v 24) 0xFF ].

Definition set_min_led_pulse_width_us (width : Z) : M unit :=
  let payload := four_bytes width in
  send_command "w" 1 0x1A41 (Some payload);; mret ().

Definition trigger_out1_payload (polarity : bool) (rising_delay falling_delay : Z)
    : list Z :=
  [ Z.b2z polarity;
    Z.land rising_delay 0xFF; Z.land (Z.shiftr rising_delay 8) 0xFF;
    Z.land falling_delay 0xFF; Z.land (Z.shiftr falling_delay 8) 0xFF ].

Definition set_trigger_out1 (polarity : bool) (rising_delay falling_delay : Z)
    : M unit :=
  let payload := trigger_out1_payload polarity rising_delay falling_delay in
  send_command "w" 1 0x1A1D (Some payload);; mret ().

Definition set_trigger_in1 (delay : Z) : M unit :=
  let payload := four_bytes delay in
  send_command "w" 1 0x1A35 (Some payload);; mret ().

(** *** Pattern LUT definition *)

(** The payload [setup_pattern_LUT_definition] hands to [send_command].
    In the source [<<] binds tighter than [&], so [x & 0x07 << 1] is
    [x & (0x07 << 1)]. *)
Definition setup_pattern_LUT_definition_payload
    (pattern_index : Z) (disable_pattern_2_trigger_out extended_bit_depth : bool)
    (exposuretime darktime color bitdepth image_pattern_index bit_position : Z)
    : list Z :=
  let disable_pattern_2_trigger_out := Z.b2z disable_pattern_2_trigger_out in
  let extended_bit_depth := Z.b2z extended_bit_depth in
  let clear_after_exposure := 0 in
  let wait_for_trigger := 0 in
  let pattern_index_bytes :=
    [Z.land pattern_index 0xFF; Z.land (Z.shiftr pattern_index 8) 0xFF] in
  let exposuretime_bytes :=
    [Z.land exposuretime 0xFF; Z.land (Z.shiftr exposuretime 8) 0xFF;
     Z.land (Z.shiftr exposuretime 16) 0xFF] in
  let byte_5 := 0 in
  let byte_5 := Z.lor byte_5 (Z.land clear_after_exposure 0x01) in
  let byte_5 := Z.lor byte_5 (Z.land (bitdepth - 1) (Z.shiftl 0x07 1)) in
  let byte_5 := Z.lor byte_5 (Z.land color (Z.shiftl 0x07 4)) in
  let byte_5 := Z.lor byte_5 (Z.land wait_for_trigger (Z.shiftl 0x01 7)) in
  let darktime_bytes :=
    [Z.land darktime 0xFF; Z.land (Z.shiftr darktime 8) 0xFF;
     Z.land (Z.shiftr darktime 16) 0xFF] in
  let byte_9 := 0 in
  let byte_9 := Z.lor byte_9 (Z.land disable_pattern_2_trigger_out 0x01) in
  let byte_9 := Z.lor byte_9 (Z.land extended_bit_depth (Z.shiftl 0x01 1)) in
  let image_pattern_index_bytes :=
    [Z.land image_pattern_index 0xFF;
     Z.land (Z.shiftr image_pattern_index 8) 0xFF] in
  let bit_postion_byte := Z.shiftl (Z.land bit_position 0x1F) 3 in
  let byte_10_11 :=
    [Z.land image_pattern_index 0xFF;
     Z.lor (Z.land (Z.shiftr image_pattern_index 8) 0xFF) bit_postion_byte] in
  pattern_index_bytes ++ exposuretime_bytes ++ [byte_5] ++ darktime_bytes
    ++ [byte_9] ++ byte_10_11.

Definition setup_pattern_LUT_definition
    (pattern_index : Z) (disable_pattern_2_trigger_out extended_bit_depth : bool)
    (exposuretime darktime color bitdepth image_pattern_index bit_position : Z)
    : M unit :=
  let payload :=
    setup_pattern_LUT_definition_payload pattern_index
      disable_pattern_2_trigger_out extended_bit_depth exposuretime darktime
      color bitdepth image_pattern_index bit_position in
  send_command "w" 1 0x1A34 (Some payload);; mret ().

(** *** Loading patterns on the fly *)

(** [for x in l: body(x)] *)
Fixpoint for_each {A} (l : list A) (body : A → M unit) : M unit :=
  match l with
  | [] => mret ()
  | x :: l' => body x;; for_each l' body
  end.

Section OnTheFly.

(** [encode] belongs to [dlpyc900.erle]; it turns the images into the
    encoded bytes and their number. *)
Context {Images : Type} (encode : Images → list Z * Z).

Definition load_pattern_on_the_fly (images : Images) (primary : bool) : M unit :=
  let '(encoded, length) := encode images in
  let init_cmd := if primary then 0x1A2A else 0x1A2C in
  let load_cmd := if primary then 0x1A2B else 0x1A2D in
  send_command "w" 1 init_cmd (Some (four_bytes length));;
  let chunk_size := 60 in
  for_each (range 0 (len encoded) chunk_size) (fun i =>
    let chunk := slice encoded (Some i) (Some (i + chunk_size)) in
    send_command "w" 1 load_cmd (Some chunk);; mret ()).

End OnTheFly.

(** *** Views of [send_command] for the proofs

    The six header bytes, the block that writes the packets and the
    block that reads the answer, each under a name.  Lemma
    [send_command_phases] below shows that [send_command] is the three
    in sequence. *)

Definition header (mode : string) (sequence_byte command n : Z) : list Z :=
  [ if decide (mode = "r") then 192 else 64;
    sequence_byte;
    (n + 2) `mod` 256; (n + 2) `div` 256;
    Z.land command 0xFF; Z.land (Z.shiftr command 8) 0xFF ].

Definition write_phase (buffer payload : list Z) : M unit :=
  if len buffer + len payload <? 65 then
    let buffer := buffer ++ payload in
    let buffer := buffer ++ replicate (Z.to_nat (64 - len buffer)) 0 in
    try_except (dev_write 1 buffer) is_USBError
               (time_sleep 100;; dev_write 1 buffer)
  else
    let remaining_data := payload in
    let buffer := buffer ++ slice remaining_data None (Some 58) in
    dev_write 1 buffer;;
    let remaining_data := slice remaining_data (Some 58) None in
    send_rest (length remaining_data) remaining_data.

Definition read_phase (mode : string) : M (option Reply) :=
  if decide (mode = "r") then
    time_sleep 100;;
    answer ← dev_read 0x81 64;
    a0 ← lift (index answer 0);
    if negb (Z.land a0 0x20 =? 0) then
      raise (DMDerror "DMD reply has error flag set!")
    else lift (parse_reply (Some answer))
  else lift (parse_reply None).

(** The packets the device accepted, in the order they were written. *)
Definition packets (evs : list event) : list (list Z) :=
  omap (fun e => match e with Write _ data true => Some data | _ => None end) evs.

(** Every call of [dev.write], with its data and whether it succeeded. *)
Definition writes (evs : list event) : list (list Z * bool) :=
  omap (fun e => match e with Write _ data ok => Some (data, ok) | _ => None end) evs.

(** The events of packets written without a fault. *)
Definition sent (ps : list (list Z)) : list event :=
  (fun p => Write 1 p true) <$> ps.

(** A reply of the device that carries [data]: flag byte, sequence
    byte, the length of the data over two bytes, low byte first, and
    the data. *)
Definition answer (flag sequence_byte : Z) (data : list Z) : list Z :=
  flag :: sequence_byte :: len data `mod` 256 :: len data `div` 256 :: data.

(** A world after more events. *)
Definition after (w : world) (evs : list event) : world :=
  World (current_mode w) (write_faults w) (replies w) (trace w ++ evs).

(** The events of a read command without payload that was answered:
    its packet, the pause, the read. *)
Definition query_events (sequence_byte command : Z) (answer : list Z)
    : list event :=
  [ Write 1 (header "r" sequence_byte command 0 ++ replicate 58 0) true;
    Sleep 100;
    Read 0x81 64 (Some answer) ].

(** The packets of a write command whose payload fits two packets. *)
Definition call_packets (sequence_byte command : Z) (payload : list Z)
    : list (list Z) :=
  let hdr := header "w" sequence_byte command (len payload) in
  if len payload <=? 58 then
    [hdr ++ payload ++ replicate (Z.to_nat (58 - len payload)) 0]
  else
    [hdr ++ take 58 payload;
     drop 58 payload ++ replicate (Z.to_nat (122 - len payload)) 0].

(** A list cut into pieces of [n] items, the last one shorter when the
    length is no multiple of [n]; [fuel] bounds the number of pieces. *)
Fixpoint pieces {A} (fuel n : nat) (l : list A) : list (list A) :=
  match fuel, l with
  | S fuel', _ :: _ => take n l :: pieces fuel' n (drop n l)
  | _, _ => []
  end.

(** A value read from bytes, low byte first. *)
Definition le_value (l : list Z) : Z :=
  foldr (fun b acc => b + 256 * acc) 0 l.

End DMD.

(** ** WCIL.py: class [RS485Device] *)

Module WCIL.

(** Calls on the serial port, and lines printed. *)
Inductive event : Type :=
  | Write (data : list Z) (ok : bool)
  | Read (size : Z) (answer : option (list Z))
  | Sleep (ms : Z)
  | Print (line : string).

(** The attributes [__init__] sets besides the port. *)
Record RS485Device : Type := Device {
  frame_header : list Z;
  frame_tail : list Z;
  address : Z;
}.

Definition init : RS485Device := Device [0x55; 0xAA] [0xDA; 0xC3] 0x01.

(** The serial line.  [write_faults] tells which of the coming
    [serial.write] calls raise [SerialException], with its text (calls
    beyond the list succeed); [responses] holds what the coming
    [serial.read] calls find on the line, or the text of the exception
    they raise (a read with nothing queued times out and returns no
    bytes). *)
Record world : Type := World {
  write_faults : list (option string);
  responses : list (list Z + string);
  trace : list event;
}.

Definition M (A : Type) : Type := world → result A * world.

#[global] Instance M_ret : MRet M := fun A a w => (Ok a, w).
#[global] Instance M_bind : MBind M := fun A B f m w =>
  match m w with
  | (Ok a, w') => f a w'
  | (Raise e, w') => (Raise e, w')
  end.

Definition lift {A} (r : result A) : M A := fun w => (r, w).

(** [try: body except serial.SerialException as e: handler(e)] *)
Definition try_except_serial {A} (body : M A) (handler : string → M A) : M A :=
  fun w =>
    match body w with
    | (Raise (SerialException msg), w') => handler msg w'
    | r => r
    end.

Definition log (e : event) (w : world) : world :=
  World (write_faults w) (responses w) (trace w ++ [e]).

Definition serial_write (data : list Z) : M unit := fun w =>
  match write_faults w with
  | Some msg :: fs =>
      (Raise (SerialException msg),
       World fs (responses w) (trace w ++ [Write data false]))
  | None :: fs => (Ok (), World fs (responses w) (trace w ++ [Write data true]))
  | [] => (Ok (), log (Write data true) w)
  end.

Definition serial_read (size : Z) : M (list Z) := fun w =>
  match responses w with
  | inl r :: rs =>
      let answer := take (Z.to_nat size) r in
      (Ok answer, World (write_faults w) rs (trace w ++ [Read size (Some answer)]))
  | inr msg :: rs =>
      (Raise (SerialException msg),
       World (write_faults w) rs (trace w ++ [Read size None]))
  | [] => (Ok [], log (Read size (Some [])) w)
  end.

Definition time_sleep (ms : Z) : M unit := fun w => (Ok (), log (Sleep ms) w).
Definition print (line : string) : M unit := fun w => (Ok (), log (Print line) w).

Section Methods.
Variable self : RS485Device.

Definition _calculate_checksum (data : list Z) : Z :=
  Z.land (sum data) 0xFF.

Definition _build_frame (func_code : Z) (data : list Z) : result (list Z) :=
  b ← bytes [address self; func_code];
  let frame := frame_header self ++ b ++ data in
  let checksum := _calculate_checksum (slice frame (Some 3) (Some (-2))) in
  c ← bytes [checksum];
  Ok (frame ++ c ++ frame_tail self).

Definition _validate_response (response : list Z) (expected_func_code : Z)
    : result bool :=
  if len response <? 8 then Ok false
  else if negb (bool_decide (slice response None (Some 2) = frame_header self))
          || negb (bool_decide (slice response (Some (-2)) None = frame_tail self))
  then Ok false
  else
    r2 ← index response 2;
    if negb (r2 =? address self) then Ok false
    else
      r3 ← index response 3;
      if negb (r3 =? expected_func_code) then Ok false
      else
        let checksum := _calculate_checksum (slice response (Some 3) (Some (-3))) in
        c ← index response (-3);
        Ok (checksum =? c).

Definition _send_and_receive (frame : list Z) (expected_func_code : Z)
    : M (option (list Z)) :=
  try_except_serial
    (serial_write frame;;
     time_sleep 50;;
     response ← serial_read 10;
     valid ← lift (_validate_response response expected_func_code);
     if (valid : bool) then mret (Some response)
     else print "Invalid response received";; mret (None : option (list Z)))
    (fun e => print ("Serial error: " +:+ e);; mret (None : option (list Z))).

(** [response and response[4:7] == data] *)
Definition echoes (response : option (list Z)) (data : list Z) : bool :=
  match response with
  | Some r => negb (bool_decide (r = [])) && bool_decide (slice r (Some 4) (Some 7) = data)
  | None => false
  end.

Definition reset_output : M bool :=
  data ← lift (bytes [0x01; 0x00; 0x00]);
  frame ← lift (_build_frame 0x02 data);
  response ← _send_and_receive frame 0x02;
  if echoes response data then
    print "Output reset successfully";; mret true
  else print "Failed to reset output";; mret false.

Definition set_output_current (current_ma : Z) : M bool :=
  if current_ma >? 3500 then
    print "Current exceeds 3500mA limit";; mret false
  else
    let byte0 := Z.land (Z.shiftr current_ma 8) 0xFF in
    let byte1 := Z.land current_ma 0xFF in
    data ← lift (bytes [byte0; byte1; 0x00]);
    frame ← lift (_build_frame 0x03 data);
    response ← _send_and_receive frame 0x03;
    if echoes response data then
      print ("Current set to " +:+ pretty current_ma +:+ "mA");; mret true
    else print "Failed to set current or current > 3500mA";; mret false.

Definition clear_fault : M bool :=
  data ← lift (bytes [0x01; 0x00; 0x00]);
  frame ← lift (_build_frame 0x06 data);
  response ← _send_and_receive frame 0x06;
  if echoes response data then
    print "Fault cleared successfully";; mret true
  else print "Failed to clear fault";; mret false.

End Methods.

End WCIL.

(** ** dlpyc900.py: methods of [dmd] that print, assert, or read a
    local variable before it is bound *)

Module Diag.

(** The exceptions of [Py] and the two these methods add. *)
Inductive exn : Type :=
  | Base (e : Py.exn)
  | AssertionError (msg : string)
  | UnboundLocalError (name : string).

Inductive result (A : Type) : Type :=
  | Ok (a : A)
  | Raise (e : exn).
Arguments Ok {A} a.
Arguments Raise {A} e.

(** The object with its transport, and the lines printed. *)
Record world : Type := World {
  dmd : DMD.world;
  stdout : list string;
}.

Definition M (A : Type) : Type := world → result A * world.

#[global] Instance M_ret : MRet M := fun A a w => (Ok a, w).
#[global] Instance M_bind : MBind M := fun A B f m w =>
  match m w with
  | (Ok a, w') => f a w'
  | (Raise e, w') => (Raise e, w')
  end.

Definition raise {A} (e : exn) : M A := fun w => (Raise e, w).

(** A method of [DMD] run on the object. *)
Definition call {A} (m : DMD.M A) : M A := fun w =>
  match m (dmd w) with
  | (Py.Ok a, d) => (Ok a, World d (stdout w))
  | (Py.Raise e, d) => (Raise (Base e), World d (stdout w))
  end.

Definition lift {A} (r : Py.result A) : M A := fun w =>
  match r with
  | Py.Ok a => (Ok a, w)
  | Py.Raise e => (Raise (Base e), w)
  end.

Definition print (line : string) : M unit := fun w =>
  (Ok (), World (dmd w) (stdout w ++ [line])).

Definition error_dict : gmap Z string :=
  list_to_map
    [ (1, "Batch file checksum error");
      (2, "Device failure");
      (3, "Invalid command number");
      (4, "Incompatible controller and DMD combination");
      (5, "Command not allowed in current mode");
      (6, "Invalid command parameter");
      (7, "Item referred by the parameter is not present");
      (8, "Out of resource (RAM or Flash)");
      (9, "Invalid BMP compression type");
      (10, "Pattern bit number out of range");
      (11, "Pattern BMP not present in flash");
      (12, "Pattern dark time is out of range");
      (13, "Signal delay parameter is out of range");
      (14, "Pattern exposure time is out of range");
      (15, "Pattern number is out of range");
      (16, "Invalid pattern definition (errors other than 9-15)");
      (17, "Pattern image memory address is out of range");
      (255, "Internal Error") ].

Definition check_for_error : M unit :=
  ans ← call (DMD.send_command "r" 0x22 0x0100 (Some []));
  d ← lift (DMD.last_item ans);
  if len d =? 0 then mret ()
  else
    d0 ← lift (index d 0);
    if d0 =? 0 then mret ()
    else
      let error_message :=
        match DMD.getitem error_dict d0 with
        | Py.Ok msg => msg
        | Py.Raise _ => "Undocumented error [" +:+ pretty d0 +:+ "]"
        end in
      print error_message.

Definition get_port_clock_definition : M (Z * Z * Z * Z) :=
  let seq_byte := 243 in
  answer ← call (DMD.send_command "r" seq_byte 0x1A03 (Some []));
  match answer with
  | None => raise (Base TypeError)
  | Some r =>
      if negb (reply_sequence_byte r =? seq_byte) then
        raise (AssertionError "received answer does not match command issued")
      else
        data ← lift (index (reply_data r) 0);
        let data_port := Z.land data 0x03 in
        let px_clock := Z.land (Z.shiftr data 2) 0x03 in
        let data_enable := Z.land (Z.shiftr data 4) 0x01 in
        let vhsync := Z.land (Z.shiftr data 5) 0x01 in
        mret (data_port, px_clock, data_enable, vhsync)
  end.

Definition get_input_source : M (Z * Z) :=
  let seq_byte := 112 in
  answer ← call (DMD.send_command "r" seq_byte 0x1A00 (Some []));
  match answer with
  | None => raise (Base TypeError)
  | Some r =>
      if negb (reply_sequence_byte r =? seq_byte) then
        raise (AssertionError "received answer does not match command issued")
      else
        data ← lift (index (reply_data r) 0);
        let source := Z.land data 0x07 in
        let bitdepth := Z.land (Z.shiftr data 3) 0x03 in
        mret (source, bitdepth)
  end.

(** One [if ansbit[i] == "0": ... elif ansbit[i] == "1": ...] of
    [get_hardware_status]: the text to append and whether an error is
    counted, for the text and the error flag of either branch. *)
Definition report (c : string) (zero : string * bool) (one : string * bool)
    (acc : string * Z) : string * Z :=
  let add (b : string * bool) := (acc.1 +:+ b.1, acc.2 + Z.b2z b.2) in
  if bool_decide (c = "0") then add zero
  else if bool_decide (c = "1") then add one
  else acc.

Definition get_hardware_status : M (string * Z) :=
  ans ← call (DMD.send_command "r" 10 0x1A0A (Some []));
  d ← lift (DMD.last_item ans);
  status ← lift (index d 0);
  (* statusmessage += ... before statusmessage is bound *)
  if Z.land status 0x01 =? 0 then raise (UnboundLocalError "statusmessage")
  else if negb (Z.land status 0x02 =? 0) then
    raise (UnboundLocalError "statusmessage")
  else
    let ansbit := number_to_bits status 8 in
    let acc := ("", 0) in
    c ← lift (str_index ansbit 0);
    let acc := report c ("Internal Initialization Error
", true) ("Internal Initialization Successful
", false) acc in
    c ← lift (str_index ansbit 1);
    let acc := report c ("System is compatible
", false) ("Incompatible Controller or DMD, or wrong firmware loaded on system
", true) acc in
    c ← lift (str_index ansbit 2);
    let acc := report c ("DMD Reset Controller has no errors
", false) ("DMD Reset Controller Error: Multiple overlapping bias or reset operations are accessing the same DMD block
", true) acc in
    c ← lift (str_index ansbit 3);
    let acc := report c ("No Forced Swap Errors
", false) ("Forced Swap Error occurred
", true) acc in
    c ← lift (str_index ansbit 4);
    let acc := report c ("No Secondary Controller Present
", false) ("Secondary Controller Present and Ready
", false) acc in
    c ← lift (str_index ansbit 6);
    let acc := report c ("Sequencer Abort Status reports no errors
", false) ("Sequencer has detected an error condition that caused an abort
", true) acc in
    c ← lift (str_index ansbit 7);
    let acc := report c ("Sequencer reports no errors
", false) ("Sequencer detected an error
", true) acc in
    mret acc.

End Diag.

(** * Properties *)

(** Settle the integer comparisons of the goal that follow from the
    hypotheses by linear arithmetic. *)
Ltac decide_cmp :=
  repeat match goal with
  | |- context [?a >? ?b] => rewrite (Z.gtb_ltb a b)
  | |- context [?a <? ?b] =>
      first [ replace (a <? b) with true by (symmetry; apply Z.ltb_lt; lia)
            | replace (a <? b) with false by (symmetry; apply Z.ltb_ge; lia) ]
  | |- context [?a <=? ?b] =>
      first [ replace (a <=? b) with true by (symmetry; apply Z.leb_le; lia)
            | replace (a <=? b) with false by (symmetry; apply Z.leb_gt; lia) ]
  end.

(** ** Display-mode precondition *)

Lemma display_modes_video_pattern :
  DMD.display_modes !! "video-pattern" = Some 2.
Proof. reflexivity. Qed.

(** C8: when the cached mode is anything but 'video', asking for
    'video-pattern' raises [ValueError] and leaves the whole world as it
    was: nothing is written to or read from the device (the trace does
    not grow) and the cached mode keeps its value. *)
Theorem set_display_mode_video_pattern_rejected (w : DMD.world) :
  DMD.current_mode w ≠ "video" →
  ∃ msg, DMD.set_display_mode "video-pattern" w = (Raise (ValueError msg), w).
Proof.
  intros Hmode. eexists.
  unfold DMD.set_display_mode, DMD.get_current_mode, mbind, DMD.M_bind.
  rewrite display_modes_video_pattern.
  rewrite (bool_decide_eq_false_2 (DMD.current_mode w = "video")) by done.
  reflexivity.
Qed.

Lemma set_display_mode_video_pattern_rejected_witness :
  ∃ msg, DMD.set_display_mode "video-pattern" (DMD.World "pattern" [] [] [])
         = (Raise (ValueError msg), DMD.World "pattern" [] [] []).
Proof.
  apply (set_display_mode_video_pattern_rejected (DMD.World "pattern" [] [] [])).
  simpl. discriminate.
Defined.

(** ** Current limit of the serial driver *)

(** C10: above 3500 mA [set_output_current] returns [False]; the only
    thing it does is print one line: no frame is written to the serial
    port, nothing is read from it, and the pending faults and responses
    of the line are untouched. *)
Theorem set_output_current_over_limit
    (self : WCIL.RS485Device) (current_ma : Z) (w : WCIL.world) :
  3500 < current_ma →
  let r := WCIL.set_output_current self current_ma w in
  r.1 = Ok false
  ∧ WCIL.trace r.2 = WCIL.trace w ++ [WCIL.Print "Current exceeds 3500mA limit"]
  ∧ WCIL.write_faults r.2 = WCIL.write_faults w
  ∧ WCIL.responses r.2 = WCIL.responses w.
Proof.
  intros Hlim. unfold WCIL.set_output_current. decide_cmp.
  repeat split.
Qed.

Lemma set_output_current_over_limit_witness :
  let r := WCIL.set_output_current WCIL.init 3501 (WCIL.World [] [] []) in
  r.1 = Ok false
  ∧ WCIL.trace r.2 = [] ++ [WCIL.Print "Current exceeds 3500mA limit"]
  ∧ WCIL.write_faults r.2 = []
  ∧ WCIL.responses r.2 = [].
Proof.
  apply (set_output_current_over_limit WCIL.init 3501 (WCIL.World [] [] [])).
  lia.
Defined.

(** ** Slices with bounds that are not negative *)

Section Slices.
Context {A : Type}.
Implicit Types l k : list A.

Lemma len_app l k : len (l ++ k) = len l + len k.
Proof. unfold len. rewrite length_app. lia. Qed.

Lemma len_nonneg l : 0 ≤ len l.
Proof. unfold len. lia. Qed.

Lemma slice_to l b : 0 ≤ b → slice l None (Some b) = take (Z.to_nat b) l.
Proof.
  intros Hb. unfold slice, clamp, len; simpl. decide_cmp.
  rewrite Z.sub_0_r, drop_0.
  destruct (Z.min_spec b (Z.of_nat (length l))) as [[? ->]|[? ->]]; [done|].
  rewrite Nat2Z.id, !take_ge; [done|lia..].
Qed.

Lemma slice_from l a : 0 ≤ a → slice l (Some a) None = drop (Z.to_nat a) l.
Proof.
  intros Ha. unfold slice, clamp, len; simpl. decide_cmp.
  destruct (Z.min_spec a (Z.of_nat (length l))) as [[? ->]|[? ->]].
  - apply take_ge. rewrite length_drop. lia.
  - rewrite Nat2Z.id, !drop_ge by lia. by rewrite take_nil.
Qed.

Lemma slice_between l a b :
  0 ≤ a → 0 ≤ b →
  slice l (Some a) (Some b) = take (Z.to_nat b - Z.to_nat a) (drop (Z.to_nat a) l).
Proof.
  intros Ha Hb. unfold slice, clamp, len; simpl. decide_cmp.
  destruct (Z.min_spec a (Z.of_nat (length l))) as [[? ->]|[? ->]].
  - destruct (Z.min_spec b (Z.of_nat (length l))) as [[? ->]|[? ->]].
    + f_equal. lia.
    + rewrite !take_ge; [done|rewrite length_drop; lia..].
  - rewrite Nat2Z.id, !drop_ge; [|lia..]. by rewrite !take_nil.
Qed.

Lemma index_lookup l (i : nat) x : l !! i = Some x → index l (Z.of_nat i) = Ok x.
Proof.
  intros Hi. pose proof (lookup_lt_Some _ _ _ Hi) as Hlt.
  unfold index, len. decide_cmp.
  simpl. by rewrite Nat2Z.id, Hi.
Qed.

Lemma index_head l x : index (x :: l) 0 = Ok x.
Proof. reflexivity. Qed.

Lemma index_second l x y : index (x :: y :: l) 1 = Ok y.
Proof.
  unfold index, len. simpl length. change (1 <? 0) with false. cbv iota.
  replace (1 <? Z.of_nat (S (S (length l)))) with true
    by (symmetry; apply Z.ltb_lt; lia).
  reflexivity.
Qed.

Lemma index_third l x y z : index (x :: y :: z :: l) 2 = Ok z.
Proof. exact (index_lookup (x :: y :: z :: l) 2%nat z eq_refl). Qed.

Lemma index_fourth l x y z t : index (x :: y :: z :: t :: l) 3 = Ok t.
Proof. exact (index_lookup (x :: y :: z :: t :: l) 3%nat t eq_refl). Qed.

End Slices.

(** ** Bit strings *)

Lemma chars_str l : chars (str l) = l.
Proof. apply list_ascii_of_string_of_list_ascii. Qed.

Lemma digits_val_snoc acc l c :
  digits_val acc (l ++ [c]) =
    v ← digits_val acc l; d ← bit_of c; Some (2 * v + d).
Proof.
  revert acc. induction l as [|x l IH]; intros acc; simpl.
  - by destruct (bit_of c).
  - destruct (bit_of x); [apply IH|done].
Qed.

Lemma digits_val_acc acc l :
  digits_val acc l = (fun v => acc * 2 ^ len l + v) <$> digits_val 0 l.
Proof.
  revert acc. induction l as [|x l IH]; intros acc.
  - simpl. f_equal. unfold len; simpl. lia.
  - simpl. destruct (bit_of x) as [d|]; [|done].
    rewrite (IH (2 * acc + d)), (IH (2 * 0 + d)).
    destruct (digits_val 0 l) as [v|]; [|done]. simpl. f_equal.
    unfold len. rewrite length_cons, Nat2Z.inj_succ, Z.pow_succ_r by lia. lia.
Qed.

Lemma bit_of_bound c d : bit_of c = Some d → 0 ≤ d < 2.
Proof. unfold bit_of. repeat case_decide; intros; simplify_eq; lia. Qed.

Lemma digits_val_bound l v : digits_val 0 l = Some v → 0 ≤ v < 2 ^ len l.
Proof.
  revert v. induction l as [|x l IH] using rev_ind; intros v.
  - simpl. intros [= <-]. unfold len; simpl. lia.
  - rewrite digits_val_snoc.
    destruct (digits_val 0 l) as [v'|]; [|done]. simpl.
    destruct (bit_of x) as [d|] eqn:Hd; [|done]. simpl. intros [= <-].
    apply bit_of_bound in Hd. specialize (IH _ eq_refl).
    rewrite len_app. change (len [x]) with 1.
    rewrite Z.pow_add_r, Z.pow_1_r by (pose proof (len_nonneg l); lia). lia.
Qed.

(** A numeral cut in two: the right part holds the low bits. *)
Lemma digits_val_app l1 l2 a :
  digits_val 0 (l1 ++ l2) = Some a →
  digits_val 0 l1 = Some (a / 2 ^ len l2)
  ∧ digits_val 0 l2 = Some (a mod 2 ^ len l2).
Proof.
  revert a. induction l2 as [|x l2 IH] using rev_ind; intros a.
  - rewrite app_nil_r. intros ->. change (len []) with 0. simpl.
    by rewrite Z.div_1_r, Z.mod_1_r.
  - rewrite app_assoc, digits_val_snoc.
    destruct (digits_val 0 (l1 ++ l2)) as [v|] eqn:Hv; [|done]. simpl.
    destruct (bit_of x) as [d|] eqn:Hd; [|done]. simpl. intros [= <-].
    destruct (IH _ eq_refl) as [H1 H2].
    pose proof (bit_of_bound _ _ Hd) as Hdb.
    pose proof (len_nonneg l2) as Hl2.
    assert (0 < 2 ^ len l2) as Hpow by (apply Z.pow_pos_nonneg; lia).
    rewrite len_app. change (len [x]) with 1.
    rewrite Z.pow_add_r, Z.pow_1_r by lia.
    rewrite digits_val_snoc, H1, H2. simpl. rewrite Hd. simpl.
    pose proof (Z.div_mod v (2 ^ len l2) ltac:(lia)) as Hdm.
    pose proof (Z.mod_pos_bound v (2 ^ len l2) Hpow) as Hmb.
    set (q := v / 2 ^ len l2) in *. set (r := v mod 2 ^ len l2) in *.
    assert (2 * v + d = (2 * r + d) + q * (2 ^ len l2 * 2)) as Heq by lia.
    split; f_equal.
    + rewrite Heq, Z.div_add by lia.
      rewrite (Z.div_small (2 * r + d)) by lia. lia.
    + rewrite Heq, Z.mod_add by lia.
      rewrite Z.mod_small by lia. done.
Qed.

Lemma digits_val_zeros n l :
  digits_val 0 (replicate n "0"%char ++ l) = digits_val 0 l.
Proof. induction n as [|n IH]; [done|]. simpl. apply IH. Qed.

Lemma digits_val_pos p : digits_val 0 (reverse (pos_digits p)) = Some (Zpos p).
Proof.
  induction p as [p IH|p IH|]; simpl; [| |done];
    rewrite reverse_cons, digits_val_snoc, IH; simpl; f_equal.
Qed.

Lemma pos_digits_length p (w : nat) :
  Zpos p < 2 ^ Z.of_nat w → (length (pos_digits p) ≤ w)%nat.
Proof.
  revert w. induction p as [p IH|p IH|]; intros [|w]; simpl;
    rewrite ?Nat2Z.inj_succ, ?Z.pow_succ_r by lia; try lia;
    intros Hp; apply le_n_S, IH; lia.
Qed.

Lemma nat_digits_val a : 0 ≤ a → digits_val 0 (nat_digits a) = Some a.
Proof. destruct a as [|p|p]; [done| |lia]. intros _. apply digits_val_pos. Qed.

Lemma nat_digits_length a (w : nat) :
  (0 < w)%nat → 0 ≤ a < 2 ^ Z.of_nat w → (0 < length (nat_digits a) ≤ w)%nat.
Proof.
  intros Hw Ha. destruct a as [|p|p]; simpl; [lia| |lia].
  rewrite length_reverse. split; [destruct p; simpl; lia|].
  apply pos_digits_length. lia.
Qed.

(** For a number that fits, [number_to_bits] yields exactly [bitlen]
    binary digits whose value is the number. *)
Lemma number_to_bits_fits a (w : nat) :
  (0 < w)%nat → 0 ≤ a < 2 ^ Z.of_nat w →
  ∃ l, number_to_bits a w = str l ∧ length l = w ∧ digits_val 0 l = Some a.
Proof.
  intros Hw Ha. exists (zfill w (nat_digits a)).
  pose proof (nat_digits_length a w Hw Ha) as Hlen.
  unfold number_to_bits, format_b. decide_cmp.
  split; [done|]. unfold zfill. split.
  - rewrite length_app, length_replicate. lia.
  - rewrite digits_val_zeros. apply nat_digits_val. lia.
Qed.

Lemma int2_digits l v : l ≠ [] → digits_val 0 l = Some v → int2 (str l) = Ok v.
Proof.
  intros Hl Hv. unfold int2. rewrite chars_str.
  destruct l as [|c l]; [done|].
  assert (is_Some (bit_of c)) as [d Hd].
  { simpl in Hv. destruct (bit_of c); [by eexists|done]. }
  unfold bit_of in Hd.
  rewrite !decide_False; [by unfold unsigned_val; rewrite Hv|..];
    intros ->; by repeat case_decide.
Qed.

Lemma mapM_result_cons {A B} (f : A → result B) x l :
  mapM f (x :: l) = y ← f x; k ← mapM f l; Ok (y :: k).
Proof. reflexivity. Qed.

Lemma mapM_result_ext {A B} (f g : A → result B) l :
  Forall (fun x => f x = g x) l → mapM f l = mapM g l.
Proof.
  induction 1 as [|x l Hx _ IH]; [done|].
  by rewrite !mapM_result_cons, Hx, IH.
Qed.

Lemma mapM_result_fmap {A B C} (f : B → result C) (g : A → B) l :
  mapM f (g <$> l) = mapM (f ∘ g) l.
Proof.
  induction l as [|x l IH]; [done|].
  rewrite fmap_cons, !mapM_result_cons, IH. done.
Qed.

Lemma range_nonneg n : Forall (fun i => 0 ≤ i) (range 0 n 8).
Proof. unfold range. apply Forall_fmap, Forall_forall. intros k _. simpl. lia. Qed.

Lemma range_8_single n : 0 < n ≤ 8 → range 0 n 8 = [0].
Proof.
  intros Hn. unfold range.
  replace ((n - 0 + 8 - 1) / 8) with 1; [done|].
  apply Z.div_unique with (r := n - 1); lia.
Qed.

Lemma range_8_cons n :
  0 < n → range 0 (8 + n) 8 = 0 :: ((fun i => i + 8) <$> range 0 n 8).
Proof.
  intros Hn. unfold range.
  replace ((8 + n - 0 + 8 - 1) / 8) with (1 + (n - 0 + 8 - 1) / 8).
  2:{ replace (8 + n - 0 + 8 - 1) with (1 * 8 + (n - 0 + 8 - 1)) by lia.
      by rewrite Z.div_add_l by lia. }
  assert (0 ≤ (n - 0 + 8 - 1) / 8) as Hq by (apply Z.div_pos; lia).
  rewrite Z2Nat.inj_add by lia. change (Z.to_nat 1) with 1%nat.
  simpl. f_equal. rewrite <- fmap_S_seq, <- !list_fmap_compose.
  apply list_fmap_ext. intros _ k _. simpl. lia.
Qed.

(** [bits_to_bytes] reads a bit string group by group from the left; the
    leftmost group ends up last. *)
Lemma bits_to_bytes_cons c rest :
  length c = 8%nat → rest ≠ [] →
  bits_to_bytes (str (c ++ rest)) =
    v ← int2 (str c); r ← bits_to_bytes (str rest); Ok (r ++ [v]).
Proof.
  intros Hc Hrest. unfold bits_to_bytes, str_len.
  rewrite !chars_str, len_app.
  assert (len c = 8) as -> by (unfold len; lia).
  assert (0 < len rest) by (destruct rest; [done|unfold len; simpl; lia]).
  rewrite range_8_cons by done. rewrite mapM_result_cons.
  assert (str_slice (str (c ++ rest)) (Some 0) (Some (0 + 8)) = str c) as ->.
  { unfold str_slice. rewrite chars_str, slice_between by lia.
    change (Z.to_nat 0) with 0%nat. rewrite drop_0.
    by rewrite take_app_length' by (rewrite Hc; reflexivity). }
  rewrite mapM_result_fmap.
  rewrite (mapM_result_ext _
    (fun i => int2 (str_slice (str rest) (Some i) (Some (i + 8))))).
  2:{ eapply Forall_impl; [apply range_nonneg|]. intros i Hi. simpl in *.
      unfold str_slice. rewrite !chars_str, !slice_between by lia.
      do 2 f_equal.
      replace (Z.to_nat (i + 8)) with (length c + Z.to_nat i)%nat by lia.
      rewrite drop_app_add. f_equal. lia. }
  destruct (int2 (str c)) as [v|]; [|done]. simpl.
  destruct (mapM _ _) as [r|]; [|done]. simpl.
  by rewrite reverse_cons.
Qed.

Lemma bits_to_bytes_last c :
  (0 < length c ≤ 8)%nat →
  bits_to_bytes (str c) = v ← int2 (str c); Ok [v].
Proof.
  intros Hc. unfold bits_to_bytes, str_len. rewrite chars_str.
  rewrite range_8_single by (unfold len; lia). rewrite mapM_result_cons.
  assert (str_slice (str c) (Some 0) (Some (0 + 8)) = str c) as ->.
  { unfold str_slice. rewrite chars_str, slice_between by lia.
    change (Z.to_nat 0) with 0%nat. rewrite drop_0.
    by rewrite take_ge by (change (Z.to_nat (0 + 8)) with 8%nat; lia). }
  by destruct (int2 (str c)).
Qed.

(** A list of a known length is its first [n] items followed by the rest. *)
Lemma split_at {A} (n : nat) (l : list A) :
  (n ≤ length l)%nat →
  ∃ c rest, l = c ++ rest ∧ length c = n ∧ length rest = (length l - n)%nat.
Proof.
  intros Hn. exists (take n l), (drop n l).
  rewrite take_drop, length_take, length_drop. split; [done|lia].
Qed.

(** A 16-bit number comes out low byte first. *)
Lemma bits_to_bytes_16 a :
  0 ≤ a < 65536 →
  bits_to_bytes (number_to_bits a 16) = Ok [a mod 256; a / 256].
Proof.
  intros Ha.
  destruct (number_to_bits_fits a 16) as (l & -> & Hlen & Hval); [lia|simpl; lia|].
  destruct (split_at 8 l) as (c1 & c2 & -> & Hc1 & Hc2); [lia|].
  rewrite Hlen in Hc2. simpl in Hc2.
  apply digits_val_app in Hval as [H1 H2].
  assert (len c2 = 8) as Hl2 by (unfold len; lia). rewrite Hl2 in *.
  assert (c1 ≠ [] ∧ c2 ≠ []) as [Hn1 Hn2] by (split; by intros ->).
  rewrite bits_to_bytes_cons, bits_to_bytes_last by (done || lia).
  rewrite (int2_digits c1 _ Hn1 H1), (int2_digits c2 _ Hn2 H2).
  done.
Qed.

(** A 10-bit number is cut after its eight leading bits: the two low
    bits come out first, the eight high bits second. *)
Lemma bits_to_bytes_10 a :
  0 ≤ a < 1024 →
  bits_to_bytes (number_to_bits a 10) = Ok [a mod 4; a / 4].
Proof.
  intros Ha.
  destruct (number_to_bits_fits a 10) as (l & -> & Hlen & Hval); [lia|simpl; lia|].
  destruct (split_at 8 l) as (c1 & c2 & -> & Hc1 & Hc2); [lia|].
  rewrite Hlen in Hc2. simpl in Hc2.
  apply digits_val_app in Hval as [H1 H2].
  assert (len c2 = 2) as Hl2 by (unfold len; lia). rewrite Hl2 in *.
  assert (c1 ≠ [] ∧ c2 ≠ []) as [Hn1 Hn2] by (split; by intros ->).
  rewrite bits_to_bytes_cons, bits_to_bytes_last by (done || lia).
  rewrite (int2_digits c1 _ Hn1 H1), (int2_digits c2 _ Hn2 H2).
  done.
Qed.

(** A 32-bit number comes out as four bytes, low byte first. *)
Lemma bits_to_bytes_32 a :
  0 ≤ a < 4294967296 →
  bits_to_bytes (number_to_bits a 32) =
    Ok [a mod 256; (a / 256) mod 256; (a / 65536) mod 256; a / 16777216].
Proof.
  intros Ha.
  destruct (number_to_bits_fits a 32) as (l & -> & Hlen & Hval); [lia|simpl; lia|].
  destruct (split_at 8 l) as (c1 & r1 & -> & Hc1 & Hr1); [lia|].
  rewrite Hlen in Hr1. simpl in Hr1.
  destruct (split_at 8 r1) as (c2 & r2 & -> & Hc2 & Hr2); [lia|].
  rewrite Hr1 in Hr2. simpl in Hr2.
  destruct (split_at 8 r2) as (c3 & c4 & -> & Hc3 & Hc4); [lia|].
  rewrite Hr2 in Hc4. simpl in Hc4.
  apply digits_val_app in Hval as [H1 Hval].
  apply digits_val_app in Hval as [H2 Hval].
  apply digits_val_app in Hval as [H3 H4].
  rewrite !len_app in *.
  assert (len c2 = 8 ∧ len c3 = 8 ∧ len c4 = 8) as (Hl2 & Hl3 & Hl4)
    by (unfold len; lia).
  rewrite ?Hl2, ?Hl3, ?Hl4 in H1, H2, H3, H4.
  simpl in H1, H2, H3, H4.
  assert (c1 ≠ [] ∧ c2 ≠ [] ∧ c3 ≠ [] ∧ c4 ≠ []) as (Hn1 & Hn2 & Hn3 & Hn4)
    by (repeat split; by intros ->).
  rewrite !bits_to_bytes_cons, bits_to_bytes_last
    by (done || lia || (intros [? ?]%app_eq_nil; done)).
  rewrite (int2_digits c1 _ Hn1 H1), (int2_digits c2 _ Hn2 H2),
          (int2_digits c3 _ Hn3 H3), (int2_digits c4 _ Hn4 H4).
  simpl. f_equal.
  repeat match goal with |- _ :: _ = _ :: _ => f_equal end;
    change (Z.pow_pos 2 8) with 256; change (Z.pow_pos 2 16) with 65536;
    change (Z.pow_pos 2 24) with 16777216;
    Z.div_mod_to_equations; lia.
Qed.

(** ** [send_command]: header, packets, answer *)

Lemma bits_to_bytes_flag mode :
  bits_to_bytes ((if decide (mode = "r") then "1" else "0") +:+ "1000000")
  = Ok [if decide (mode = "r") then 192 else 64].
Proof. by case_decide. Qed.

Lemma send_command_phases mode sequence_byte command payload w :
  len payload + 6 ≤ 512 →
  DMD.send_command mode sequence_byte command (Some payload) w =
    match DMD.write_phase
            (DMD.header mode sequence_byte command (len payload)) payload w with
    | (Ok _, w1) => DMD.read_phase mode w1
    | (Raise e, w1) => (Raise e, w1)
    end.
Proof.
  intros Hlen. pose proof (len_nonneg payload) as Hnn.
  unfold DMD.send_command. change (default [] (Some payload)) with payload.
  cbv zeta. rewrite bits_to_bytes_flag, bits_to_bytes_16 by lia.
  unfold mbind at 1 2 3 4 5, DMD.M_bind at 1 2 3 4 5, DMD.lift at 1 2 3 4 5.
  rewrite !index_head, index_second.
  rewrite Z.gtb_ltb.
  replace (512 <? len payload + 6) with false by (symmetry; apply Z.ltb_ge; lia).
  reflexivity.
Qed.

(** *** The write phase on a transport that does not fail *)

Lemma packets_sent ps : DMD.packets (DMD.sent ps) = ps.
Proof. induction ps as [|p ps IH]; [done|]. simpl. by rewrite IH. Qed.

Lemma packets_app evs1 evs2 :
  DMD.packets (evs1 ++ evs2) = DMD.packets evs1 ++ DMD.packets evs2.
Proof. apply omap_app. Qed.

Lemma after_nil w : DMD.after w [] = w.
Proof. destruct w. unfold DMD.after. simpl. by rewrite app_nil_r. Qed.

Lemma after_after w evs1 evs2 :
  DMD.after (DMD.after w evs1) evs2 = DMD.after w (evs1 ++ evs2).
Proof. unfold DMD.after. simpl. by rewrite app_assoc. Qed.

Lemma dev_write_ok endpoint data w :
  DMD.write_faults w = [] →
  DMD.dev_write endpoint data w = (Ok (), DMD.after w [DMD.Write endpoint data true]).
Proof. intros Hf. unfold DMD.dev_write. by rewrite Hf. Qed.

Lemma write_retry_ok data w :
  DMD.write_faults w = [] →
  DMD.try_except (DMD.dev_write 1 data) DMD.is_USBError
                 (DMD.time_sleep 100;; DMD.dev_write 1 data) w
  = (Ok (), DMD.after w (DMD.sent [data])).
Proof. intros Hf. unfold DMD.try_except. by rewrite dev_write_ok. Qed.

(** The loop sends 64-byte packets that, joined, are the remaining data
    followed by fewer than 64 zeros. *)
Lemma send_rest_ok fuel remaining_data w :
  DMD.write_faults w = [] →
  (length remaining_data ≤ fuel)%nat →
  ∃ ps k,
    DMD.send_rest fuel remaining_data w = (Ok (), DMD.after w (DMD.sent ps))
    ∧ Forall (fun p => length p = 64%nat) ps
    ∧ (k < 64)%nat
    ∧ concat ps = remaining_data ++ replicate k 0.
Proof.
  revert remaining_data w.
  induction fuel as [|fuel IH]; intros rem w Hf Hfuel.
  - destruct rem; [|simpl in Hfuel; lia].
    exists [], 0%nat. simpl. rewrite after_nil. repeat split; [constructor|lia].
  - destruct (decide (rem = [])) as [->|Hne].
    { exists [], 0%nat. simpl. rewrite after_nil.
      repeat split; [constructor|lia]. }
    assert (0 < len rem) as Hpos by (destruct rem; [done|unfold len; simpl; lia]).
    cbn [DMD.send_rest]. decide_cmp.
    rewrite slice_to, slice_from by lia. change (Z.to_nat 64) with 64%nat.
    unfold mbind, DMD.M_bind.
    rewrite write_retry_ok by done.
    destruct (IH (drop 64 rem) (DMD.after w (DMD.sent
               [if len (take 64 rem) <? 64
                then take 64 rem ++ replicate (Z.to_nat (64 - len (take 64 rem))) 0
                else take 64 rem])))
      as (ps & k & Hrun & Hall & Hk & Hcat); [done|rewrite length_drop; lia|].
    rewrite Hrun, after_after.
    destruct (decide (length rem < 64)%nat) as [Hshort|Hlong].
    + (* last packet: padded *)
      assert (len (take 64 rem) = len rem) as Hlt
        by (unfold len; rewrite length_take; lia).
      rewrite Hlt in *.
      replace (len rem <? 64) with true in *
        by (symmetry; apply Z.ltb_lt; unfold len; lia).
      rewrite take_ge in * by lia.
      rewrite drop_ge in Hcat by lia.
      eexists (_ :: ps), (Z.to_nat (64 - len rem) + k)%nat.
      split; [reflexivity|].
      assert (ps = [] ∧ k = 0%nat) as [-> ->].
      { destruct ps as [|p ps]; [simpl in Hcat; by destruct k|].
        apply Forall_cons in Hall as [Hp _].
        apply (f_equal length) in Hcat.
        simpl in Hcat. rewrite !length_app, length_replicate in Hcat. lia. }
      split; [|split].
      * constructor; [|constructor].
        rewrite length_app, length_replicate. unfold len. lia.
      * unfold len in *. lia.
      * simpl. rewrite app_nil_r. do 2 f_equal. lia.
    + (* a full packet, more may follow *)
      assert (len (take 64 rem) = 64) as Hlt
        by (unfold len; rewrite length_take; lia).
      rewrite Hlt in *. change (64 <? 64) with false in *. cbv iota in *.
      exists (take 64 rem :: ps), k.
      split; [reflexivity|]. split; [|split; [done|]].
      * constructor; [rewrite length_take; lia|done].
      * simpl. rewrite Hcat, app_assoc, take_drop. done.
Qed.

Lemma write_phase_ok hdr payload w :
  length hdr = 6%nat →
  DMD.write_faults w = [] →
  ∃ ps,
    DMD.write_phase hdr payload w = (Ok (), DMD.after w (DMD.sent ps))
    ∧ (len payload ≤ 58 →
       ps = [hdr ++ payload ++ replicate (Z.to_nat (58 - len payload)) 0])
    ∧ (59 ≤ len payload →
       ∃ rest k,
         ps = (hdr ++ take 58 payload) :: rest
         ∧ Forall (fun p => length p = 64%nat) rest
         ∧ (k < 64)%nat
         ∧ concat rest = drop 58 payload ++ replicate k 0).
Proof.
  intros Hh Hf. unfold DMD.write_phase.
  assert (len hdr = 6) as -> by (unfold len; lia).
  destruct (decide (len payload ≤ 58)) as [Hs|Hl].
  - decide_cmp.
    rewrite write_retry_ok by done. eexists. split; [reflexivity|].
    split; [|lia]. intros _. rewrite <- app_assoc. do 4 f_equal.
    rewrite len_app. unfold len. lia.
  - decide_cmp.
    rewrite slice_to, slice_from by lia. change (Z.to_nat 58) with 58%nat.
    unfold mbind, DMD.M_bind. rewrite dev_write_ok by done.
    destruct (send_rest_ok (length (drop 58 payload)) (drop 58 payload)
                (DMD.after w [DMD.Write 1 (hdr ++ take 58 payload) true]))
      as (rest & k & Hrun & Hall & Hk & Hcat); [done|lia|].
    rewrite Hrun, after_after.
    exists ((hdr ++ take 58 payload) :: rest). split; [reflexivity|].
    split; [lia|]. intros _. by exists rest, k.
Qed.

(** Reading the answer writes nothing. *)
Lemma read_phase_trace mode w :
  ∃ evs,
    DMD.trace (DMD.read_phase mode w).2 = DMD.trace w ++ evs
    ∧ DMD.packets evs = []
    ∧ DMD.writes evs = [].
Proof.
  unfold DMD.read_phase. case_decide.
  - unfold mbind, DMD.M_bind, DMD.time_sleep, DMD.dev_read, DMD.lift, DMD.raise.
    simpl. destruct (DMD.replies w) as [|r rs]; simpl.
    + eexists. rewrite <- app_assoc. by split.
    + destruct (index _ 0); simpl; [destruct (negb _); simpl|];
        eexists; rewrite <- app_assoc; by split.
  - exists []. by rewrite app_nil_r.
Qed.

(** The packets of one call, joined, on a transport that does not fail:
    the header, the payload, and zeros. *)
Lemma send_command_stream mode sequence_byte command payload w :
  len payload + 6 ≤ 512 →
  DMD.write_faults w = [] →
  ∃ evs k,
    DMD.trace (DMD.send_command mode sequence_byte command (Some payload) w).2
      = DMD.trace w ++ evs
    ∧ concat (DMD.packets evs)
      = DMD.header mode sequence_byte command (len payload)
          ++ payload ++ replicate k 0.
Proof.
  intros Hlen Hf. rewrite send_command_phases by done.
  destruct (write_phase_ok (DMD.header mode sequence_byte command (len payload))
              payload w eq_refl Hf) as (ps & Hrun & Hone & Hmany).
  rewrite Hrun.
  destruct (read_phase_trace mode (DMD.after w (DMD.sent ps))) as (evs & Htr & Hp & Hnw).
  destruct (decide (len payload ≤ 58)) as [Hs|Hl].
  - exists (DMD.sent ps ++ evs), (Z.to_nat (58 - len payload)). rewrite Htr. simpl.
    rewrite <- app_assoc, packets_app, packets_sent, Hp, app_nil_r.
    split; [done|]. rewrite (Hone Hs). simpl. by rewrite app_nil_r.
  - destruct Hmany as (rest & k & -> & _ & _ & Hcat); [lia|].
    exists (DMD.sent ((DMD.header mode sequence_byte command (len payload)
                   ++ take 58 payload) :: rest) ++ evs), k.
    rewrite Htr. cbn [DMD.trace DMD.after].
    rewrite <- app_assoc, packets_app, packets_sent, Hp, app_nil_r.
    split; [done|].
    rewrite concat_cons, Hcat, <- !app_assoc.
    by rewrite (app_assoc (take 58 payload)), take_drop.
Qed.

(** C7: on a transport that accepts every write, the events of one
    call are the packets, each written once to endpoint 1, followed by
    events that are no writes.  Every packet has 64 bytes.  A frame
    whose payload has at most 58 bytes goes out as one packet: the six
    header bytes, the payload, and zeros up to 64 bytes.  A frame with
    a longer payload goes out as a first packet holding the header and
    the first 58 payload bytes, followed by packets that, joined, are
    the rest of the payload and fewer than 64 zeros of padding; a
    payload of 59 bytes gives exactly two packets. *)
Theorem send_command_chunking mode sequence_byte command payload w :
  len payload + 6 ≤ 512 →
  DMD.write_faults w = [] →
  let hdr := DMD.header mode sequence_byte command (len payload) in
  ∃ ps evs,
    DMD.trace (DMD.send_command mode sequence_byte command (Some payload) w).2
      = DMD.trace w ++ DMD.sent ps ++ evs
    ∧ DMD.writes evs = []
    ∧ Forall (fun p => length p = 64%nat) ps
    ∧ (len payload ≤ 58 →
       ps = [hdr ++ payload ++ replicate (Z.to_nat (58 - len payload)) 0])
    ∧ (59 ≤ len payload →
       ∃ rest k,
         ps = (hdr ++ take 58 payload) :: rest
         ∧ (k < 64)%nat
         ∧ concat rest = drop 58 payload ++ replicate k 0)
    ∧ (len payload = 59 → length ps = 2%nat).
Proof.
  intros Hlen Hf hdr. pose proof (len_nonneg payload) as Hnn.
  rewrite send_command_phases by done. fold hdr.
  destruct (write_phase_ok hdr payload w eq_refl Hf) as (ps & Hrun & Hone & Hmany).
  rewrite Hrun.
  destruct (read_phase_trace mode (DMD.after w (DMD.sent ps)))
    as (evs & Htr & Hp & Hnw).
  exists ps, evs. rewrite Htr. simpl. rewrite <- app_assoc.
  split; [done|]. split; [done|].
  assert (Forall (fun p => length p = 64%nat) ps) as Hall.
  { destruct (decide (len payload ≤ 58)) as [Hs|Hl].
    - rewrite (Hone Hs). constructor; [|constructor].
      rewrite !length_app, length_replicate. change (length hdr) with 6%nat.
      unfold len in *. lia.
    - destruct Hmany as (rest & k & -> & Hrest & _); [lia|].
      constructor; [|done].
      rewrite length_app, length_take. change (length hdr) with 6%nat.
      unfold len in *. lia. }
  split; [done|]. split; [done|]. split.
  - intros Hl. destruct (Hmany Hl) as (rest & k & -> & _ & Hk & Hcat).
    by exists rest, k.
  - intros H59. destruct Hmany as (rest & k & -> & Hrest & Hk & Hcat); [lia|].
    simpl. f_equal.
    apply (f_equal length) in Hcat.
    rewrite length_app, length_drop, length_replicate in Hcat.
    assert (length payload = 59%nat) as Hp59 by (unfold len in H59; lia).
    rewrite Hp59 in Hcat.
    destruct rest as [|p1 [|p2 rest]]; simpl in Hcat; [lia|done|].
    apply Forall_cons in Hrest as [H1 Hrest].
    apply Forall_cons in Hrest as [H2 _].
    rewrite !length_app in Hcat. lia.
Qed.

Lemma send_command_chunking_witness :
  let payload := replicate 59 7 in
  let w := DMD.World "pattern" [] [] [] in
  let hdr := DMD.header "w" 1 0x1A34 (len payload) in
  ∃ ps evs,
    DMD.trace (DMD.send_command "w" 1 0x1A34 (Some payload) w).2
      = DMD.trace w ++ DMD.sent ps ++ evs
    ∧ DMD.writes evs = []
    ∧ Forall (fun p => length p = 64%nat) ps
    ∧ (len payload ≤ 58 →
       ps = [hdr ++ payload ++ replicate (Z.to_nat (58 - len payload)) 0])
    ∧ (59 ≤ len payload →
       ∃ rest k,
         ps = (hdr ++ take 58 payload) :: rest
         ∧ (k < 64)%nat
         ∧ concat rest = drop 58 payload ++ replicate k 0)
    ∧ (len payload = 59 → length ps = 2%nat).
Proof.
  intros payload w.
  apply (send_command_chunking "w" 1 0x1A34 payload w);
    [vm_compute; discriminate|reflexivity].
Defined.

(** ** Round trip of a command frame through [parse_reply] *)

Lemma lor_le16 n : 0 ≤ n → Z.lor (n `mod` 256) (Z.shiftl (n `div` 256) 8) = n.
Proof.
  intros Hn. apply Z.bits_inj'. intros i Hi.
  rewrite Z.lor_spec, Z.shiftl_spec by lia.
  change 256 with (2 ^ 8).
  destruct (Z.lt_ge_cases i 8) as [Hlow|Hhigh].
  - rewrite Z.mod_pow2_bits_low, (Z.testbit_neg_r _ (i - 8)) by lia.
    apply orb_false_r.
  - rewrite Z.mod_pow2_bits_high, Z.div_pow2_bits by lia.
    simpl. f_equal. lia.
Qed.

Lemma command_le16 c :
  0 ≤ c < 65536 →
  Z.lor (Z.land c 0xFF) (Z.shiftl (Z.land (Z.shiftr c 8) 0xFF) 8) = c.
Proof.
  intros Hc. change 0xFF with (Z.ones 8).
  rewrite !Z.land_ones, Z.shiftr_div_pow2 by lia.
  change (2 ^ 8) with 256.
  rewrite (Z.mod_small (c `div` 256)) by (Z.div_mod_to_equations; lia).
  apply lor_le16. lia.
Qed.

(** C1: what [send_command] writes, read back by [parse_reply], gives
    the sequence byte, the command and the payload it was called with.
    The packets written by one call are joined and parsed: the parsed
    sequence byte is the one sent, the parsed length is the payload
    length plus 2, and the parsed data are the two command bytes, low
    byte first, followed by the payload, so that the command is the
    first two data bytes read little-endian and the payload is the
    rest.  The flag byte has bit 7 set exactly for a read and its lower
    bits are 1000000, so the error flag (bit 5) is clear. *)
Theorem send_command_parse_roundtrip mode sequence_byte command payload w :
  0 ≤ command < 65536 →
  len payload + 6 ≤ 512 →
  DMD.write_faults w = [] →
  ∃ evs r c0 c1,
    DMD.trace (DMD.send_command mode sequence_byte command (Some payload) w).2
      = DMD.trace w ++ evs
    ∧ parse_reply (Some (concat (DMD.packets evs))) = Ok (Some r)
    ∧ reply_sequence_byte r = sequence_byte
    ∧ reply_length r = len payload + 2
    ∧ reply_data r = c0 :: c1 :: payload
    ∧ Z.lor c0 (Z.shiftl c1 8) = command
    ∧ reply_flag_byte r = (if decide (mode = "r") then "11000000" else "01000000")
    ∧ reply_error_flag r = false.
Proof.
  intros Hc Hlen Hf. pose proof (len_nonneg payload) as Hnn.
  destruct (send_command_stream mode sequence_byte command payload w Hlen Hf)
    as (evs & k & Htr & Hcat).
  exists evs. rewrite Hcat. unfold DMD.header, parse_reply.
  cbn [app]. rewrite index_head, index_second.
  rewrite index_third, index_fourth.
  cbn [mbind result_bind].
  rewrite lor_le16 by lia.
  rewrite slice_between by lia.
  replace (Z.to_nat (4 + (len payload + 2)) - Z.to_nat 4)%nat
    with (length (Z.land command 0xFF :: Z.land (Z.shiftr command 8) 0xFF :: payload))
    by (unfold len; simpl; lia).
  change (Z.to_nat 4) with 4%nat. cbn [drop].
  cbn [length take]. rewrite take_app_length.
  eexists _, _, _. split; [done|]. split; [reflexivity|].
  unfold reply_sequence_byte, reply_length, reply_data, reply_flag_byte,
    reply_error_flag. cbn [fst snd].
  repeat split; [by apply command_le16|by case_decide|by case_decide].
Qed.

Lemma send_command_parse_roundtrip_witness :
  ∃ evs r c0 c1,
    DMD.trace (DMD.send_command "r" 10 0x1A0A (Some [1; 2; 3])
                 (DMD.World "pattern" [] [] [])).2
      = DMD.trace (DMD.World "pattern" [] [] []) ++ evs
    ∧ parse_reply (Some (concat (DMD.packets evs))) = Ok (Some r)
    ∧ reply_sequence_byte r = 10
    ∧ reply_length r = len [1; 2; 3] + 2
    ∧ reply_data r = c0 :: c1 :: [1; 2; 3]
    ∧ Z.lor c0 (Z.shiftl c1 8) = 0x1A0A
    ∧ reply_flag_byte r = (if decide ("r" = "r") then "11000000" else "01000000")
    ∧ reply_error_flag r = false.
Proof.
  apply (send_command_parse_roundtrip "r" 10 0x1A0A [1; 2; 3]
           (DMD.World "pattern" [] [] [])); [lia|vm_compute; discriminate|reflexivity].
Defined.

(** ** A read command and its answer *)

Lemma parse_reply_answer flag sq data :
  parse_reply (Some (DMD.answer flag sq data))
  = Ok (Some (negb (Z.land flag 0x20 =? 0), number_to_bits flag 8, sq,
              len data, data)).
Proof.
  pose proof (len_nonneg data) as Hnn.
  unfold parse_reply, DMD.answer.
  rewrite index_head, index_second, index_third, index_fourth.
  cbn [mbind result_bind].
  rewrite lor_le16 by lia. rewrite slice_between; [|lia..].
  change (Z.to_nat 4) with 4%nat. cbn [drop].
  rewrite drop_0, take_ge by (unfold len; lia). done.
Qed.

Lemma send_command_read sequence_byte command flag sq data w rs :
  Z.land flag 0x20 = 0 →
  (length data ≤ 60)%nat →
  DMD.write_faults w = [] →
  DMD.replies w = DMD.answer flag sq data :: rs →
  DMD.send_command "r" sequence_byte command (Some []) w
  = (Ok (Some (false, number_to_bits flag 8, sq, len data, data)),
     DMD.World (DMD.current_mode w) [] rs
       (DMD.trace w ++
        [DMD.Write 1 (DMD.header "r" sequence_byte command 0 ++ replicate 58 0) true;
         DMD.Sleep 100;
         DMD.Read 0x81 64 (Some (DMD.answer flag sq data))])).
Proof.
  intros Hflag Hdata Hf Hr.
  rewrite send_command_phases by done.
  destruct (write_phase_ok (DMD.header "r" sequence_byte command (@len Z [])) [] w
              eq_refl Hf) as (ps & -> & Hone & _).
  rewrite (Hone ltac:(done)).
  unfold DMD.read_phase. rewrite decide_True by done.
  unfold mbind, DMD.M_bind, DMD.time_sleep, DMD.dev_read, DMD.lift, DMD.log.
  cbn [DMD.replies DMD.after DMD.trace DMD.write_faults DMD.current_mode].
  rewrite Hr, Hf.
  rewrite take_ge by (unfold DMD.answer; simpl; lia).
  unfold DMD.answer at 1. rewrite index_head, Hflag.
  change (negb (0 =? 0)) with false. cbv iota.
  rewrite parse_reply_answer, Hflag.
  change (negb (0 =? 0)) with false.
  by rewrite <- !app_assoc.
Qed.

(** ** Status checks *)

Lemma number_to_bits_index (a : Z) (i : nat) :
  (i < 8)%nat → ∃ c, str_index (number_to_bits a 8) (Z.of_nat i) = Ok c.
Proof.
  intros Hi. unfold str_index.
  assert (8 ≤ length (chars (number_to_bits a 8)))%nat as Hlen.
  { unfold number_to_bits, format_b, zfill.
    destruct (a <? 0); rewrite chars_str; cbn [length];
      rewrite length_app, length_replicate; lia. }
  destruct (lookup_lt_is_Some_2 (chars (number_to_bits a 8)) i) as [c Hc]; [lia|].
  rewrite (index_lookup _ _ _ Hc). by eexists.
Qed.

(** Whatever status byte the device answers, [check_communication_status]
    raises and [check_system_status] returns: each compares a character
    of the bit string with the integer 0, and a [str] never equals an
    [int]. *)
Lemma status_checks_any_status status more flag sq w rs :
  Z.land flag 0x20 = 0 →
  (length more ≤ 59)%nat →
  DMD.write_faults w = [] →
  DMD.replies w = DMD.answer flag sq (status :: more) :: rs →
  (DMD.check_communication_status w).1
    = Raise (DMDerror "Controller cannot communicate with DMD")
  ∧ (DMD.check_system_status w).1 = Ok ().
Proof.
  intros Hflag Hmore Hf Hr.
  destruct (number_to_bits_index status 0) as [a0 Ha0]; [lia|].
  destruct (number_to_bits_index status 2) as [a2 Ha2]; [lia|].
  unfold DMD.check_communication_status, DMD.check_system_status.
  unfold mbind, DMD.M_bind.
  rewrite !(send_command_read _ _ flag sq (status :: more) w rs)
    by (done || simpl; lia).
  unfold DMD.lift, DMD.last_item, reply_data. cbn [fst snd].
  rewrite index_head.
  change (Z.of_nat 0) with 0 in Ha0. change (Z.of_nat 2) with 2 in Ha2.
  rewrite Ha0, Ha2. cbn [Py.eq]. rewrite andb_false_r. done.
Qed.

(** C5 (the code departs from it): answered the status byte 0x00, in
    which no bit is set, [check_system_status] returns normally instead
    of raising; answered 0x00 or 0xFF, [check_communication_status]
    raises both times, so it cannot depend on any status bit. *)
Theorem status_checks_ignore_status_bits :
  let device status :=
    DMD.World "pattern" [] [DMD.answer 0x00 10 [status]] [] in
  (DMD.check_system_status (device 0x00)).1 = Ok ()
  ∧ (DMD.check_system_status (device 0xFF)).1 = Ok ()
  ∧ (DMD.check_communication_status (device 0x00)).1
    = Raise (DMDerror "Controller cannot communicate with DMD")
  ∧ (DMD.check_communication_status (device 0xFF)).1
    = Raise (DMDerror "Controller cannot communicate with DMD").
Proof.
  intros device.
  destruct (status_checks_any_status 0x00 [] 0x00 10 (device 0x00) [])
    as [Hc0 Hs0]; [done|simpl; lia|done|done|].
  destruct (status_checks_any_status 0xFF [] 0x00 10 (device 0xFF) [])
    as [Hc1 Hs1]; [done|simpl; lia|done|done|].
  done.
Qed.

(** ** Power mode *)

(** What [get_current_powermode] returns for the idle and sleep status
    bytes the device answers. *)
Lemma get_current_powermode_result idlestatus sleepstatus f1 s1 f2 s2 w rs :
  Z.land f1 0x20 = 0 →
  Z.land f2 0x20 = 0 →
  DMD.write_faults w = [] →
  DMD.replies w
    = DMD.answer f1 s1 [idlestatus] :: DMD.answer f2 s2 [sleepstatus] :: rs →
  (DMD.get_current_powermode w).1 =
    Ok (if sleepstatus =? 0 then
          if idlestatus =? 0 then Some "normal"
          else if idlestatus =? 1 then Some "idle"
          else None
        else if sleepstatus =? 1 then Some "standby"
        else Some "undocumented state").
Proof.
  intros Hf1 Hf2 Hf Hr.
  unfold DMD.get_current_powermode, mbind, DMD.M_bind.
  rewrite (send_command_read _ _ f1 s1 [idlestatus] w
             (DMD.answer f2 s2 [sleepstatus] :: rs)) by (done || simpl; lia).
  unfold DMD.lift, DMD.last_item, reply_data. cbn [fst snd].
  rewrite index_head.
  rewrite (send_command_read _ _ f2 s2 [sleepstatus] _ rs) by (done || simpl; lia).
  cbn [fst snd]. rewrite index_head.
  unfold mret, DMD.M_ret.
  by repeat case_match.
Qed.

(** C9 (the code departs from it): with the sleep flag 0 and an idle
    flag that is neither 0 nor 1, the function runs off its end and
    returns [None], which is none of the four results. *)
Theorem get_current_powermode_returns_None :
  (DMD.get_current_powermode
     (DMD.World "pattern" []
        [DMD.answer 0x00 0 [2]; DMD.answer 0x00 0 [0]] [])).1
  = Ok None.
Proof.
  by rewrite (get_current_powermode_result 2 0 0x00 0 0x00 0 _ []).
Qed.

(** ** Retry of a failed write *)


(** The first packet of a frame that needs several is written outside
    any [try]: when that write fails the error is raised at once. *)
Lemma first_packet_not_retried mode sequence_byte command payload fs w :
  59 ≤ len payload →
  len payload + 6 ≤ 512 →
  DMD.write_faults w = true :: fs →
  DMD.send_command mode sequence_byte command (Some payload) w
  = (Raise USBError,
     DMD.World (DMD.current_mode w) fs (DMD.replies w)
       (DMD.trace w ++
        [DMD.Write 1 (DMD.header mode sequence_byte command (len payload)
                      ++ take 58 payload) false])).
Proof.
  intros Hlong Hlen Hf. rewrite send_command_phases by done.
  unfold DMD.write_phase.
  change (len (DMD.header mode sequence_byte command (len payload))) with 6.
  decide_cmp. rewrite slice_to by lia. change (Z.to_nat 58) with 58%nat.
  unfold mbind, DMD.M_bind, DMD.dev_write. by rewrite Hf.
Qed.

(** C3 (the code departs from it): a frame with a 59-byte payload needs
    two packets.  When the write of the first one fails once, nothing
    is retried: the call raises the transport error after that single
    attempt, with no pause and no second write, although the next write
    would have succeeded.  The same fault on a frame that fits one
    packet, or on the second packet of the long frame, is retried after
    100 ms and the call succeeds. *)
Theorem first_chunk_write_is_not_retried :
  let w := DMD.World "pattern" [true] [] [] in
  let long := replicate 59 0 in
  DMD.send_command "w" 1 0x1A34 (Some long) w
  = (Raise USBError,
     DMD.World "pattern" [] []
       [DMD.Write 1 (DMD.header "w" 1 0x1A34 59 ++ replicate 58 0) false])
  ∧ DMD.send_command "w" 1 0x1A34 (Some [0]) w
    = (Ok None,
       DMD.World "pattern" [] []
         [DMD.Write 1 (DMD.header "w" 1 0x1A34 1 ++ replicate 58 0) false;
          DMD.Sleep 100;
          DMD.Write 1 (DMD.header "w" 1 0x1A34 1 ++ replicate 58 0) true])
  ∧ DMD.send_command "w" 1 0x1A34 (Some long)
      (DMD.World "pattern" [false; true] [] [])
    = (Ok None,
       DMD.World "pattern" [] []
         [DMD.Write 1 (DMD.header "w" 1 0x1A34 59 ++ replicate 58 0) true;
          DMD.Write 1 (replicate 64 0) false;
          DMD.Sleep 100;
          DMD.Write 1 (replicate 64 0) true]).
Proof.
  intros w long. split; [|split].
  - by rewrite (first_packet_not_retried "w" 1 0x1A34 long [] w).
  - vm_compute. reflexivity.
  - vm_compute. reflexivity.
Qed.

(** ** Payload of [start_pattern_from_LUT] *)

(** The payload the code builds: the entry count is split after its
    eight leading bits, so the first byte holds its two low bits and the
    second byte the eight bits above them; the repeat count follows as
    four bytes, low byte first. *)
Lemma start_pattern_from_LUT_payload_bytes entries repeats :
  0 ≤ entries < 1024 →
  0 ≤ repeats < 4294967296 →
  DMD.start_pattern_from_LUT_payload entries repeats
  = Ok [entries `mod` 4; entries `div` 4;
        repeats `mod` 256; (repeats `div` 256) `mod` 256;
        (repeats `div` 65536) `mod` 256; repeats `div` 16777216].
Proof.
  intros He Hr. unfold DMD.start_pattern_from_LUT_payload.
  by rewrite bits_to_bytes_10, bits_to_bytes_32.
Qed.

(** C6 (the code departs from it): for 4 LUT entries the first two
    payload bytes are 0 and 1, not [4 & 0xFF = 4] and the high bits 0:
    read low byte first they announce 256 entries.  The four bytes of
    the repeat count are as the claim says.  The packet that goes out
    carries these bytes after the header. *)
Theorem start_pattern_from_LUT_entry_count_bytes :
  DMD.start_pattern_from_LUT_payload 4 0 = Ok [0; 1; 0; 0; 0; 0]
  ∧ DMD.start_pattern_from_LUT_payload 4 0x01020304
    = Ok [0; 1; 0x04; 0x03; 0x02; 0x01]
  ∧ [Z.land 4 0xFF; Z.land (Z.shiftr 4 8) 0x03] = [4; 0]
  ∧ Z.lor 0 (Z.shiftl 1 8) = 256
  ∧ DMD.start_pattern_from_LUT 4 0 (DMD.World "pattern" [] [] [])
    = (Ok (),
       DMD.World "pattern" [] []
         [DMD.Write 1 ([0x40; 1; 8; 0; 0x31; 0x1A] ++ [0; 1; 0; 0; 0; 0]
                       ++ replicate 52 0) true]).
Proof.
  rewrite !start_pattern_from_LUT_payload_bytes by lia.
  do 4 (split; [done|]). vm_compute. reflexivity.
Qed.

(** ** Checksum of the serial frame *)

(** The frame [_build_frame] returns for three data bytes: the checksum
    byte adds the function code and the first data byte only, because
    the slice [frame[3:-2]] is taken before checksum and tail are
    appended and so drops the last two data bytes. *)
Lemma build_frame_bytes func_code d0 d1 d2 :
  0 ≤ func_code < 256 →
  WCIL._build_frame WCIL.init func_code [d0; d1; d2]
  = Ok [0x55; 0xAA; 0x01; func_code; d0; d1; d2;
        Z.land (func_code + d0) 0xFF; 0xDA; 0xC3].
Proof.
  intros Hfc. unfold WCIL._build_frame, bytes. cbn [forallb]. decide_cmp.
  cbn [andb WCIL.address WCIL.init]. change ((0 <=? 1) && (1 <? 256)) with true.
  cbn [mbind result_bind andb WCIL.frame_header WCIL.frame_tail WCIL.init app].
  change (slice [85; 170; 1; func_code; d0; d1; d2] (Some 3) (Some (-2)))
    with [func_code; d0].
  unfold WCIL._calculate_checksum, sum. cbn [foldr]. rewrite Z.add_0_r.
  assert (0 ≤ Z.land (func_code + d0) 255 < 256) as Hbyte.
  { change 255 with (Z.ones 8). rewrite Z.land_ones by lia.
    apply Z.mod_pos_bound. lia. }
  decide_cmp. reflexivity.
Qed.

(** The frame passes [_validate_response] exactly when the checksum over
    all three data bytes happens to equal the one over the first. *)
Lemma validate_built_frame func_code d0 d1 d2 :
  0 ≤ func_code < 256 →
  (frame ← WCIL._build_frame WCIL.init func_code [d0; d1; d2];
   WCIL._validate_response WCIL.init frame func_code)
  = Ok (Z.land (func_code + (d0 + (d1 + (d2 + 0)))) 0xFF
        =? Z.land (func_code + d0) 0xFF).
Proof.
  intros Hfc. rewrite build_frame_bytes by done. cbn [mbind result_bind].
  unfold WCIL._validate_response.
  change (len [85; 170; 1; func_code; d0; d1; d2;
               Z.land (func_code + d0) 255; 218; 195]) with 10.
  cbn [Z.ltb Z.compare Pos.compare Pos.compare_cont].
  change (slice [85; 170; 1; func_code; d0; d1; d2;
                 Z.land (func_code + d0) 255; 218; 195] None (Some 2))
    with [85; 170].
  change (slice [85; 170; 1; func_code; d0; d1; d2;
                 Z.land (func_code + d0) 255; 218; 195] (Some (-2)) None)
    with [218; 195].
  change (slice [85; 170; 1; func_code; d0; d1; d2;
                 Z.land (func_code + d0) 255; 218; 195] (Some 3) (Some (-3)))
    with [func_code; d0; d1; d2].
  change (index [85; 170; 1; func_code; d0; d1; d2;
                 Z.land (func_code + d0) 255; 218; 195] (-3))
    with (Ok (Z.land (func_code + d0) 255)).
  rewrite index_third, index_fourth.
  cbn [WCIL.frame_header WCIL.frame_tail WCIL.address WCIL.init].
  rewrite !bool_decide_eq_true_2 by done.
  cbn [negb orb mbind result_bind]. change (1 =? 1) with true.
  rewrite Z.eqb_refl. reflexivity.
Qed.

(** C2 (the code departs from it): for function code 0x03 and the data
    of a 2000 mA request, [0x07, 0xD0, 0x00], the checksum byte in the
    frame is 0x0A = (0x03 + 0x07) & 0xFF, not the sum over all three
    data bytes, 0xDA, and the frame fails [_validate_response]. *)
Theorem build_frame_checksum_2000mA :
  WCIL._build_frame WCIL.init 0x03 [0x07; 0xD0; 0x00]
  = Ok [0x55; 0xAA; 0x01; 0x03; 0x07; 0xD0; 0x00; 0x0A; 0xDA; 0xC3]
  ∧ Z.land (0x03 + 0x07 + 0xD0 + 0x00) 0xFF = 0xDA
  ∧ (frame ← WCIL._build_frame WCIL.init 0x03 [0x07; 0xD0; 0x00];
     WCIL._validate_response WCIL.init frame 0x03) = Ok false.
Proof.
  rewrite validate_built_frame, build_frame_bytes by lia. done.
Qed.

(** ** Length of the data [parse_reply] returns *)

Lemma parse_reply_truncated_counterexample :
  let r : Reply := (false, "00000000", 0x0A, 5, [1; 2]) in
  parse_reply (Some [0x00; 0x0A; 5; 0; 1; 2]) = Ok (Some r)
  ∧ len (reply_data r) ≠ reply_length r.
Proof. split; [reflexivity|discriminate]. Qed.

(** C4, as the code has it: a reply of at least four bytes always
    parses, whatever its length field announces.  The length returned
    is the one announced, byte 2 or-ed with byte 3 shifted left by 8.
    The data are the bytes after the four header bytes, cut to at most
    [length] of them: there are [min length (received - 4)] data bytes,
    which is [length] exactly when that many bytes were received.  No
    error is raised for a payload that is shorter than announced; only
    a reply of fewer than four bytes fails, with [IndexError]. *)
Theorem parse_reply_data_length reply :
  Forall (fun x => 0 ≤ x < 256) reply →
  (4 ≤ len reply →
   ∃ r r2 r3,
        parse_reply (Some reply) = Ok (Some r)
        ∧ reply !! 2%nat = Some r2
        ∧ reply !! 3%nat = Some r3
        ∧ reply_length r = Z.lor r2 (Z.shiftl r3 8)
        ∧ reply_data r = take (Z.to_nat (reply_length r)) (drop 4 reply)
        ∧ len (reply_data r) = Z.min (reply_length r) (len reply - 4)
        ∧ (len (reply_data r) = reply_length r
           ↔ reply_length r ≤ len reply - 4))
  ∧ (len reply < 4 → parse_reply (Some reply) = Raise IndexError).
Proof.
  intros Hbytes. split.
  - intros Hlen.
    destruct reply as [|r0 [|r1 [|r2 [|r3 rest]]]];
      try (unfold len in Hlen; simpl in Hlen; lia).
    unfold parse_reply.
    rewrite index_head, index_second, index_third, index_fourth.
    cbn [mbind result_bind].
    assert (0 ≤ Z.lor r2 (Z.shiftl r3 8)) as Hnn.
    { do 2 apply Forall_cons in Hbytes as [_ Hbytes].
      apply Forall_cons in Hbytes as [H2 Hbytes].
      apply Forall_cons in Hbytes as [H3 _].
      apply Z.lor_nonneg. split; [lia|]. apply Z.shiftl_nonneg. lia. }
    set (length := Z.lor r2 (Z.shiftl r3 8)) in *.
    eexists _, r2, r3. split; [reflexivity|].
    split; [reflexivity|]. split; [reflexivity|].
    unfold reply_data, reply_length. cbn [fst snd].
    split; [reflexivity|].
    rewrite slice_between by lia.
    change (Z.to_nat 4) with 4%nat. cbn [drop]. rewrite drop_0.
    replace (Z.to_nat (4 + length) - 4)%nat with (Z.to_nat length) by lia.
    split; [done|].
    assert (len (take (Z.to_nat length) rest)
            = Z.min length (len (r0 :: r1 :: r2 :: r3 :: rest) - 4)) as Hmin.
    { unfold len. rewrite length_take. simpl. lia. }
    split; [done|]. rewrite Hmin. lia.
  - intros Hlen.
    destruct reply as [|r0 [|r1 [|r2 [|r3 rest]]]]; try reflexivity.
    unfold len in Hlen. simpl in Hlen. lia.
Qed.

Lemma parse_reply_data_length_witness :
  (4 ≤ len [0x00; 0x0A; 5; 0; 1; 2] →
   ∃ r r2 r3,
        parse_reply (Some [0x00; 0x0A; 5; 0; 1; 2]) = Ok (Some r)
        ∧ [0x00; 0x0A; 5; 0; 1; 2] !! 2%nat = Some r2
        ∧ [0x00; 0x0A; 5; 0; 1; 2] !! 3%nat = Some r3
        ∧ reply_length r = Z.lor r2 (Z.shiftl r3 8)
        ∧ reply_data r
          = take (Z.to_nat (reply_length r)) (drop 4 [0x00; 0x0A; 5; 0; 1; 2])
        ∧ len (reply_data r)
          = Z.min (reply_length r) (len [0x00; 0x0A; 5; 0; 1; 2] - 4)
        ∧ (len (reply_data r) = reply_length r
           ↔ reply_length r ≤ len [0x00; 0x0A; 5; 0; 1; 2] - 4))
  ∧ (len [0x00; 0x0A; 5; 0; 1; 2] < 4 →
     parse_reply (Some [0x00; 0x0A; 5; 0; 1; 2]) = Raise IndexError).
Proof.
  apply (parse_reply_data_length [0x00; 0x0A; 5; 0; 1; 2]).
  repeat constructor; lia.
Defined.

(** ** The loop of [send_command] always has iterations enough *)

Lemma index_raises {A} (l : list A) i e : index l i = Raise e → e = IndexError.
Proof.
  unfold index. repeat case_match; intros; by simplify_eq.
Qed.

Lemma dev_write_raises endpoint data w e w' :
  DMD.dev_write endpoint data w = (Raise e, w') → e = USBError.
Proof.
  unfold DMD.dev_write. repeat case_match; intros; by simplify_eq.
Qed.

Lemma write_retry_raises data w e w' :
  DMD.try_except (DMD.dev_write 1 data) DMD.is_USBError
                 (DMD.time_sleep 100;; DMD.dev_write 1 data) w = (Raise e, w') →
  e = USBError.
Proof.
  unfold DMD.try_except.
  destruct (DMD.dev_write 1 data w) as [[[]|e1] w1] eqn:H1; [done|].
  apply dev_write_raises in H1 as ->. cbn [DMD.is_USBError].
  unfold mbind, DMD.M_bind, DMD.time_sleep.
  intros H2. by apply dev_write_raises in H2.
Qed.

Lemma send_rest_fuel fuel remaining_data w :
  (length remaining_data ≤ fuel)%nat →
  (DMD.send_rest fuel remaining_data w).1 ≠ Raise OutOfFuel.
Proof.
  revert remaining_data w.
  induction fuel as [|fuel IH]; intros rem w Hfuel.
  - by destruct rem; [|simpl in Hfuel; lia].
  - cbn [DMD.send_rest]. case_match eqn:Hpos; [|done].
    unfold mbind at 1, DMD.M_bind at 1.
    destruct (DMD.try_except _ _ _ w) as [[[]|e] w1] eqn:Hw.
    + apply IH. rewrite slice_from by lia.
      change (Z.to_nat 64) with 64%nat. rewrite length_drop. lia.
    + apply write_retry_raises in Hw as ->. done.
Qed.

Lemma parse_reply_raises reply e : parse_reply reply = Raise e → e = IndexError.
Proof.
  unfold parse_reply. destruct reply as [reply|]; [|done].
  destruct (index reply 0) eqn:H0; [|intros [= <-]; by apply index_raises in H0].
  destruct (index reply 1) eqn:H1; [|intros [= <-]; by apply index_raises in H1].
  destruct (index reply 2) eqn:H2; [|intros [= <-]; by apply index_raises in H2].
  destruct (index reply 3) eqn:H3; [|intros [= <-]; by apply index_raises in H3].
  done.
Qed.

Lemma send_command_fuel mode sequence_byte command payload w :
  len payload + 6 ≤ 512 →
  (DMD.send_command mode sequence_byte command (Some payload) w).1
    ≠ Raise OutOfFuel.
Proof.
  intros Hlen. rewrite send_command_phases by done.
  destruct (DMD.write_phase _ payload w) as [[[]|e] w1] eqn:Hw.
  - unfold DMD.read_phase. case_decide.
    + unfold mbind, DMD.M_bind, DMD.time_sleep, DMD.dev_read, DMD.lift, DMD.raise.
      cbn [DMD.replies DMD.log]. destruct (DMD.replies w1); [done|].
      destruct (index _ 0) eqn:Hi; [|by apply index_raises in Hi as ->].
      destruct (negb _); [done|]. cbn [fst].
      intros He. by apply parse_reply_raises in He.
    + done.
  - cbn [fst]. intros [= ->]. revert Hw. unfold DMD.write_phase.
    case_match.
    + intros Hw. by apply write_retry_raises in Hw.
    + unfold mbind, DMD.M_bind.
      destruct (DMD.dev_write _ _ w) as [[[]|e1] w2] eqn:H1.
      * intros Hw. eapply (send_rest_fuel _ _ w2); [reflexivity|].
        by rewrite Hw.
      * intros [= -> _]. by apply dev_write_raises in H1.
Qed.

(** * Further properties of the two modules *)

(** ** Write commands *)

Lemma send_command_default mode sequence_byte command :
  DMD.send_command mode sequence_byte command None
  = DMD.send_command mode sequence_byte command (Some []).
Proof. reflexivity. Qed.

(** A write command of at most 122 payload bytes on a transport that
    accepts every write: the packets are those of [call_packets], the
    result is [None], nothing is read. *)
Lemma send_command_write sequence_byte command payload w :
  len payload ≤ 122 →
  DMD.write_faults w = [] →
  DMD.send_command "w" sequence_byte command (Some payload) w
  = (Ok None, DMD.after w (DMD.sent (DMD.call_packets sequence_byte command payload))).
Proof.
  intros Hlen Hf. pose proof (len_nonneg payload) as Hnn.
  rewrite send_command_phases by lia.
  destruct (write_phase_ok (DMD.header "w" sequence_byte command (len payload))
              payload w eq_refl Hf) as (ps & -> & Hone & Hmany).
  unfold DMD.read_phase. rewrite decide_False by done.
  unfold DMD.lift, parse_reply, DMD.call_packets. do 2 f_equal.
  destruct (decide (len payload ≤ 58)) as [Hs|Hl].
  - rewrite (Hone Hs). by decide_cmp.
  - destruct Hmany as (rest & k & -> & Hall & Hk & Hcat); [lia|].
    decide_cmp. do 2 f_equal.
    assert (length (concat rest) = (length payload - 58 + k)%nat) as Hcl
      by (by rewrite Hcat, length_app, length_drop, length_replicate).
    destruct rest as [|p [|p' rest]].
    + simpl in Hcl. unfold len in *. lia.
    + apply Forall_cons in Hall as [Hp _].
      simpl in Hcat, Hcl. rewrite app_nil_r in Hcat, Hcl.
      rewrite Hcat. do 3 f_equal. unfold len in *. lia.
    + apply Forall_cons in Hall as [Hp Hall].
      apply Forall_cons in Hall as [Hp' _].
      simpl in Hcl. rewrite !length_app in Hcl. unfold len in *. lia.
Qed.



(** ** Payloads beyond the buffer limit *)

Lemma digits_val_is_Some_app l1 l2 :
  is_Some (digits_val 0 (l1 ++ l2)) →
  is_Some (digits_val 0 l1) ∧ is_Some (digits_val 0 l2).
Proof. intros [a Ha]. apply digits_val_app in Ha as [-> ->]. by split. Qed.

(** A string of binary digits always converts, into one item per
    started group of eight. *)
Lemma bits_to_bytes_digits (n : nat) l :
  (length l ≤ n)%nat → l ≠ [] → is_Some (digits_val 0 l) →
  ∃ bs, bits_to_bytes (str l) = Ok bs
        ∧ (1 ≤ length bs)%nat
        ∧ (8 < length l → 2 ≤ length bs)%nat.
Proof.
  revert l. induction n as [|n IH]; intros l Hn Hne Hd.
  { destruct l; [done|simpl in Hn; lia]. }
  destruct (decide (length l ≤ 8)%nat) as [Hs|Hl].
  - destruct Hd as [v Hv].
    rewrite bits_to_bytes_last by (destruct l; [done|simpl in *; lia]).
    rewrite (int2_digits _ _ Hne Hv). eexists. split; [reflexivity|].
    simpl. lia.
  - destruct (split_at 8 l) as (c & rest & -> & Hc & Hrest); [lia|].
    apply digits_val_is_Some_app in Hd as [[v Hv] Hr].
    assert (rest ≠ []) as Hrne by (intros ->; simpl in Hrest; lia).
    destruct (IH rest) as (bs & Hbs & H1 & _); [rewrite length_app in Hn; lia|done..|].
    rewrite bits_to_bytes_cons by done.
    rewrite (int2_digits c v) by (done || by intros ->).
    cbn [mbind result_bind]. rewrite Hbs. cbn [mbind result_bind].
    eexists. split; [reflexivity|]. rewrite length_app. simpl. lia.
Qed.

Lemma length_bytes_any n :
  0 ≤ n →
  ∃ t0 t1 more, bits_to_bytes (number_to_bits n 16) = Ok (t0 :: t1 :: more).
Proof.
  intros Hn. unfold number_to_bits, format_b. decide_cmp.
  destruct (bits_to_bytes_digits (length (zfill 16 (nat_digits n)))
              (zfill 16 (nat_digits n))) as (bs & -> & _ & H2).
  - done.
  - intros H. apply (f_equal length) in H. unfold zfill in H.
    rewrite length_app, length_replicate in H. simpl in H. lia.
  - unfold zfill. rewrite digits_val_zeros, nat_digits_val by done. by eexists.
  - assert (16 ≤ length (zfill 16 (nat_digits n)))%nat as Hlen
      by (unfold zfill; rewrite length_app, length_replicate; lia).
    destruct bs as [|t0 [|t1 more]]; simpl in H2; [lia..|]. by eexists _, _, _.
Qed.

(** X2: a payload of more than 506 bytes is refused before anything is
    sent: the call raises [DMDerror] and the world is as before, with
    no write, no read and no pause in the trace. *)
Theorem send_command_payload_too_large mode sequence_byte command payload w :
  512 < len payload + 6 →
  DMD.send_command mode sequence_byte command (Some payload) w
  = (Raise (DMDerror "Payload exceeds 512-byte buffer limit"), w).
Proof.
  intros Hlen. unfold DMD.send_command.
  change (default [] (Some payload)) with payload. cbv zeta.
  destruct (length_bytes_any (len payload + 2)) as (t0 & t1 & more & Ht); [lia|].
  rewrite bits_to_bytes_flag, Ht.
  unfold mbind at 1 2 3 4 5, DMD.M_bind at 1 2 3 4 5, DMD.lift at 1 2 3 4 5.
  rewrite !index_head, index_second. by decide_cmp.
Qed.

Lemma send_command_payload_too_large_witness :
  DMD.send_command "w" 1 0x1A2B (Some (replicate 507 0))
    (DMD.World "pattern" [] [] [])
  = (Raise (DMDerror "Payload exceeds 512-byte buffer limit"),
     DMD.World "pattern" [] [] []).
Proof.
  apply (send_command_payload_too_large "w" 1 0x1A2B (replicate 507 0)).
  vm_compute. reflexivity.
Defined.

(** ** What a command leaves alone *)

Lemma dev_write_keeps endpoint data w :
  let w' := (DMD.dev_write endpoint data w).2 in
  DMD.current_mode w' = DMD.current_mode w ∧ DMD.replies w' = DMD.replies w.
Proof. unfold DMD.dev_write. by repeat case_match. Qed.

Lemma write_retry_keeps data w :
  let w' := (DMD.try_except (DMD.dev_write 1 data) DMD.is_USBError
               (DMD.time_sleep 100;; DMD.dev_write 1 data) w).2 in
  DMD.current_mode w' = DMD.current_mode w ∧ DMD.replies w' = DMD.replies w.
Proof.
  unfold DMD.try_except.
  pose proof (dev_write_keeps 1 data w) as Hk.
  destruct (DMD.dev_write 1 data w) as [[[]|e] w1]; [done|].
  destruct (DMD.is_USBError e); [|done].
  unfold mbind, DMD.M_bind, DMD.time_sleep.
  pose proof (dev_write_keeps 1 data (DMD.log (DMD.Sleep 100) w1)) as Hk2.
  simpl in *. destruct Hk as [<- <-]. apply Hk2.
Qed.

Lemma send_rest_keeps fuel remaining_data w :
  let w' := (DMD.send_rest fuel remaining_data w).2 in
  DMD.current_mode w' = DMD.current_mode w ∧ DMD.replies w' = DMD.replies w.
Proof.
  revert remaining_data w. induction fuel as [|fuel IH]; intros rem w.
  - simpl. by destruct (len rem >? 0).
  - cbv zeta. cbn [DMD.send_rest]. case_match; [|done].
    match goal with |- context [DMD.try_except ?a ?b ?c] =>
      set (tr := DMD.try_except a b c)
    end.
    assert (DMD.current_mode (tr w).2 = DMD.current_mode w
            ∧ DMD.replies (tr w).2 = DMD.replies w) as Hk
      by apply write_retry_keeps.
    unfold mbind, DMD.M_bind.
    destruct (tr w) as [[[]|e] w1]; [|exact Hk].
    simpl in Hk. destruct Hk as [<- <-]. apply IH.
Qed.

Lemma write_phase_keeps hdr payload w :
  let w' := (DMD.write_phase hdr payload w).2 in
  DMD.current_mode w' = DMD.current_mode w ∧ DMD.replies w' = DMD.replies w.
Proof.
  unfold DMD.write_phase. case_match.
  - apply write_retry_keeps.
  - unfold mbind, DMD.M_bind.
    pose proof (dev_write_keeps 1 (hdr ++ slice payload None (Some 58)) w) as Hk.
    destruct (DMD.dev_write _ _ w) as [[[]|e] w1]; [|done].
    simpl in Hk. destruct Hk as [<- <-]. apply send_rest_keeps.
Qed.

(** X3: a command in any mode but 'r' never reads from the device and
    never touches the cached display mode, whatever the transport does
    and whatever the payload: the pending replies and the cached mode
    are as before.  When the call returns, it returns [None]; when it
    raises, it raises the transport error or, only for a payload with
    [len payload + 6 > 512], the [DMDerror] of the size check. *)
Theorem send_command_write_only mode sequence_byte command payload w :
  mode ≠ "r" →
  let r := DMD.send_command mode sequence_byte command (Some payload) w in
  DMD.replies r.2 = DMD.replies w
  ∧ DMD.current_mode r.2 = DMD.current_mode w
  ∧ (r.1 = Ok None
     ∨ r.1 = Raise USBError
     ∨ (512 < len payload + 6
        ∧ r.1 = Raise (DMDerror "Payload exceeds 512-byte buffer limit"))).
Proof.
  intros Hmode. cbv zeta.
  destruct (Z.le_gt_cases (len payload + 6) 512) as [Hlen|Hlen]; cycle 1.
  { assert (DMD.send_command mode sequence_byte command (Some payload) w
            = (Raise (DMDerror "Payload exceeds 512-byte buffer limit"), w))
      as ->.
    { unfold DMD.send_command.
      change (default [] (Some payload)) with payload. cbv zeta.
      destruct (length_bytes_any (len payload + 2)) as (t0 & t1 & more & Ht);
        [lia|].
      rewrite bits_to_bytes_flag, Ht.
      unfold mbind at 1 2 3 4 5, DMD.M_bind at 1 2 3 4 5, DMD.lift at 1 2 3 4 5.
      rewrite !index_head, index_second. by decide_cmp. }
    cbn [fst snd]. split; [done|]. split; [done|]. right. right. done. }
  rewrite send_command_phases by done.
  pose proof (write_phase_keeps
    (DMD.header mode sequence_byte command (len payload)) payload w) as Hk.
  destruct (DMD.write_phase _ payload w) as [[[]|e] w1] eqn:Hw;
    simpl in Hk; destruct Hk as [Hm Hr].
  - unfold DMD.read_phase. rewrite decide_False by done. simpl. auto.
  - simpl. repeat split; [done..|]. right. left. f_equal.
    revert Hw. unfold DMD.write_phase. case_match.
    + intros Hw. by apply write_retry_raises in Hw.
    + unfold mbind, DMD.M_bind.
      destruct (DMD.dev_write _ _ w) as [[[]|e1] w2] eqn:H1.
      * intros Hw.
        assert (∀ fuel rem w0 e0 w0',
                  DMD.send_rest fuel rem w0 = (Raise e0, w0') →
                  e0 = USBError ∨ e0 = OutOfFuel) as Hrest.
        { clear. induction fuel as [|fuel IH]; intros rem w0 e0 w0'.
          - simpl. case_match; [|done]. intros [= <- _]. by right.
          - cbn [DMD.send_rest]. case_match; [|done].
            unfold mbind at 1, DMD.M_bind at 1.
            destruct (DMD.try_except _ _ _ w0) as [[[]|e] w1] eqn:Hw.
            + apply IH.
            + intros [= <- _]. left. by apply write_retry_raises in Hw. }
        destruct (Hrest _ _ _ _ _ Hw) as [->| ->]; [done|].
        exfalso. eapply (send_rest_fuel _ _ w2); [reflexivity|]. by rewrite Hw.
      * intros [= <- _]. by apply dev_write_raises in H1.
Qed.

Lemma send_command_write_only_witness :
  let r := DMD.send_command "w" 5 0x1A24 (Some [2])
             (DMD.World "video" [true; true] [[1; 2; 3]] []) in
  DMD.replies r.2 = [[1; 2; 3]]
  ∧ DMD.current_mode r.2 = "video"
  ∧ (r.1 = Ok None
     ∨ r.1 = Raise USBError
     ∨ (512 < len [2] + 6
        ∧ r.1 = Raise (DMDerror "Payload exceeds 512-byte buffer limit"))).
Proof.
  apply (send_command_write_only "w" 5 0x1A24 [2]
           (DMD.World "video" [true; true] [[1; 2; 3]] []));
    discriminate.
Defined.

(** ** Read commands *)

(** A read command without payload on a transport that accepts the
    write, for whatever the device answers. *)
Lemma send_command_query sequence_byte command r rs w :
  DMD.write_faults w = [] →
  DMD.replies w = r :: rs →
  DMD.send_command "r" sequence_byte command (Some []) w
  = (match index (take 64 r) 0 with
     | Ok a0 =>
         if negb (Z.land a0 0x20 =? 0)
         then Raise (DMDerror "DMD reply has error flag set!")
         else parse_reply (Some (take 64 r))
     | Raise e => Raise e
     end,
     DMD.World (DMD.current_mode w) [] rs
       (DMD.trace w ++
        [DMD.Write 1 (DMD.header "r" sequence_byte command 0 ++ replicate 58 0) true;
         DMD.Sleep 100;
         DMD.Read 0x81 64 (Some (take 64 r))])).
Proof.
  intros Hf Hr.
  rewrite send_command_phases by done.
  destruct (write_phase_ok (DMD.header "r" sequence_byte command (@len Z [])) [] w
              eq_refl Hf) as (ps & -> & Hone & _).
  rewrite (Hone ltac:(done)).
  unfold DMD.read_phase. rewrite decide_True by done.
  unfold mbind, DMD.M_bind, DMD.time_sleep, DMD.dev_read, DMD.lift, DMD.log,
    DMD.raise.
  cbn [DMD.replies DMD.after DMD.trace DMD.write_faults DMD.current_mode].
  rewrite Hr, Hf. change (Z.to_nat 64) with 64%nat.
  destruct (index (take 64 r) 0) as [a0|e]; [destruct (negb _)|];
    by rewrite <- !app_assoc.
Qed.

(** X4: the three ways a read command fails once its packet is written.
    With nothing to read the transport error of the read is raised; an
    empty answer raises [IndexError]; an answer whose flag byte has bit
    5 set raises [DMDerror].  In each case exactly one packet was
    written and one read made. *)
Theorem send_command_read_failures sequence_byte command w :
  DMD.write_faults w = [] →
  let q := DMD.header "r" sequence_byte command 0 ++ replicate 58 0 in
  let run := DMD.send_command "r" sequence_byte command (Some []) w in
  (DMD.replies w = [] →
   run = (Raise USBError,
          DMD.after w [DMD.Write 1 q true; DMD.Sleep 100; DMD.Read 0x81 64 None]))
  ∧ (∀ rs, DMD.replies w = [] :: rs →
     run = (Raise IndexError,
            DMD.World (DMD.current_mode w) [] rs
              (DMD.trace w ++ [DMD.Write 1 q true; DMD.Sleep 100;
                               DMD.Read 0x81 64 (Some [])])))
  ∧ (∀ flag rest rs,
       Z.land flag 0x20 ≠ 0 → DMD.replies w = (flag :: rest) :: rs →
       run = (Raise (DMDerror "DMD reply has error flag set!"),
              DMD.World (DMD.current_mode w) [] rs
                (DMD.trace w ++ [DMD.Write 1 q true; DMD.Sleep 100;
                                 DMD.Read 0x81 64 (Some (take 64 (flag :: rest)))]))).
Proof.
  intros Hf q run. split; [|split].
  - intros Hr. subst run. rewrite send_command_phases by done.
    destruct (write_phase_ok (DMD.header "r" sequence_byte command (@len Z [])) [] w
                eq_refl Hf) as (ps & -> & Hone & _).
    rewrite (Hone ltac:(done)).
    unfold DMD.read_phase. rewrite decide_True by done.
    unfold mbind, DMD.M_bind, DMD.time_sleep, DMD.dev_read, DMD.log, DMD.after.
    cbn [DMD.replies DMD.trace DMD.write_faults DMD.current_mode].
    rewrite Hr. by rewrite <- !app_assoc.
  - intros rs Hr. subst run. by rewrite (send_command_query _ _ [] rs).
  - intros flag rest rs Hflag Hr. subst run.
    rewrite (send_command_query _ _ (flag :: rest) rs) by done.
    cbn [take]. rewrite index_head.
    by rewrite (proj2 (Z.eqb_neq _ _) Hflag).
Qed.

Lemma send_command_read_failures_witness :
  let w := DMD.World "pattern" [] [[0x20; 0; 0; 0]] [] in
  let q := DMD.header "r" 10 0x1A0A 0 ++ replicate 58 0 in
  let run := DMD.send_command "r" 10 0x1A0A (Some []) w in
  (DMD.replies w = [] →
   run = (Raise USBError,
          DMD.after w [DMD.Write 1 q true; DMD.Sleep 100; DMD.Read 0x81 64 None]))
  ∧ (∀ rs, DMD.replies w = [] :: rs →
     run = (Raise IndexError,
            DMD.World (DMD.current_mode w) [] rs
              (DMD.trace w ++ [DMD.Write 1 q true; DMD.Sleep 100;
                               DMD.Read 0x81 64 (Some [])])))
  ∧ (∀ flag rest rs,
       Z.land flag 0x20 ≠ 0 → DMD.replies w = (flag :: rest) :: rs →
       run = (Raise (DMDerror "DMD reply has error flag set!"),
              DMD.World (DMD.current_mode w) [] rs
                (DMD.trace w ++ [DMD.Write 1 q true; DMD.Sleep 100;
                                 DMD.Read 0x81 64 (Some (take 64 (flag :: rest)))]))).
Proof.
  intros w.
  apply (send_command_read_failures 10 0x1A0A w). reflexivity.
Defined.

(** ** Display mode *)

Lemma display_modes_lookup m c :
  DMD.display_modes !! m = Some c →
  (m = "video" ∧ c = 0) ∨ (m = "pattern" ∧ c = 1)
  ∨ (m = "video-pattern" ∧ c = 2) ∨ (m = "otf" ∧ c = 3).
Proof.
  unfold DMD.display_modes. intros H.
  repeat (rewrite lookup_insert in H; case_decide; [simplify_eq; tauto|]).
  by rewrite lookup_empty in H.
Qed.

Lemma display_modes_inv_lookup c m :
  DMD.display_modes_inv !! c = Some m →
  (m = "video" ∧ c = 0) ∨ (m = "pattern" ∧ c = 1)
  ∨ (m = "video-pattern" ∧ c = 2) ∨ (m = "otf" ∧ c = 3).
Proof.
  unfold DMD.display_modes_inv. intros H.
  repeat (rewrite lookup_insert in H; case_decide; [simplify_eq; tauto|]).
  by rewrite lookup_empty in H.
Qed.

(** The two dictionaries of display modes are inverse to each
    other: a name has a code exactly when that code has the name. *)
Theorem display_modes_inverse m c :
  DMD.display_modes !! m = Some c ↔ DMD.display_modes_inv !! c = Some m.
Proof.
  split.
  - intros H. by destruct (display_modes_lookup _ _ H)
      as [[-> ->]|[[-> ->]|[[-> ->]|[-> ->]]]].
  - intros H. by destruct (display_modes_inv_lookup _ _ H)
      as [[-> ->]|[[-> ->]|[[-> ->]|[-> ->]]]].
Qed.

(** A read command that is answered, in terms of [query_events]. *)
Lemma send_command_answered sequence_byte command flag sq data w rs :
  Z.land flag 0x20 = 0 →
  (length data ≤ 60)%nat →
  DMD.write_faults w = [] →
  DMD.replies w = DMD.answer flag sq data :: rs →
  DMD.send_command "r" sequence_byte command (Some []) w
  = (Ok (Some (false, number_to_bits flag 8, sq, len data, data)),
     DMD.World (DMD.current_mode w) [] rs
       (DMD.trace w
        ++ DMD.query_events sequence_byte command (DMD.answer flag sq data))).
Proof. apply send_command_read. Qed.

Lemma get_display_mode_run flag sq data w rs :
  Z.land flag 0x20 = 0 →
  (length data ≤ 60)%nat →
  DMD.write_faults w = [] →
  DMD.replies w = DMD.answer flag sq data :: rs →
  let events := DMD.query_events 0 0x1A1B (DMD.answer flag sq data) in
  DMD.get_display_mode w
  = match data with
    | [] => (Raise IndexError,
             DMD.World (DMD.current_mode w) [] rs (DMD.trace w ++ events))
    | c :: _ =>
        match DMD.display_modes_inv !! c with
        | Some m => (Ok m, DMD.World m [] rs (DMD.trace w ++ events))
        | None => (Raise KeyError,
                   DMD.World (DMD.current_mode w) [] rs (DMD.trace w ++ events))
        end
    end.
Proof.
  intros Hflag Hdata Hf Hr events.
  unfold DMD.get_display_mode, mbind, DMD.M_bind.
  rewrite (send_command_answered _ _ flag sq data w rs) by done.
  unfold DMD.lift, DMD.last_item, reply_data. cbn [fst snd].
  destruct data as [|c more]; [done|]. rewrite index_head.
  unfold DMD.getitem. by destruct (DMD.display_modes_inv !! c).
Qed.

(** X5: [get_display_mode] stores what the device reports.  When the
    first data byte of the answer is the code of a mode, that mode is
    returned and becomes the cached mode; when it is no code of any
    mode, [KeyError] is raised and the cached mode stays as it was. *)
Theorem get_display_mode_updates_cache flag sq c more w rs :
  Z.land flag 0x20 = 0 →
  (length more ≤ 59)%nat →
  DMD.write_faults w = [] →
  DMD.replies w = DMD.answer flag sq (c :: more) :: rs →
  let r := DMD.get_display_mode w in
  match DMD.display_modes_inv !! c with
  | Some m => r.1 = Ok m ∧ DMD.current_mode r.2 = m
  | None => r.1 = Raise KeyError ∧ DMD.current_mode r.2 = DMD.current_mode w
  end.
Proof.
  intros Hflag Hmore Hf Hr.
  cbv zeta. rewrite (get_display_mode_run flag sq (c :: more) w rs)
    by (done || simpl; lia).
  by destruct (DMD.display_modes_inv !! c).
Qed.

Lemma get_display_mode_updates_cache_witness :
  let w := DMD.World "pattern" [] [DMD.answer 0 0 [2]] [] in
  let r := DMD.get_display_mode w in
  match DMD.display_modes_inv !! 2 with
  | Some m => r.1 = Ok m ∧ DMD.current_mode r.2 = m
  | None => r.1 = Raise KeyError ∧ DMD.current_mode r.2 = DMD.current_mode w
  end.
Proof.
  intros w.
  apply (get_display_mode_updates_cache 0 0 2 [] w []);
    [reflexivity|simpl; lia|reflexivity|reflexivity].
Defined.

(** The run of [set_display_mode] for a mode that passes the two checks,
    on a transport that accepts every write, up to the read-back. *)
Lemma set_display_mode_run mode code w :
  DMD.display_modes !! mode = Some code →
  (mode = "video-pattern" → DMD.current_mode w = "video") →
  DMD.write_faults w = [] →
  DMD.set_display_mode mode w
  = let w1 := DMD.after w
                (DMD.sent (DMD.call_packets 0 0x1A1B [code])
                 ++ [DMD.Sleep 500]) in
    match DMD.try_except DMD.get_display_mode DMD.is_IndexError
            DMD.get_display_mode w1 with
    | (Ok new_display_mode, w2) =>
        if bool_decide (new_display_mode = mode) then (Ok (), w2)
        else (Raise (ConnectionError "Mode activation failed."), w2)
    | (Raise e, w2) => (Raise e, w2)
    end.
Proof.
  intros Hcode Hpre Hf.
  unfold DMD.set_display_mode, DMD.get_current_mode.
  unfold mbind at 1, DMD.M_bind at 1.
  rewrite Hcode. rewrite bool_decide_eq_false_2 by done.
  assert (bool_decide (mode = "video-pattern")
          && negb (bool_decide (DMD.current_mode w = "video")) = false) as ->.
  { case_bool_decide as Hm; [|done].
    by rewrite (bool_decide_eq_true_2 _ (Hpre Hm)). }
  unfold DMD.getitem. rewrite Hcode.
  unfold mbind at 1 2 3, DMD.M_bind at 1 2 3, DMD.lift.
  rewrite send_command_write by (done || (unfold len; simpl; lia)).
  unfold DMD.time_sleep, DMD.log.
  cbn [DMD.after DMD.current_mode DMD.write_faults DMD.replies DMD.trace].
  rewrite <- app_assoc.
  unfold mbind, DMD.M_bind.
  destruct (DMD.try_except _ _ _ _) as [[m'|e] w2]; [|done].
  by case_bool_decide.
Qed.

(** X6: after [set_display_mode] has read the mode back, the cached mode
    is the one the device reported, and the call succeeds exactly when
    that is the mode asked for; otherwise it raises [ConnectionError].
    Before the read-back it writes the mode, once, and waits 500 ms. *)
Theorem set_display_mode_read_back mode code flag sq c more reported w rs :
  DMD.display_modes !! mode = Some code →
  (mode = "video-pattern" → DMD.current_mode w = "video") →
  DMD.display_modes_inv !! c = Some reported →
  Z.land flag 0x20 = 0 →
  (length more ≤ 59)%nat →
  DMD.write_faults w = [] →
  DMD.replies w = DMD.answer flag sq (c :: more) :: rs →
  DMD.set_display_mode mode w
  = (if bool_decide (reported = mode) then Ok ()
     else Raise (ConnectionError "Mode activation failed."),
     DMD.World reported [] rs
       (DMD.trace w
        ++ DMD.sent [DMD.header "w" 0 0x1A1B 1 ++ [code] ++ replicate 57 0]
        ++ [DMD.Sleep 500]
        ++ DMD.query_events 0 0x1A1B (DMD.answer flag sq (c :: more)))).
Proof.
  intros Hcode Hpre Hrep Hflag Hmore Hf Hr.
  rewrite (set_display_mode_run mode code) by done. cbv zeta.
  unfold DMD.try_except.
  rewrite (get_display_mode_run flag sq (c :: more) _ rs)
    by (done || simpl; lia).
  rewrite Hrep.
  cbn [DMD.after DMD.current_mode DMD.write_faults DMD.replies DMD.trace].
  rewrite <- !app_assoc.
  by case_bool_decide.
Qed.

Lemma set_display_mode_read_back_witness :
  DMD.set_display_mode "video" (DMD.World "pattern" [] [DMD.answer 0 0 [1]] [])
  = (if bool_decide ("pattern" = "video") then Ok ()
     else Raise (ConnectionError "Mode activation failed."),
     DMD.World "pattern" [] []
       (DMD.trace (DMD.World "pattern" [] [DMD.answer 0 0 [1]] [])
        ++ DMD.sent [DMD.header "w" 0 0x1A1B 1 ++ [0] ++ replicate 57 0]
        ++ [DMD.Sleep 500]
        ++ DMD.query_events 0 0x1A1B (DMD.answer 0 0 ([1] ++ [])))).
Proof.
  apply (set_display_mode_read_back "video" 0 0 0 1 [] "pattern"
           (DMD.World "pattern" [] [DMD.answer 0 0 [1]] []) []);
    [reflexivity|discriminate|reflexivity|reflexivity|simpl; lia
    |reflexivity|reflexivity].
Defined.

(** X7: an answer without data, which makes the read-back raise
    [IndexError], is tolerated once: the mode is queried a second time
    and that answer decides.  A second answer without data raises
    [IndexError]. *)
Theorem set_display_mode_retries_read_back
    mode code f1 s1 f2 s2 data w rs :
  DMD.display_modes !! mode = Some code →
  (mode = "video-pattern" → DMD.current_mode w = "video") →
  Z.land f1 0x20 = 0 → Z.land f2 0x20 = 0 →
  (length data ≤ 60)%nat →
  DMD.write_faults w = [] →
  DMD.replies w = DMD.answer f1 s1 [] :: DMD.answer f2 s2 data :: rs →
  let before :=
    DMD.trace w
    ++ DMD.sent [DMD.header "w" 0 0x1A1B 1 ++ [code] ++ replicate 57 0]
    ++ [DMD.Sleep 500]
    ++ DMD.query_events 0 0x1A1B (DMD.answer f1 s1 [])
    ++ DMD.query_events 0 0x1A1B (DMD.answer f2 s2 data) in
  DMD.set_display_mode mode w
  = match data with
    | [] => (Raise IndexError, DMD.World (DMD.current_mode w) [] rs before)
    | c :: _ =>
        match DMD.display_modes_inv !! c with
        | Some reported =>
            (if bool_decide (reported = mode) then Ok ()
             else Raise (ConnectionError "Mode activation failed."),
             DMD.World reported [] rs before)
        | None => (Raise KeyError, DMD.World (DMD.current_mode w) [] rs before)
        end
    end.
Proof.
  intros Hcode Hpre Hf1 Hf2 Hdata Hf Hr before.
  rewrite (set_display_mode_run mode code) by done. cbv zeta.
  unfold DMD.try_except.
  rewrite (get_display_mode_run f1 s1 [] _ (DMD.answer f2 s2 data :: rs))
    by (done || simpl; lia).
  cbn [DMD.is_IndexError].
  rewrite (get_display_mode_run f2 s2 data _ rs) by (done || simpl; lia).
  cbn [DMD.after DMD.current_mode DMD.write_faults DMD.replies DMD.trace].
  subst before. rewrite <- !app_assoc.
  destruct data as [|c more]; [done|].
  destruct (DMD.display_modes_inv !! c) as [reported|]; [|done].
  by case_bool_decide.
Qed.

Lemma set_display_mode_retries_read_back_witness :
  let w := DMD.World "pattern" [] [DMD.answer 0 0 []; DMD.answer 0 0 [3]] [] in
  let before :=
    DMD.trace w
    ++ DMD.sent [DMD.header "w" 0 0x1A1B 1 ++ [3] ++ replicate 57 0]
    ++ [DMD.Sleep 500]
    ++ DMD.query_events 0 0x1A1B (DMD.answer 0 0 [])
    ++ DMD.query_events 0 0x1A1B (DMD.answer 0 0 [3]) in
  DMD.set_display_mode "otf" w
  = match [3] with
    | [] => (Raise IndexError, DMD.World (DMD.current_mode w) [] [] before)
    | c :: _ =>
        match DMD.display_modes_inv !! c with
        | Some reported =>
            (if bool_decide (reported = "otf") then Ok ()
             else Raise (ConnectionError "Mode activation failed."),
             DMD.World reported [] [] before)
        | None => (Raise KeyError, DMD.World (DMD.current_mode w) [] [] before)
        end
    end.
Proof.
  intros w.
  apply (set_display_mode_retries_read_back "otf" 3 0 0 0 0 [3] w []);
    [reflexivity|discriminate|reflexivity|reflexivity|simpl; lia
    |reflexivity|reflexivity].
Defined.

(** X8: a mode name that is not one of the four is refused with
    [ValueError] before anything is sent; the world is as before. *)
Theorem set_display_mode_unknown_mode mode w :
  DMD.display_modes !! mode = None →
  DMD.set_display_mode mode w
  = (Raise (ValueError ("mode '" +:+ mode +:+ "' unknown")), w).
Proof.
  intros Hmode. unfold DMD.set_display_mode, DMD.get_current_mode.
  unfold mbind, DMD.M_bind. by rewrite bool_decide_eq_true_2.
Qed.

Lemma set_display_mode_unknown_mode_witness :
  DMD.set_display_mode "Video" (DMD.World "pattern" [] [] [])
  = (Raise (ValueError ("mode '" +:+ "Video" +:+ "' unknown")),
     DMD.World "pattern" [] [] []).
Proof.
  apply (set_display_mode_unknown_mode "Video" (DMD.World "pattern" [] [] [])).
  reflexivity.
Defined.

(** ** Power mode *)

Lemma get_current_powermode_run idlestatus sleepstatus f1 s1 f2 s2 w rs :
  Z.land f1 0x20 = 0 →
  Z.land f2 0x20 = 0 →
  DMD.write_faults w = [] →
  DMD.replies w
    = DMD.answer f1 s1 [idlestatus] :: DMD.answer f2 s2 [sleepstatus] :: rs →
  DMD.get_current_powermode w
  = (Ok (if sleepstatus =? 0 then
           if idlestatus =? 0 then Some "normal"
           else if idlestatus =? 1 then Some "idle"
           else None
         else if sleepstatus =? 1 then Some "standby"
         else Some "undocumented state"),
     DMD.World (DMD.current_mode w) [] rs
       (DMD.trace w
        ++ DMD.query_events 0 0x0201 (DMD.answer f1 s1 [idlestatus])
        ++ DMD.query_events 0 0x0200 (DMD.answer f2 s2 [sleepstatus]))).
Proof.
  intros Hf1 Hf2 Hf Hr.
  unfold DMD.get_current_powermode, mbind, DMD.M_bind.
  rewrite (send_command_answered _ _ f1 s1 [idlestatus] w
             (DMD.answer f2 s2 [sleepstatus] :: rs)) by (done || simpl; lia).
  unfold DMD.lift, DMD.last_item, reply_data. cbn [fst snd].
  rewrite index_head.
  rewrite (send_command_answered _ _ f2 s2 [sleepstatus] _ rs)
    by (done || simpl; lia).
  cbn [fst snd DMD.trace DMD.current_mode]. rewrite index_head.
  unfold mret, DMD.M_ret. rewrite <- app_assoc.
  by repeat case_match.
Qed.

(** X9: [standby] stops the pattern sequence, writes the power mode,
    waits 100 ms and asks the device for its power mode.  It returns
    normally exactly when the sleep status read back is 1, whatever the
    device was doing before; any other read-back raises [DMDerror]. *)
Theorem standby_confirms idlestatus sleepstatus f1 s1 f2 s2 w rs :
  Z.land f1 0x20 = 0 →
  Z.land f2 0x20 = 0 →
  DMD.write_faults w = [] →
  DMD.replies w
    = DMD.answer f1 s1 [idlestatus] :: DMD.answer f2 s2 [sleepstatus] :: rs →
  DMD.standby w
  = (if sleepstatus =? 1 then Ok ()
     else Raise (DMDerror "Failed to enter standby mode"),
     DMD.World (DMD.current_mode w) [] rs
       (DMD.trace w
        ++ DMD.sent [DMD.header "w" 5 0x1A24 1 ++ [0] ++ replicate 57 0;
                     DMD.header "w" 0 0x0200 1 ++ [1] ++ replicate 57 0]
        ++ [DMD.Sleep 100]
        ++ DMD.query_events 0 0x0201 (DMD.answer f1 s1 [idlestatus])
        ++ DMD.query_events 0 0x0200 (DMD.answer f2 s2 [sleepstatus]))).
Proof.
  intros Hf1 Hf2 Hf Hr.
  unfold DMD.standby, DMD.stop_pattern.
  unfold mbind at 1 2 3 4 5, DMD.M_bind at 1 2 3 4 5.
  rewrite send_command_write by (done || (unfold len; simpl; lia)).
  unfold mret, DMD.M_ret.
  rewrite send_command_write by (done || (unfold len; simpl; lia)).
  unfold DMD.time_sleep, DMD.log.
  cbn [DMD.after DMD.current_mode DMD.write_faults DMD.replies DMD.trace].
  rewrite (get_current_powermode_run idlestatus sleepstatus f1 s1 f2 s2 _ rs)
    by done.
  cbn [DMD.current_mode DMD.trace]. rewrite <- !app_assoc.
  destruct (sleepstatus =? 0) eqn:H0.
  - apply Z.eqb_eq in H0 as ->. change (0 =? 1) with false.
    by repeat case_match.
  - destruct (sleepstatus =? 1); done.
Qed.

Lemma standby_confirms_witness :
  let w := DMD.World "pattern" [] [DMD.answer 0 0 [0]; DMD.answer 0 0 [1]] [] in
  DMD.standby w
  = (if 1 =? 1 then Ok ()
     else Raise (DMDerror "Failed to enter standby mode"),
     DMD.World (DMD.current_mode w) [] []
       (DMD.trace w
        ++ DMD.sent [DMD.header "w" 5 0x1A24 1 ++ [0] ++ replicate 57 0;
                     DMD.header "w" 0 0x0200 1 ++ [1] ++ replicate 57 0]
        ++ [DMD.Sleep 100]
        ++ DMD.query_events 0 0x0201 (DMD.answer 0 0 [0])
        ++ DMD.query_events 0 0x0200 (DMD.answer 0 0 [1]))).
Proof.
  intros w.
  apply (standby_confirms 0 1 0 0 0 0 w []); reflexivity.
Defined.

(** ** Main status and source lock *)

(** The bit string of a byte, read character by character: the bits of
    the byte from bit 7 down to bit 0. *)
Lemma bits_to_bools_byte status :
  0 ≤ status < 256 →
  bits_to_bools (number_to_bits status 8)
  = Ok ((fun i => Z.b2z (Z.testbit status i)) <$> [7; 6; 5; 4; 3; 2; 1; 0]).
Proof.
  intros Hs.
  set (same := fun l k : list Z =>
         forallb (fun p => p.1 =? p.2) (zip l k)
         && (length l =? length k)%nat).
  set (good := fun n : nat =>
         match bits_to_bools (number_to_bits (Z.of_nat n) 8) with
         | Ok l => same l ((fun i => Z.b2z (Z.testbit (Z.of_nat n) i))
                           <$> [7; 6; 5; 4; 3; 2; 1; 0])
         | Raise _ => false
         end).
  assert (forallb good (seq 0 256) = true) as Hall by (vm_compute; reflexivity).
  rewrite forallb_forall in Hall.
  specialize (Hall (Z.to_nat status)).
  rewrite in_seq in Hall. specialize (Hall ltac:(lia)).
  subst good. cbv beta in Hall. rewrite Z2Nat.id in Hall by lia.
  destruct (bits_to_bools (number_to_bits status 8)) as [l|]; [|done].
  f_equal. subst same. cbv beta in Hall.
  apply andb_prop in Hall as [Hz Hl]. apply Nat.eqb_eq in Hl.
  remember ((fun i => Z.b2z (Z.testbit status i)) <$> [7; 6; 5; 4; 3; 2; 1; 0])
    as k eqn:Hk. clear Hk.
  revert k Hz Hl. induction l as [|x l IH]; intros [|y k] Hz Hl;
    simpl in *; try done.
  apply andb_prop in Hz as [Hxy Hz]. apply Z.eqb_eq in Hxy as ->.
  f_equal. apply IH; [done|lia].
Qed.

(** X10: [get_main_status] returns the six high bits of the status byte,
    bit 7 first: the item at index [i] is bit [7 - i]. *)
Theorem get_main_status_bits status more flag sq w rs :
  0 ≤ status < 256 →
  Z.land flag 0x20 = 0 →
  (length more ≤ 59)%nat →
  DMD.write_faults w = [] →
  DMD.replies w = DMD.answer flag sq (status :: more) :: rs →
  (DMD.get_main_status w).1
  = Ok ((fun i => Z.b2z (Z.testbit status i)) <$> [7; 6; 5; 4; 3; 2]).
Proof.
  intros Hs Hflag Hmore Hf Hr.
  unfold DMD.get_main_status, mbind, DMD.M_bind.
  rewrite (send_command_answered _ _ flag sq (status :: more) w rs)
    by (done || simpl; lia).
  unfold DMD.lift, DMD.last_item, reply_data. cbn [fst snd].
  rewrite index_head, bits_to_bools_byte by done.
  reflexivity.
Qed.

Lemma get_main_status_bits_witness :
  (DMD.get_main_status
     (DMD.World "pattern" [] [DMD.answer 0 10 (0x10 :: [])] [])).1
  = Ok ((fun i => Z.b2z (Z.testbit 0x10 i)) <$> [7; 6; 5; 4; 3; 2]).
Proof.
  apply (get_main_status_bits 0x10 [] 0 10
           (DMD.World "pattern" [] [DMD.answer 0 10 [0x10]] []) []);
    [lia|reflexivity|simpl; lia|reflexivity|reflexivity].
Defined.

Lemma get_main_status_run status more flag sq w rs :
  0 ≤ status < 256 →
  Z.land flag 0x20 = 0 →
  (length more ≤ 59)%nat →
  DMD.write_faults w = [] →
  DMD.replies w = DMD.answer flag sq (status :: more) :: rs →
  DMD.get_main_status w
  = (Ok ((fun i => Z.b2z (Z.testbit status i)) <$> [7; 6; 5; 4; 3; 2]),
     DMD.World (DMD.current_mode w) [] rs
       (DMD.trace w
        ++ DMD.query_events 10 0x1A0C (DMD.answer flag sq (status :: more)))).
Proof.
  intros Hs Hflag Hmore Hf Hr.
  unfold DMD.get_main_status, mbind, DMD.M_bind.
  rewrite (send_command_answered _ _ flag sq (status :: more) w rs)
    by (done || simpl; lia).
  unfold DMD.lift, DMD.last_item, reply_data. cbn [fst snd].
  rewrite index_head, bits_to_bools_byte by done.
  reflexivity.
Qed.

(** X11: [get_source_lock] looks at bit 4 of the main status byte.  When
    that bit is clear it returns 0 after the one status query and asks
    nothing else; when it is set it reads command 0x1A01 and returns the
    first data byte of that answer. *)
Theorem get_source_lock_bit status more flag sq w rs :
  0 ≤ status < 256 →
  Z.land flag 0x20 = 0 →
  (length more ≤ 59)%nat →
  DMD.write_faults w = [] →
  DMD.replies w = DMD.answer flag sq (status :: more) :: rs →
  let status_query :=
    DMD.query_events 10 0x1A0C (DMD.answer flag sq (status :: more)) in
  (Z.testbit status 4 = false →
   DMD.get_source_lock w
   = (Ok 0, DMD.World (DMD.current_mode w) [] rs (DMD.trace w ++ status_query)))
  ∧ (∀ f2 s2 port more2 rs2,
       Z.testbit status 4 = true →
       Z.land f2 0x20 = 0 → (length more2 ≤ 59)%nat →
       rs = DMD.answer f2 s2 (port :: more2) :: rs2 →
       DMD.get_source_lock w
       = (Ok port,
          DMD.World (DMD.current_mode w) [] rs2
            (DMD.trace w ++ status_query
             ++ DMD.query_events 0 0x1A01 (DMD.answer f2 s2 (port :: more2))))).
Proof.
  intros Hs Hflag Hmore Hf Hr status_query.
  split; [intros Hbit|intros f2 s2 port more2 rs2 Hbit Hf2 Hm2 ->];
    unfold DMD.get_source_lock;
    unfold mbind at 1 2, DMD.M_bind at 1 2;
    rewrite (get_main_status_run status more flag sq w _) by done;
    unfold DMD.lift; cbn [fmap list_fmap];
    rewrite index_fourth, Hbit.
  - reflexivity.
  - change (negb (Z.b2z true =? 0)) with true. cbv iota.
    unfold mbind, DMD.M_bind.
    rewrite (send_command_answered _ _ f2 s2 (port :: more2) _ rs2)
      by (done || simpl; lia).
    unfold DMD.lift, DMD.last_item, reply_data. cbn [fst snd].
    rewrite index_head. cbn [DMD.current_mode DMD.trace].
    by rewrite <- app_assoc.
Qed.

Lemma get_source_lock_bit_witness :
  let w := DMD.World "video" [] [DMD.answer 0 10 [0x08]] [] in
  let status_query := DMD.query_events 10 0x1A0C (DMD.answer 0 10 [0x08]) in
  (Z.testbit 0x08 4 = false →
   DMD.get_source_lock w
   = (Ok 0, DMD.World (DMD.current_mode w) [] [] (DMD.trace w ++ status_query)))
  ∧ (∀ f2 s2 port more2 rs2,
       Z.testbit 0x08 4 = true →
       Z.land f2 0x20 = 0 → (length more2 ≤ 59)%nat →
       [] = DMD.answer f2 s2 (port :: more2) :: rs2 →
       DMD.get_source_lock w
       = (Ok port,
          DMD.World (DMD.current_mode w) [] rs2
            (DMD.trace w ++ status_query
             ++ DMD.query_events 0 0x1A01 (DMD.answer f2 s2 (port :: more2))))).
Proof.
  intros w.
  apply (get_source_lock_bit 0x08 [] 0 10 w []);
    [lia|reflexivity|simpl; lia|reflexivity|reflexivity].
Defined.

(** ** Port, clock and input source: what is written is what is read *)

Lemma land_ones_range a (n : Z) :
  0 ≤ n → 0 ≤ Z.land a (Z.ones n) < 2 ^ n.
Proof.
  intros Hn. rewrite Z.land_ones by done. apply Z.mod_pos_bound.
  by apply Z.pow_pos_nonneg.
Qed.

Lemma land_3_cases a : Z.land a 3 ∈ [0; 1; 2; 3].
Proof.
  pose proof (land_ones_range a 2 ltac:(lia)) as H.
  change (Z.ones 2) with 3 in H. change (2 ^ 2) with 4 in H.
  assert (Z.land a 3 = 0 ∨ Z.land a 3 = 1 ∨ Z.land a 3 = 2 ∨ Z.land a 3 = 3)
    as Hc by lia.
  clear H. destruct Hc as [->|[->|[->| ->]]]; set_solver.
Qed.

Lemma land_1_cases a : Z.land a 1 ∈ [0; 1].
Proof.
  pose proof (land_ones_range a 1 ltac:(lia)) as H.
  change (Z.ones 1) with 1 in H. change (2 ^ 1) with 2 in H.
  assert (Z.land a 1 = 0 ∨ Z.land a 1 = 1) as Hc by lia.
  clear H. destruct Hc as [->| ->]; set_solver.
Qed.

Lemma land_7_cases a : Z.land a 7 ∈ [0; 1; 2; 3; 4; 5; 6; 7].
Proof.
  pose proof (land_ones_range a 3 ltac:(lia)) as H.
  change (Z.ones 3) with 7 in H. change (2 ^ 3) with 8 in H.
  assert (Z.land a 7 = 0 ∨ Z.land a 7 = 1 ∨ Z.land a 7 = 2 ∨ Z.land a 7 = 3
          ∨ Z.land a 7 = 4 ∨ Z.land a 7 = 5 ∨ Z.land a 7 = 6 ∨ Z.land a 7 = 7)
    as Hc by lia.
  clear H. destruct Hc as [->|[->|[->|[->|[->|[->|[->| ->]]]]]]]; set_solver.
Qed.

(** The byte packed from the four fields, and the fields unpacked from
    it. *)
Lemma port_clock_byte a b c d :
  let p := Z.lor (Z.lor (Z.lor (Z.lor 0 (Z.land a 0x03))
                               (Z.shiftl (Z.land b 0x03) 2))
                        (Z.shiftl (Z.land c 0x01) 4))
                 (Z.shiftl (Z.land d 0x01) 5) in
  0 ≤ p < 64
  ∧ Z.land p 0x03 = Z.land a 0x03
  ∧ Z.land (Z.shiftr p 2) 0x03 = Z.land b 0x03
  ∧ Z.land (Z.shiftr p 4) 0x01 = Z.land c 0x01
  ∧ Z.land (Z.shiftr p 5) 0x01 = Z.land d 0x01.
Proof.
  pose proof (land_3_cases a) as Ha. pose proof (land_3_cases b) as Hb.
  pose proof (land_1_cases c) as Hc. pose proof (land_1_cases d) as Hd.
  revert Ha Hb Hc Hd.
  generalize (Z.land a 3), (Z.land b 3), (Z.land c 1), (Z.land d 1).
  intros x y z t Hx Hy Hz Ht.
  repeat match goal with
         | H : _ ∈ _ :: _ |- _ => apply elem_of_cons in H as [->|H]
         | H : _ ∈ [] |- _ => by apply elem_of_nil in H
         end; by vm_compute.
Qed.

Lemma input_source_byte a b :
  let p := Z.lor (Z.lor 0 (Z.land a 0x07)) (Z.shiftl (Z.land b 0x03) 3) in
  0 ≤ p < 32
  ∧ Z.land p 0x07 = Z.land a 0x07
  ∧ Z.land (Z.shiftr p 3) 0x03 = Z.land b 0x03.
Proof.
  pose proof (land_7_cases a) as Ha. pose proof (land_3_cases b) as Hb.
  revert Ha Hb. generalize (Z.land a 7), (Z.land b 3). intros x y Hx Hy.
  repeat match goal with
         | H : _ ∈ _ :: _ |- _ => apply elem_of_cons in H as [->|H]
         | H : _ ∈ [] |- _ => by apply elem_of_nil in H
         end; by vm_compute.
Qed.

Lemma diag_call_answered sequence_byte command flag sq data w rs :
  Z.land flag 0x20 = 0 →
  (length data ≤ 60)%nat →
  DMD.write_faults (Diag.dmd w) = [] →
  DMD.replies (Diag.dmd w) = DMD.answer flag sq data :: rs →
  Diag.call (DMD.send_command "r" sequence_byte command (Some [])) w
  = (Diag.Ok (Some (false, number_to_bits flag 8, sq, len data, data)),
     Diag.World
       (DMD.World (DMD.current_mode (Diag.dmd w)) [] rs
          (DMD.trace (Diag.dmd w)
           ++ DMD.query_events sequence_byte command (DMD.answer flag sq data)))
       (Diag.stdout w)).
Proof.
  intros Hflag Hdata Hf Hr. unfold Diag.call.
  by rewrite (send_command_answered _ _ flag sq data _ rs).
Qed.

(** X12: the byte [set_port_clock_definition] writes holds the four
    settings, each cut to its field width, and nothing else: it is below
    64, and when the device answers with that byte,
    [get_port_clock_definition] returns the four settings as they were
    written. *)
Theorem port_clock_definition_round_trip data_port px_clock data_enable vhsync w :
  DMD.write_faults w = [] →
  ∃ p,
    DMD.set_port_clock_definition data_port px_clock data_enable vhsync w
    = (Ok (), DMD.after w
                (DMD.sent [DMD.header "w" 2 0x1A03 1 ++ [p] ++ replicate 57 0]))
    ∧ 0 ≤ p < 64
    ∧ ∀ flag more rs w',
        Z.land flag 0x20 = 0 →
        (length more ≤ 59)%nat →
        DMD.write_faults (Diag.dmd w') = [] →
        DMD.replies (Diag.dmd w') = DMD.answer flag 243 (p :: more) :: rs →
        (Diag.get_port_clock_definition w').1
        = Diag.Ok (Z.land data_port 0x03, Z.land px_clock 0x03,
                   Z.land data_enable 0x01, Z.land vhsync 0x01).
Proof.
  intros Hf.
  destruct (port_clock_byte data_port px_clock data_enable vhsync)
    as (Hp & H1 & H2 & H3 & H4).
  set (p := Z.lor (Z.lor (Z.lor (Z.lor 0 (Z.land data_port 0x03))
                                (Z.shiftl (Z.land px_clock 0x03) 2))
                         (Z.shiftl (Z.land data_enable 0x01) 4))
                  (Z.shiftl (Z.land vhsync 0x01) 5)) in *.
  exists p. split; [|split; [exact Hp|]].
  - unfold DMD.set_port_clock_definition. cbv zeta.
    unfold mbind, DMD.M_bind.
    rewrite send_command_write by (done || (unfold len; simpl; lia)).
    reflexivity.
  - intros flag more rs w' Hflag Hmore Hf' Hr'.
    unfold Diag.get_port_clock_definition. cbv zeta.
    unfold mbind at 1, Diag.M_bind at 1.
    rewrite (diag_call_answered _ _ flag 243 (p :: more) w' rs)
      by (done || simpl; lia).
    unfold reply_sequence_byte, reply_data. cbn [fst snd].
    change (negb (243 =? 243)) with false. cbv iota.
    unfold mbind, Diag.M_bind, Diag.lift. rewrite index_head.
    unfold mret, Diag.M_ret. cbn [fst]. by rewrite H1, H2, H3, H4.
Qed.

Lemma port_clock_definition_round_trip_witness :
  ∃ p,
    DMD.set_port_clock_definition 2 0 0 0 (DMD.World "video" [] [] [])
    = (Ok (), DMD.after (DMD.World "video" [] [] [])
                (DMD.sent [DMD.header "w" 2 0x1A03 1 ++ [p] ++ replicate 57 0]))
    ∧ 0 ≤ p < 64
    ∧ ∀ flag more rs w',
        Z.land flag 0x20 = 0 →
        (length more ≤ 59)%nat →
        DMD.write_faults (Diag.dmd w') = [] →
        DMD.replies (Diag.dmd w') = DMD.answer flag 243 (p :: more) :: rs →
        (Diag.get_port_clock_definition w').1
        = Diag.Ok (Z.land 2 0x03, Z.land 0 0x03, Z.land 0 0x01, Z.land 0 0x01).
Proof.
  apply (port_clock_definition_round_trip 2 0 0 0 (DMD.World "video" [] [] [])).
  reflexivity.
Defined.

(** X13: the byte [set_input_source] writes holds the source in its low
    three bits and the bit depth in the two bits above; when the device
    answers with that byte, [get_input_source] returns both as they
    were written. *)
Theorem input_source_round_trip source bitdepth w :
  DMD.write_faults w = [] →
  ∃ p,
    DMD.set_input_source source bitdepth w
    = (Ok (), DMD.after w
                (DMD.sent [DMD.header "w" 1 0x1A00 1 ++ [p] ++ replicate 57 0]))
    ∧ 0 ≤ p < 32
    ∧ ∀ flag more rs w',
        Z.land flag 0x20 = 0 →
        (length more ≤ 59)%nat →
        DMD.write_faults (Diag.dmd w') = [] →
        DMD.replies (Diag.dmd w') = DMD.answer flag 112 (p :: more) :: rs →
        (Diag.get_input_source w').1
        = Diag.Ok (Z.land source 0x07, Z.land bitdepth 0x03).
Proof.
  intros Hf.
  destruct (input_source_byte source bitdepth) as (Hp & H1 & H2).
  set (p := Z.lor (Z.lor 0 (Z.land source 0x07))
                  (Z.shiftl (Z.land bitdepth 0x03) 3)) in *.
  exists p. split; [|split; [exact Hp|]].
  - unfold DMD.set_input_source. cbv zeta.
    unfold mbind, DMD.M_bind.
    rewrite send_command_write by (done || (unfold len; simpl; lia)).
    reflexivity.
  - intros flag more rs w' Hflag Hmore Hf' Hr'.
    unfold Diag.get_input_source. cbv zeta.
    unfold mbind at 1, Diag.M_bind at 1.
    rewrite (diag_call_answered _ _ flag 112 (p :: more) w' rs)
      by (done || simpl; lia).
    unfold reply_sequence_byte, reply_data. cbn [fst snd].
    change (negb (112 =? 112)) with false. cbv iota.
    unfold mbind, Diag.M_bind, Diag.lift. rewrite index_head.
    unfold mret, Diag.M_ret. cbn [fst]. by rewrite H1, H2.
Qed.

Lemma input_source_round_trip_witness :
  ∃ p,
    DMD.set_input_source 3 1 (DMD.World "video" [] [] [])
    = (Ok (), DMD.after (DMD.World "video" [] [] [])
                (DMD.sent [DMD.header "w" 1 0x1A00 1 ++ [p] ++ replicate 57 0]))
    ∧ 0 ≤ p < 32
    ∧ ∀ flag more rs w',
        Z.land flag 0x20 = 0 →
        (length more ≤ 59)%nat →
        DMD.write_faults (Diag.dmd w') = [] →
        DMD.replies (Diag.dmd w') = DMD.answer flag 112 (p :: more) :: rs →
        (Diag.get_input_source w').1
        = Diag.Ok (Z.land 3 0x07, Z.land 1 0x03).
Proof.
  apply (input_source_round_trip 3 1 (DMD.World "video" [] [] [])).
  reflexivity.
Defined.

(** X14: the two getters that check the sequence byte raise
    [AssertionError] when the answer carries another sequence byte than
    the one they sent (243 and 112), after the query was made. *)
Theorem getters_check_sequence_byte flag sq data w rs :
  Z.land flag 0x20 = 0 →
  (length data ≤ 60)%nat →
  DMD.write_faults (Diag.dmd w) = [] →
  DMD.replies (Diag.dmd w) = DMD.answer flag sq data :: rs →
  (sq ≠ 243 →
   (Diag.get_port_clock_definition w).1
   = Diag.Raise (Diag.AssertionError
                   "received answer does not match command issued"))
  ∧ (sq ≠ 112 →
     (Diag.get_input_source w).1
     = Diag.Raise (Diag.AssertionError
                     "received answer does not match command issued")).
Proof.
  intros Hflag Hdata Hf Hr.
  split; intros Hsq;
    [unfold Diag.get_port_clock_definition|unfold Diag.get_input_source];
    cbv zeta; unfold mbind at 1, Diag.M_bind at 1;
    rewrite (diag_call_answered _ _ flag sq data w rs) by done;
    unfold reply_sequence_byte; cbn [fst snd];
    by rewrite (proj2 (Z.eqb_neq _ _) Hsq).
Qed.

Lemma getters_check_sequence_byte_witness :
  let w := Diag.World (DMD.World "video" [] [DMD.answer 0 0 [5]] []) [] in
  (0 ≠ 243 →
   (Diag.get_port_clock_definition w).1
   = Diag.Raise (Diag.AssertionError
                   "received answer does not match command issued"))
  ∧ (0 ≠ 112 →
     (Diag.get_input_source w).1
     = Diag.Raise (Diag.AssertionError
                     "received answer does not match command issued")).
Proof.
  intros w.
  apply (getters_check_sequence_byte 0 0 [5] w []);
    [reflexivity|simpl; lia|reflexivity|reflexivity].
Defined.

(** ** Settings written as little-endian fields *)

(** X15: [set_test_pattern] sends a pattern index from 0 to 10 in one
    packet; any other index is refused with [ValueError] before
    anything is sent. *)
Theorem set_test_pattern_range pattern w :
  DMD.write_faults w = [] →
  DMD.set_test_pattern pattern w
  = if (0 <=? pattern) && (pattern <=? 10)
    then (Ok (), DMD.after w
                   (DMD.sent [DMD.header "w" 1 0x1203 1 ++ [pattern]
                              ++ replicate 57 0]))
    else (Raise (ValueError "Pattern index must be 0-10"), w).
Proof.
  intros Hf. unfold DMD.set_test_pattern.
  destruct ((0 <=? pattern) && (pattern <=? 10)); [|done].
  cbn [negb]. unfold mbind, DMD.M_bind.
  by rewrite send_command_write by (done || (unfold len; simpl; lia)).
Qed.

Lemma set_test_pattern_range_witness :
  DMD.set_test_pattern 11 (DMD.World "pattern" [] [] [])
  = if (0 <=? 11) && (11 <=? 10)
    then (Ok (), DMD.after (DMD.World "pattern" [] [] [])
                   (DMD.sent [DMD.header "w" 1 0x1203 1 ++ [11]
                              ++ replicate 57 0]))
    else (Raise (ValueError "Pattern index must be 0-10"),
          DMD.World "pattern" [] [] []).
Proof.
  apply (set_test_pattern_range 11 (DMD.World "pattern" [] [] [])).
  reflexivity.
Defined.

Lemma land_255 v : Z.land v 0xFF = v `mod` 256.
Proof. change 0xFF with (Z.ones 8). by rewrite Z.land_ones. Qed.

Lemma byte_of v (n : Z) :
  0 ≤ n → Z.land (Z.shiftr v n) 0xFF = (v `div` 2 ^ n) `mod` 256.
Proof. intros Hn. by rewrite land_255, Z.shiftr_div_pow2. Qed.

Lemma four_bytes_value v :
  Forall (fun b => 0 ≤ b < 256) (DMD.four_bytes v)
  ∧ DMD.le_value (DMD.four_bytes v) = v `mod` 4294967296.
Proof.
  unfold DMD.four_bytes, DMD.le_value. cbn [foldr].
  rewrite land_255, !byte_of by lia.
  change (2 ^ 8) with 256. change (2 ^ 16) with 65536.
  change (2 ^ 24) with 16777216.
  split; [repeat constructor|]; Z.div_mod_to_equations; lia.
Qed.

Lemma two_bytes_value v :
  let b := [Z.land v 0xFF; Z.land (Z.shiftr v 8) 0xFF] in
  Forall (fun b => 0 ≤ b < 256) b ∧ DMD.le_value b = v `mod` 65536.
Proof.
  unfold DMD.le_value. cbn [foldr].
  rewrite land_255, byte_of by lia. change (2 ^ 8) with 256.
  split; [repeat constructor|]; Z.div_mod_to_equations; lia.
Qed.

(** X16: [set_min_led_pulse_width_us] and [set_trigger_in1] send their
    argument as four bytes, low byte first, in one packet: the bytes
    read back low byte first give the argument modulo 2^32, so a value
    from 0 up to 2^32 - 1 arrives unchanged and anything beyond loses
    its high bits without an error. *)
Theorem four_byte_settings v w :
  DMD.write_faults w = [] →
  ∃ b,
    length b = 4%nat
    ∧ Forall (fun x => 0 ≤ x < 256) b
    ∧ DMD.le_value b = v `mod` 4294967296
    ∧ DMD.set_min_led_pulse_width_us v w
      = (Ok (), DMD.after w
                  (DMD.sent [DMD.header "w" 1 0x1A41 4 ++ b ++ replicate 54 0]))
    ∧ DMD.set_trigger_in1 v w
      = (Ok (), DMD.after w
                  (DMD.sent [DMD.header "w" 1 0x1A35 4 ++ b ++ replicate 54 0])).
Proof.
  intros Hf. destruct (four_bytes_value v) as [Hb Hv].
  exists (DMD.four_bytes v). repeat split; [done..| |];
    unfold DMD.set_min_led_pulse_width_us, DMD.set_trigger_in1;
    cbv zeta; unfold mbind, DMD.M_bind;
    by rewrite send_command_write by (done || (unfold len; simpl; lia)).
Qed.

Lemma four_byte_settings_witness :
  ∃ b,
    length b = 4%nat
    ∧ Forall (fun x => 0 ≤ x < 256) b
    ∧ DMD.le_value b = 100000 `mod` 4294967296
    ∧ DMD.set_min_led_pulse_width_us 100000 (DMD.World "pattern" [] [] [])
      = (Ok (), DMD.after (DMD.World "pattern" [] [] [])
                  (DMD.sent [DMD.header "w" 1 0x1A41 4 ++ b ++ replicate 54 0]))
    ∧ DMD.set_trigger_in1 100000 (DMD.World "pattern" [] [] [])
      = (Ok (), DMD.after (DMD.World "pattern" [] [] [])
                  (DMD.sent [DMD.header "w" 1 0x1A35 4 ++ b ++ replicate 54 0])).
Proof.
  apply (four_byte_settings 100000 (DMD.World "pattern" [] [] [])).
  reflexivity.
Defined.

(** X17: [set_input_source_config] sends width, height and frame rate as
    three 16-bit fields, low byte first, in one packet; each field read
    back gives its argument modulo 65536. *)
Theorem input_source_config_fields width height frame_rate w :
  DMD.write_faults w = [] →
  ∃ bw bh bf,
    DMD.set_input_source_config width height frame_rate w
    = (Ok (), DMD.after w
                (DMD.sent [DMD.header "w" 1 0x1A3C 6 ++ (bw ++ bh ++ bf)
                           ++ replicate 52 0]))
    ∧ (length bw = 2 ∧ length bh = 2 ∧ length bf = 2)%nat
    ∧ Forall (fun x => 0 ≤ x < 256) (bw ++ bh ++ bf)
    ∧ DMD.le_value bw = width `mod` 65536
    ∧ DMD.le_value bh = height `mod` 65536
    ∧ DMD.le_value bf = frame_rate `mod` 65536.
Proof.
  intros Hf.
  destruct (two_bytes_value width) as [Hbw Hw].
  destruct (two_bytes_value height) as [Hbh Hh].
  destruct (two_bytes_value frame_rate) as [Hbf Hr].
  eexists [_; _], [_; _], [_; _].
  split; [|split; [done|split; [|split; [exact Hw|split; [exact Hh|exact Hr]]]]].
  - unfold DMD.set_input_source_config. cbv zeta. unfold mbind, DMD.M_bind.
    by rewrite send_command_write by (done || (unfold len; simpl; lia)).
  - by repeat apply Forall_app_2.
Qed.

Lemma input_source_config_fields_witness :
  ∃ bw bh bf,
    DMD.set_input_source_config 1920 1080 60 (DMD.World "video" [] [] [])
    = (Ok (), DMD.after (DMD.World "video" [] [] [])
                (DMD.sent [DMD.header "w" 1 0x1A3C 6 ++ (bw ++ bh ++ bf)
                           ++ replicate 52 0]))
    ∧ (length bw = 2 ∧ length bh = 2 ∧ length bf = 2)%nat
    ∧ Forall (fun x => 0 ≤ x < 256) (bw ++ bh ++ bf)
    ∧ DMD.le_value bw = 1920 `mod` 65536
    ∧ DMD.le_value bh = 1080 `mod` 65536
    ∧ DMD.le_value bf = 60 `mod` 65536.
Proof.
  apply (input_source_config_fields 1920 1080 60 (DMD.World "video" [] [] [])).
  reflexivity.
Defined.

(** ** Pattern LUT definition *)

Lemma lor_byte a b : 0 ≤ a < 256 → 0 ≤ b < 256 → 0 ≤ Z.lor a b < 256.
Proof.
  intros Ha Hb. split; [apply Z.lor_nonneg; lia|].
  assert (Z.lor a b = Z.land (Z.lor a b) 0xFF) as ->.
  { rewrite Z.land_lor_distr_l, !land_255, !Z.mod_small; done. }
  rewrite land_255. apply Z.mod_pos_bound. lia.
Qed.

Lemma land_byte_l a m : 0 ≤ m < 256 → 0 ≤ Z.land a m < 256.
Proof.
  intros Hm. split; [apply Z.land_nonneg; lia|].
  assert (Z.land a m = Z.land (Z.land a m) 0xFF) as ->.
  { rewrite <- Z.land_assoc, (land_255 m), Z.mod_small; done. }
  rewrite land_255. apply Z.mod_pos_bound. lia.
Qed.

(** X18: [setup_pattern_LUT_definition] sends one packet with a payload
    of twelve items, each of them a byte, whatever integers it is
    given. *)
Theorem setup_pattern_LUT_definition_packet
    pattern_index disable ext exposuretime darktime color bitdepth
    image_pattern_index bit_position w :
  DMD.write_faults w = [] →
  let payload :=
    DMD.setup_pattern_LUT_definition_payload pattern_index disable ext
      exposuretime darktime color bitdepth image_pattern_index bit_position in
  length payload = 12%nat
  ∧ Forall (fun x => 0 ≤ x < 256) payload
  ∧ DMD.setup_pattern_LUT_definition pattern_index disable ext exposuretime
      darktime color bitdepth image_pattern_index bit_position w
    = (Ok (), DMD.after w
                (DMD.sent [DMD.header "w" 1 0x1A34 12 ++ payload
                           ++ replicate 46 0])).
Proof.
  intros Hf payload. split; [done|]. split.
  - subst payload. unfold DMD.setup_pattern_LUT_definition_payload. cbv zeta.
    cbn [app].
    repeat match goal with
           | |- Forall _ (_ :: _) => constructor
           | |- Forall _ [] => constructor
           | |- 0 ≤ Z.land _ 255 < 256 => apply land_byte_l; lia
           end.
    + repeat apply lor_byte; try apply land_byte_l; by vm_compute.
    + repeat apply lor_byte; try lia.
      * destruct disable; by vm_compute.
      * destruct ext; by vm_compute.
    + apply lor_byte; [apply land_byte_l; lia|].
      pose proof (land_ones_range bit_position 5 ltac:(lia)) as H.
      change (Z.ones 5) with 31 in H. change (2 ^ 5) with 32 in H.
      rewrite Z.shiftl_mul_pow2 by lia. change (2 ^ 3) with 8. lia.
  - unfold DMD.setup_pattern_LUT_definition. cbv zeta. fold payload.
    unfold mbind, DMD.M_bind.
    by rewrite send_command_write by (done || (unfold len; simpl; lia)).
Qed.

Lemma setup_pattern_LUT_definition_packet_witness :
  let w := DMD.World "pattern" [] [] [] in
  let payload :=
    DMD.setup_pattern_LUT_definition_payload 0 false false 15000 0 1 8 0 0 in
  length payload = 12%nat
  ∧ Forall (fun x => 0 ≤ x < 256) payload
  ∧ DMD.setup_pattern_LUT_definition 0 false false 15000 0 1 8 0 0 w
    = (Ok (), DMD.after w
                (DMD.sent [DMD.header "w" 1 0x1A34 12 ++ payload
                           ++ replicate 46 0])).
Proof.
  intros w.
  apply (setup_pattern_LUT_definition_packet 0 false false 15000 0 1 8 0 0 w).
  reflexivity.
Defined.

Lemma land_high_of_small c : 0 ≤ c < 16 → Z.land c (Z.shiftl 0x07 4) = 0.
Proof.
  intros Hc.
  assert (c ∈ [0; 1; 2; 3; 4; 5; 6; 7; 8; 9; 10; 11; 12; 13; 14; 15]) as Hin.
  { assert (∃ n : nat, c = Z.of_nat n ∧ (n < 16)%nat) as (n & -> & Hn)
      by (exists (Z.to_nat c); lia).
    apply list_elem_of_In.
    do 16 (destruct n as [|n]; [simpl; tauto|]). lia. }
  clear Hc.
  repeat match goal with
         | H : _ ∈ _ :: _ |- _ => apply elem_of_cons in H as [->|H]
         | H : _ ∈ [] |- _ => by apply elem_of_nil in H
         end; reflexivity.
Qed.

(** X19: the payload of [setup_pattern_LUT_definition] does not depend on
    the color (for colors from 0 to 15, which covers the documented 0 to
    7) nor on [extended_bit_depth], and depends on the bit depth only
    through [(bitdepth - 1) & 0x0E]: the masks [0x07 << 4], [0x01 << 1]
    and [0x07 << 1] are applied to the unshifted values. *)
Theorem setup_pattern_LUT_definition_ignores_color
    pattern_index disable ext ext' exposuretime darktime color color'
    bitdepth bitdepth' image_pattern_index bit_position :
  0 ≤ color < 16 →
  0 ≤ color' < 16 →
  Z.land (bitdepth - 1) 0x0E = Z.land (bitdepth' - 1) 0x0E →
  DMD.setup_pattern_LUT_definition_payload pattern_index disable ext
    exposuretime darktime color bitdepth image_pattern_index bit_position
  = DMD.setup_pattern_LUT_definition_payload pattern_index disable ext'
      exposuretime darktime color' bitdepth' image_pattern_index bit_position.
Proof.
  intros Hc Hc' Hb. unfold DMD.setup_pattern_LUT_definition_payload. cbv zeta.
  rewrite !land_high_of_small by done.
  change (Z.shiftl 7 1) with 14. rewrite Hb.
  by destruct ext, ext'.
Qed.

Lemma setup_pattern_LUT_definition_ignores_color_witness :
  DMD.setup_pattern_LUT_definition_payload 0 false false 15000 0 1 1 0 0
  = DMD.setup_pattern_LUT_definition_payload 0 false true 15000 0 7 2 0 0.
Proof.
  apply (setup_pattern_LUT_definition_ignores_color
           0 false false true 15000 0 1 7 1 2 0 0); [lia|lia|reflexivity].
Defined.

(** ** Loading patterns on the fly *)

Lemma range_cons start_len step :
  0 < step → 0 < start_len →
  range 0 start_len step
  = 0 :: ((fun i => i + step) <$> range 0 (start_len - step) step).
Proof.
  intros Hs Hm. unfold range.
  replace ((start_len - 0 + step - 1) `div` step)
    with (1 + (start_len - step - 0 + step - 1) `div` step).
  2:{ replace (start_len - 0 + step - 1)
        with (1 * step + (start_len - step - 0 + step - 1)) by lia.
      by rewrite Z.div_add_l by lia. }
  destruct (Z.le_gt_cases 0 ((start_len - step - 0 + step - 1) `div` step))
    as [Hq|Hq].
  - rewrite Z2Nat.inj_add by lia. change (Z.to_nat 1) with 1%nat.
    simpl. f_equal; [lia|]. rewrite <- fmap_S_seq, <- !list_fmap_compose.
    apply list_fmap_ext. intros _ k _. simpl. lia.
  - exfalso. revert Hq. apply Z.le_ngt, Z.div_pos; lia.
Qed.

Lemma range_nil stop step : stop ≤ 0 → 0 < step → range 0 stop step = [].
Proof.
  intros Hstop Hs. unfold range.
  assert ((stop - 0 + step - 1) `div` step ≤ 0) as Hq.
  { apply Z.lt_succ_r, Z.div_lt_upper_bound; lia. }
  by replace (Z.to_nat _) with 0%nat by lia.
Qed.

(** The slices a loop of the form [for i in range(0, len(l), n)] takes
    are the pieces of the list. *)
Lemma range_slices {A} (n : nat) (l : list A) fuel :
  (0 < n)%nat → (length l ≤ fuel)%nat →
  (fun i => slice l (Some i) (Some (i + Z.of_nat n)))
    <$> range 0 (len l) (Z.of_nat n)
  = DMD.pieces fuel n l.
Proof.
  intros Hn. revert l. induction fuel as [|fuel IH]; intros l Hfuel.
  - destruct l; [|simpl in Hfuel; lia].
    by rewrite range_nil by (unfold len; simpl; lia).
  - destruct l as [|x l]; [by rewrite range_nil by (unfold len; simpl; lia)|].
    rewrite range_cons by (unfold len; simpl; lia).
    cbn [DMD.pieces]. rewrite fmap_cons. f_equal.
    + rewrite slice_between by lia. change (Z.to_nat 0) with 0%nat.
      rewrite drop_0. f_equal. lia.
    + rewrite <- (IH (drop n (x :: l)))
        by (rewrite length_drop; simpl in *; lia).
      rewrite <- list_fmap_compose.
      replace (len (x :: l) - Z.of_nat n) with
        (len (drop n (x :: l)) + (len (x :: l) - Z.of_nat n
                                   - len (drop n (x :: l)))) by lia.
      destruct (decide (length (x :: l) ≤ n)%nat) as [Hs|Hl].
      * rewrite drop_ge by done. rewrite !range_nil; [done|unfold len in *..];
          simpl in *; lia.
      * replace (len (x :: l) - Z.of_nat n - len (drop n (x :: l))) with 0
          by (unfold len; rewrite length_drop; lia).
        rewrite Z.add_0_r.
        apply list_fmap_ext. intros j i Hi. simpl.
        assert (0 ≤ i) as Hi0.
        { apply list_elem_of_lookup_2 in Hi. unfold range in Hi.
          apply list_elem_of_fmap in Hi as (k & Hk & _). lia. }
        rewrite !slice_between by lia.
        replace (Z.to_nat (i + Z.of_nat n)) with (n + Z.to_nat i)%nat by lia.
        rewrite drop_drop. f_equal. lia.
Qed.

Lemma pieces_concat {A} (n : nat) (l : list A) fuel :
  (0 < n)%nat → (length l ≤ fuel)%nat →
  concat (DMD.pieces fuel n l) = l
  ∧ Forall (fun c => 1 ≤ length c ≤ n)%nat (DMD.pieces fuel n l)
  ∧ length (DMD.pieces fuel n l) = ((length l + n - 1) / n)%nat.
Proof.
  intros Hn. revert l. induction fuel as [|fuel IH]; intros l Hfuel.
  - destruct l; [|simpl in Hfuel; lia]. simpl. repeat split; [constructor|].
    symmetry. apply Nat.div_small. lia.
  - destruct l as [|x l].
    { simpl. repeat split; [constructor|]. symmetry. apply Nat.div_small. lia. }
    cbn [DMD.pieces].
    destruct (IH (drop n (x :: l))) as (Hc & Hall & Hlen);
      [rewrite length_drop; simpl in *; lia|].
    split; [|split].
    + by rewrite concat_cons, Hc, take_drop.
    + constructor; [|done]. rewrite length_take. simpl. lia.
    + rewrite length_cons, Hlen, length_drop.
      set (m := length (x :: l)) in *.
      assert (1 ≤ m)%nat as Hm by (subst m; simpl; lia).
      destruct (decide (m ≤ n)%nat) as [Hs|Hl].
      * replace (m - n)%nat with 0%nat by lia.
        rewrite (Nat.div_small (0 + n - 1)) by lia.
        apply (Nat.div_unique _ _ _ (m - 1)); lia.
      * replace (m + n - 1)%nat with (1 * n + (m - n + n - 1))%nat by lia.
        rewrite Nat.div_add_l by lia. lia.
Qed.

Lemma for_each_writes {A} (idxs : list A) (g : A → list Z) command w :
  Forall (fun i => len (g i) ≤ 122) idxs →
  DMD.write_faults w = [] →
  DMD.for_each idxs
    (fun i => DMD.send_command "w" 1 command (Some (g i));; mret ()) w
  = (Ok (), DMD.after w
              (DMD.sent (concat ((DMD.call_packets 1 command ∘ g) <$> idxs)))).
Proof.
  intros Hall. revert w. induction Hall as [|i idxs Hi _ IH]; intros w Hf.
  - simpl. by rewrite after_nil.
  - cbn [DMD.for_each]. cbv beta.
    unfold mbind at 1, DMD.M_bind at 1.
    unfold mbind at 1, DMD.M_bind at 1.
    rewrite send_command_write by done.
    unfold mret at 1, DMD.M_ret at 1.
    rewrite IH by done. rewrite after_after. do 2 f_equal.
    unfold DMD.sent. by rewrite fmap_cons, concat_cons, fmap_app.
Qed.

Lemma load_pattern_on_the_fly_run
    {Images : Type} (encode : Images → list Z * Z)
    (images : Images) (primary : bool) (w : DMD.world) :
  DMD.write_faults w = [] →
  let encoded := (encode images).1 in
  let init_cmd := if primary then 0x1A2A else 0x1A2C in
  let load_cmd := if primary then 0x1A2B else 0x1A2D in
  DMD.load_pattern_on_the_fly encode images primary w
  = (Ok (), DMD.after w
              (DMD.sent
                 (DMD.call_packets 1 init_cmd (DMD.four_bytes (encode images).2)
                  ++ concat (DMD.call_packets 1 load_cmd
                             <$> DMD.pieces (length encoded) 60 encoded)))).
Proof.
  intros Hf encoded init_cmd load_cmd.
  unfold DMD.load_pattern_on_the_fly.
  destruct (encode images) as [enc total] eqn:He. subst encoded.
  cbn [fst snd] in *.
  cbv zeta. fold init_cmd load_cmd.
  unfold mbind at 1, DMD.M_bind at 1.
  rewrite send_command_write by (done || (unfold len; simpl; lia)).
  rewrite (for_each_writes _
             (fun i => slice enc (Some i) (Some (i + 60))) load_cmd).
  - rewrite after_after. do 2 f_equal. unfold DMD.sent. rewrite fmap_app.
    f_equal. do 2 f_equal.
    rewrite list_fmap_compose.
    pose proof (range_slices 60 enc (length enc) ltac:(lia) ltac:(lia)) as Hrs.
    change (Z.of_nat 60) with 60 in Hrs. by rewrite Hrs.
  - apply Forall_forall. intros i Hi.
    assert (0 ≤ i) as Hi0.
    { unfold range in Hi. apply list_elem_of_fmap in Hi as (k & Hk & _). lia. }
    rewrite slice_between by lia. unfold len. rewrite length_take. lia.
  - done.
Qed.

(** X20: [load_pattern_on_the_fly] first announces the length the encoder
    returned, as four bytes, to the initialize command of the chosen
    controller, then sends the encoded bytes to the load command in
    pieces of 60 bytes, in order: the pieces joined are the encoded
    bytes, every piece has from 1 to 60 bytes, and there are
    ceil(L / 60) of them for L encoded bytes.  On a transport that
    accepts every write the call returns normally and these are all the
    packets written. *)
Theorem load_pattern_on_the_fly_stream
    {Images : Type} (encode : Images → list Z * Z)
    (images : Images) (primary : bool) (w : DMD.world) :
  DMD.write_faults w = [] →
  let encoded := (encode images).1 in
  let init_cmd := if primary then 0x1A2A else 0x1A2C in
  let load_cmd := if primary then 0x1A2B else 0x1A2D in
  ∃ chunks,
    concat chunks = encoded
    ∧ Forall (fun c => 1 ≤ length c ≤ 60)%nat chunks
    ∧ length chunks = ((length encoded + 59) / 60)%nat
    ∧ DMD.load_pattern_on_the_fly encode images primary w
      = (Ok (), DMD.after w
                  (DMD.sent
                     (DMD.call_packets 1 init_cmd
                        (DMD.four_bytes (encode images).2)
                      ++ concat (DMD.call_packets 1 load_cmd <$> chunks)))).
Proof.
  intros Hf encoded init_cmd load_cmd.
  exists (DMD.pieces (length encoded) 60 encoded).
  destruct (pieces_concat 60 encoded (length encoded)) as (Hc & Hall & Hlen);
    [lia..|].
  split; [done|]. split; [done|]. split; [rewrite Hlen; f_equal; lia|].
  by apply load_pattern_on_the_fly_run.
Qed.

Lemma load_pattern_on_the_fly_stream_witness :
  let encode := fun _ : unit => (replicate 61 7, 61) in
  let w := DMD.World "pattern" [] [] [] in
  let encoded := (encode ()).1 in
  let init_cmd := if true then 0x1A2A else 0x1A2C in
  let load_cmd := if true then 0x1A2B else 0x1A2D in
  ∃ chunks,
    concat chunks = encoded
    ∧ Forall (fun c => 1 ≤ length c ≤ 60)%nat chunks
    ∧ length chunks = ((length encoded + 59) / 60)%nat
    ∧ DMD.load_pattern_on_the_fly encode () true w
      = (Ok (), DMD.after w
                  (DMD.sent
                     (DMD.call_packets 1 init_cmd
                        (DMD.four_bytes (encode ()).2)
                      ++ concat (DMD.call_packets 1 load_cmd <$> chunks)))).
Proof.
  intros encode w.
  apply (load_pattern_on_the_fly_stream encode () true w). reflexivity.
Defined.


Lemma pieces_full {A} (n k : nat) (l : list A) fuel :
  (0 < n)%nat → (length l ≤ fuel)%nat → length l = (n * k)%nat →
  Forall (fun c => length c = n) (DMD.pieces fuel n l)
  ∧ length (DMD.pieces fuel n l) = k.
Proof.
  intros Hn. revert l k. induction fuel as [|fuel IH]; intros l k Hfuel Hl.
  - destruct l; [|simpl in Hfuel; lia]. simpl in *. split; [constructor|nia].
  - destruct l as [|x l]; [simpl in *; split; [constructor|nia]|].
    destruct k as [|k]; [simpl in Hl; lia|].
    cbn [DMD.pieces].
    destruct (IH (drop n (x :: l)) k) as [Hall Hlen].
    + rewrite length_drop. simpl in *. lia.
    + rewrite length_drop, Hl. nia.
    + split; [constructor; [rewrite length_take; nia|done]|].
      by rewrite length_cons, Hlen.
Qed.

Lemma call_packets_full sequence_byte command c :
  length c = 60%nat →
  length (DMD.call_packets sequence_byte command c) = 2%nat
  ∧ Forall (fun p => length p = 64%nat)
      (DMD.call_packets sequence_byte command c).
Proof.
  intros Hc. unfold DMD.call_packets.
  assert (len c = 60) as Hl by (unfold len; lia). rewrite Hl.
  change (60 <=? 58) with false. cbv iota. split; [done|].
  repeat constructor.
  - rewrite length_app, length_take, Hc.
    change (length (DMD.header "w" sequence_byte command 60)) with 6%nat. lia.
  - rewrite length_app, length_drop, length_replicate, Hc.
    change (Z.to_nat (122 - 60)) with 62%nat. lia.
Qed.

Lemma call_packets_full_all sequence_byte command chunks :
  Forall (fun c => length c = 60%nat) chunks →
  length (concat (DMD.call_packets sequence_byte command <$> chunks))
    = (2 * length chunks)%nat
  ∧ Forall (fun p => length p = 64%nat)
      (concat (DMD.call_packets sequence_byte command <$> chunks)).
Proof.
  induction 1 as [|c chunks Hc _ IH]; [by split|].
  destruct IH as [IH1 IH2].
  destruct (call_packets_full sequence_byte command c Hc) as [H2 H64].
  rewrite fmap_cons, concat_cons, length_app, H2, IH1.
  split; [simpl; lia|by apply Forall_app_2].
Qed.

(** X21: a piece of 60 bytes does not fit one packet beside the six
    header bytes: it goes out as two packets, 58 of its bytes in the
    first and the last two, followed by 62 zeros, in the second.  So
    for a stream of 60 n encoded bytes the call writes 1 + 2 n packets,
    all of 64 bytes. *)
Theorem load_pattern_on_the_fly_packet_count
    {Images : Type} (encode : Images → list Z * Z)
    (images : Images) (primary : bool) (w : DMD.world) (n : nat) :
  DMD.write_faults w = [] →
  length (encode images).1 = (60 * n)%nat →
  ∃ ps,
    DMD.load_pattern_on_the_fly encode images primary w
    = (Ok (), DMD.after w (DMD.sent ps))
    ∧ length ps = (1 + 2 * n)%nat
    ∧ Forall (fun p => length p = 64%nat) ps.
Proof.
  intros Hf Hlen.
  rewrite load_pattern_on_the_fly_run by done. cbv zeta.
  eexists. split; [reflexivity|].
  destruct (pieces_full 60 n (encode images).1 (length (encode images).1))
    as [Hall Hn]; [lia..|].
  revert Hall Hn. generalize (DMD.pieces (length (encode images).1) 60
                                (encode images).1).
  intros chunks Hall <-.
  destruct (call_packets_full_all 1 (if primary then 6699 else 6701) chunks Hall)
    as [Hl H64].
  split.
  - rewrite length_app, Hl. reflexivity.
  - apply Forall_app_2; [|done]. repeat constructor.
Qed.

Lemma load_pattern_on_the_fly_packet_count_witness :
  ∃ ps,
    DMD.load_pattern_on_the_fly (fun _ : unit => (replicate 120 7, 120)) () true
      (DMD.World "pattern" [] [] [])
    = (Ok (), DMD.after (DMD.World "pattern" [] [] []) (DMD.sent ps))
    ∧ length ps = (1 + 2 * 2)%nat
    ∧ Forall (fun p => length p = 64%nat) ps.
Proof.
  apply (load_pattern_on_the_fly_packet_count
           (fun _ : unit => (replicate 120 7, 120)) () true
           (DMD.World "pattern" [] [] []) 2); reflexivity.
Defined.

(** ** Error report and hardware status *)

(** X22: [check_for_error] never raises for an answer of the device,
    whatever error code it carries: it returns normally and prints at
    most one line.  Nothing is printed when the answer has no data or
    the code is 0; otherwise the line is the text of the code in the
    table, or "Undocumented error [code]" for a code the table lacks. *)
Theorem check_for_error_only_prints flag sq data w rs :
  Z.land flag 0x20 = 0 →
  (length data ≤ 60)%nat →
  DMD.write_faults (Diag.dmd w) = [] →
  DMD.replies (Diag.dmd w) = DMD.answer flag sq data :: rs →
  Diag.check_for_error w
  = (Diag.Ok (),
     Diag.World
       (DMD.World (DMD.current_mode (Diag.dmd w)) [] rs
          (DMD.trace (Diag.dmd w)
           ++ DMD.query_events 0x22 0x0100 (DMD.answer flag sq data)))
       (Diag.stdout w
        ++ match data with
           | [] => []
           | code :: _ =>
               if code =? 0 then []
               else [default ("Undocumented error [" +:+ pretty code +:+ "]")
                             (Diag.error_dict !! code)]
           end)).
Proof.
  intros Hflag Hdata Hf Hr.
  unfold Diag.check_for_error. unfold mbind at 1, Diag.M_bind at 1.
  rewrite (diag_call_answered _ _ flag sq data w rs) by done.
  unfold mbind at 1, Diag.M_bind at 1, Diag.lift at 1.
  cbn [DMD.last_item]. unfold reply_data. cbn [fst snd].
  destruct data as [|code more].
  { change (len [] =? 0) with true. cbv iota. unfold mret, Diag.M_ret.
    by rewrite app_nil_r. }
  replace (len (code :: more) =? 0) with false
    by (symmetry; apply Z.eqb_neq; unfold len; simpl; lia).
  cbv iota. unfold mbind, Diag.M_bind, Diag.lift. rewrite index_head.
  destruct (code =? 0).
  { unfold mret, Diag.M_ret. by rewrite app_nil_r. }
  unfold Diag.print, DMD.getitem. cbn [Diag.dmd Diag.stdout].
  by destruct (Diag.error_dict !! code).
Qed.

Lemma check_for_error_only_prints_witness :
  let w := Diag.World (DMD.World "pattern" [] [DMD.answer 0 0x22 [5]] []) [] in
  Diag.check_for_error w
  = (Diag.Ok (),
     Diag.World
       (DMD.World (DMD.current_mode (Diag.dmd w)) [] []
          (DMD.trace (Diag.dmd w)
           ++ DMD.query_events 0x22 0x0100 (DMD.answer 0 0x22 [5])))
       (Diag.stdout w
        ++ match [5] with
           | [] => []
           | code :: _ =>
               if code =? 0 then []
               else [default ("Undocumented error [" +:+ pretty code +:+ "]")
                             (Diag.error_dict !! code)]
           end)).
Proof.
  intros w.
  apply (check_for_error_only_prints 0 0x22 [5] w []);
    [reflexivity|simpl; lia|reflexivity|reflexivity].
Defined.

(** A fact checked on each of the 256 bytes holds for every byte. *)
Lemma byte_cases (P : Z → bool) :
  forallb (fun n => P (Z.of_nat n)) (seq 0 256) = true →
  ∀ b, 0 ≤ b < 256 → P b = true.
Proof.
  intros Hall b Hb. rewrite forallb_forall in Hall.
  specialize (Hall (Z.to_nat b)). rewrite in_seq, Z2Nat.id in Hall by lia.
  apply Hall. lia.
Qed.

Lemma str_index_bit status (i : nat) :
  0 ≤ status < 256 → (i < 8)%nat →
  str_index (number_to_bits status 8) (Z.of_nat i)
  = Ok (if Z.testbit status (7 - Z.of_nat i) then "1" else "0").
Proof.
  intros Hs Hi.
  pose proof (byte_cases
    (fun b => forallb (fun i : nat =>
       match str_index (number_to_bits b 8) (Z.of_nat i) with
       | Ok c => String.eqb c (if Z.testbit b (7 - Z.of_nat i) then "1" else "0")
       | Raise _ => false
       end) (seq 0 8))
    ltac:(vm_compute; reflexivity) status Hs) as Hall.
  cbv beta in Hall. rewrite forallb_forall in Hall.
  specialize (Hall i). rewrite in_seq in Hall. specialize (Hall ltac:(lia)).
  destruct (str_index _ _) as [c|]; [|done].
  by apply String.eqb_eq in Hall as ->.
Qed.

Lemma land_low_bits status :
  0 ≤ status < 256 →
  (Z.land status 0x01 =? 0) = negb (Z.testbit status 0)
  ∧ (Z.land status 0x02 =? 0) = negb (Z.testbit status 1).
Proof.
  intros Hs.
  pose proof (byte_cases
    (fun b => Bool.eqb (Z.land b 0x01 =? 0) (negb (Z.testbit b 0))
              && Bool.eqb (Z.land b 0x02 =? 0) (negb (Z.testbit b 1)))
    ltac:(vm_compute; reflexivity) status Hs) as Hall.
  cbv beta in Hall. apply andb_prop in Hall as [H0 H1].
  by apply Bool.eqb_prop in H0, H1.
Qed.

(** X23: [get_hardware_status] never reports a healthy device.  When bit
    0 of the status byte is clear or bit 1 is set, it raises
    [UnboundLocalError], because it appends to [statusmessage] before
    that variable is bound.  Otherwise it returns, and the number of
    errors it returns is at least 1: the bit string is read from the
    left, so bit 0, which is set, is taken for the sequencer error
    flag.  The count is 1, plus one for each of: bit 7 clear, bit 6
    set, bit 5 set, bit 4 set. *)
Theorem get_hardware_status_never_clean status more flag sq w rs :
  0 ≤ status < 256 →
  Z.land flag 0x20 = 0 →
  (length more ≤ 59)%nat →
  DMD.write_faults (Diag.dmd w) = [] →
  DMD.replies (Diag.dmd w) = DMD.answer flag sq (status :: more) :: rs →
  let r := (Diag.get_hardware_status w).1 in
  if Z.testbit status 0 && negb (Z.testbit status 1) then
    ∃ message,
      r = Diag.Ok (message,
                   1 + Z.b2z (negb (Z.testbit status 7))
                   + Z.b2z (Z.testbit status 6) + Z.b2z (Z.testbit status 5)
                   + Z.b2z (Z.testbit status 4))
  else r = Diag.Raise (Diag.UnboundLocalError "statusmessage").
Proof.
  intros Hs Hflag Hmore Hf Hr r.
  assert (r = (Diag.get_hardware_status w).1) as Er by reflexivity.
  clearbody r.
  destruct (land_low_bits status Hs) as [H0 H1].
  unfold Diag.get_hardware_status in Er.
  unfold mbind at 1, Diag.M_bind at 1 in Er.
  rewrite (diag_call_answered _ _ flag sq (status :: more) w rs) in Er
    by (done || simpl; lia).
  unfold mbind at 1 2, Diag.M_bind at 1 2, Diag.lift at 1 2 in Er.
  cbn [DMD.last_item] in Er. unfold reply_data in Er. cbn [fst snd] in Er.
  rewrite index_head, H0, H1 in Er.
  destruct (Z.testbit status 0) eqn:Hb0; [|exact Er].
  destruct (Z.testbit status 1) eqn:Hb1; [exact Er|].
  cbn [negb andb] in Er.
  cbn [negb andb].
  pose proof (str_index_bit status 0 Hs ltac:(lia)) as E0.
  pose proof (str_index_bit status 1 Hs ltac:(lia)) as E1.
  pose proof (str_index_bit status 2 Hs ltac:(lia)) as E2.
  pose proof (str_index_bit status 3 Hs ltac:(lia)) as E3.
  pose proof (str_index_bit status 4 Hs ltac:(lia)) as E4.
  pose proof (str_index_bit status 6 Hs ltac:(lia)) as E6.
  pose proof (str_index_bit status 7 Hs ltac:(lia)) as E7.
  change (Z.of_nat 0) with 0 in E0. change (Z.of_nat 1) with 1 in E1.
  change (Z.of_nat 2) with 2 in E2. change (Z.of_nat 3) with 3 in E3.
  change (Z.of_nat 4) with 4 in E4. change (Z.of_nat 6) with 6 in E6.
  change (Z.of_nat 7) with 7 in E7.
  change (7 - 0) with 7 in E0. change (7 - 1) with 6 in E1.
  change (7 - 2) with 5 in E2. change (7 - 3) with 4 in E3.
  change (7 - 4) with 3 in E4. change (7 - 6) with 1 in E6.
  change (7 - 7) with 0 in E7.
  unfold mbind, Diag.M_bind, Diag.lift in Er.
  rewrite E0, E1, E2, E3, E4, E6, E7 in Er.
  unfold mret, Diag.M_ret in Er. cbn [fst] in Er. subst r.
  rewrite Hb0, Hb1.
  match goal with |- ∃ m, Diag.Ok ?a = _ => set (acc := a) end.
  exists acc.1. f_equal. rewrite (surjective_pairing acc) at 1. f_equal.
  subst acc.
  destruct (Z.testbit status 7), (Z.testbit status 6), (Z.testbit status 5),
    (Z.testbit status 4), (Z.testbit status 3); vm_compute; reflexivity.
Qed.

Lemma get_hardware_status_never_clean_witness :
  let w := Diag.World (DMD.World "pattern" [] [DMD.answer 0 10 [0x81]] []) [] in
  let r := (Diag.get_hardware_status w).1 in
  if Z.testbit 0x81 0 && negb (Z.testbit 0x81 1) then
    ∃ message,
      r = Diag.Ok (message,
                   1 + Z.b2z (negb (Z.testbit 0x81 7))
                   + Z.b2z (Z.testbit 0x81 6) + Z.b2z (Z.testbit 0x81 5)
                   + Z.b2z (Z.testbit 0x81 4))
  else r = Diag.Raise (Diag.UnboundLocalError "statusmessage").
Proof.
  intros w.
  apply (get_hardware_status_never_clean 0x81 [] 0 10 w []);
    [lia|reflexivity|simpl; lia|reflexivity|reflexivity].
Defined.

(** ** The serial driver: validation and commands *)

Lemma index_in_range {A} (l : list A) i :
  - len l ≤ i < len l → ∃ x, index l i = Ok x.
Proof.
  intros Hi. unfold index.
  set (j := if i <? 0 then len l + i else i).
  assert (0 ≤ j < len l) as Hj by (subst j; case_match; lia).
  decide_cmp. cbn [andb].
  destruct (lookup_lt_is_Some_2 l (Z.to_nat j)) as [x Hx];
    [unfold len in *; lia|].
  rewrite Hx. by eexists.
Qed.

Lemma validate_response_total self response expected :
  ∃ b, WCIL._validate_response self response expected = Ok b.
Proof.
  unfold WCIL._validate_response.
  destruct (len response <? 8) eqn:Hlen; [by eexists|].
  apply Z.ltb_ge in Hlen.
  destruct (_ || _); [by eexists|].
  destruct (index_in_range response 2) as [r2 ->]; [lia|].
  destruct (index_in_range response 3) as [r3 ->]; [lia|].
  destruct (index_in_range response (-3)) as [c ->]; [lia|].
  cbn [mbind result_bind].
  repeat (case_match; cbn [mbind result_bind]); by eexists.
Qed.

Lemma validate_response_ten h0 h1 a f d0 d1 d2 c t0 t1 expected :
  WCIL._validate_response WCIL.init [h0; h1; a; f; d0; d1; d2; c; t0; t1] expected
    = Ok true
  ↔ h0 = 0x55 ∧ h1 = 0xAA ∧ a = 0x01 ∧ f = expected
    ∧ c = Z.land (f + d0 + d1 + d2) 0xFF ∧ t0 = 0xDA ∧ t1 = 0xC3.
Proof.
  unfold WCIL._validate_response.
  change (len [h0; h1; a; f; d0; d1; d2; c; t0; t1] <? 8) with false.
  change (slice [h0; h1; a; f; d0; d1; d2; c; t0; t1] None (Some 2))
    with [h0; h1].
  change (slice [h0; h1; a; f; d0; d1; d2; c; t0; t1] (Some (-2)) None)
    with [t0; t1].
  change (slice [h0; h1; a; f; d0; d1; d2; c; t0; t1] (Some 3) (Some (-3)))
    with [f; d0; d1; d2].
  change (index [h0; h1; a; f; d0; d1; d2; c; t0; t1] (-3)) with (Ok c).
  rewrite index_third, index_fourth.
  cbn [WCIL.frame_header WCIL.frame_tail WCIL.address WCIL.init].
  unfold WCIL._calculate_checksum, sum. cbn [foldr mbind result_bind].
  replace (f + (d0 + (d1 + (d2 + 0)))) with (f + d0 + d1 + d2) by lia.
  set (cs := Z.land (f + d0 + d1 + d2) 255).
  split.
  - repeat case_bool_decide; cbn [negb orb]; try discriminate.
    destruct (Z.eqb_spec a 1); cbn [negb]; try discriminate.
    destruct (Z.eqb_spec f expected); cbn [negb]; try discriminate.
    destruct (Z.eqb_spec cs c); try discriminate.
    intros _. simplify_eq. done.
  - intros (-> & -> & -> & -> & -> & -> & ->).
    rewrite !bool_decide_eq_true_2 by done. cbn [negb orb].
    rewrite !Z.eqb_refl. done.
Qed.

(** X24: which ten-byte responses [_validate_response] accepts: exactly
    those with the header 55 AA, the address 01, the expected function
    code, a checksum byte equal to the sum of the function code and the
    three data bytes masked to 8 bits, and the tail DA C3. *)
Theorem validate_response_accepts h0 h1 a f d0 d1 d2 c t0 t1 expected :
  WCIL._validate_response WCIL.init [h0; h1; a; f; d0; d1; d2; c; t0; t1] expected
    = Ok true
  ↔ h0 = 0x55 ∧ h1 = 0xAA ∧ a = 0x01 ∧ f = expected
    ∧ c = Z.land (f + d0 + d1 + d2) 0xFF ∧ t0 = 0xDA ∧ t1 = 0xC3.
Proof. apply validate_response_ten. Qed.

Lemma send_and_receive_result self frame expected w :
  ∃ r,
    (WCIL._send_and_receive self frame expected w).1 = Ok r
    ∧ ∀ response, r = Some response →
        WCIL._validate_response self response expected = Ok true.
Proof.
  unfold WCIL._send_and_receive, WCIL.try_except_serial.
  unfold mbind, WCIL.M_bind, WCIL.serial_write, WCIL.time_sleep,
    WCIL.serial_read, WCIL.lift, WCIL.print, WCIL.log, mret, WCIL.M_ret.
  destruct (WCIL.write_faults w) as [|[msg|] fs];
    cbn [WCIL.responses WCIL.trace WCIL.write_faults];
    try (by eexists; split; [reflexivity|]).
  all: destruct (WCIL.responses w) as [|[resp|msg] rs];
    cbn [WCIL.responses WCIL.trace WCIL.write_faults];
    try (by eexists; split; [reflexivity|]).
  all: match goal with
       | |- context [WCIL._validate_response ?s ?x ?e] =>
           destruct (validate_response_total s x e) as [b Hb];
           rewrite Hb; destruct b;
           eexists; (split; [reflexivity|]); intros response [= <-]; done
       end.
Qed.

(** X25: [_send_and_receive] never raises.  A serial exception on the
    write or the read is caught and reported as [None]; a response is
    returned only if [_validate_response] accepts it. *)
Theorem send_and_receive_never_raises self frame expected w :
  ∃ r,
    (WCIL._send_and_receive self frame expected w).1 = Ok r
    ∧ ∀ response, r = Some response →
        WCIL._validate_response self response expected = Ok true.
Proof. apply send_and_receive_result. Qed.

(** X26: the three commands of the driver never raise, whatever the
    serial line does: each returns [True] or [False]. *)
Theorem driver_commands_never_raise current_ma w :
  (∃ b, (WCIL.reset_output WCIL.init w).1 = Ok b)
  ∧ (∃ b, (WCIL.set_output_current WCIL.init current_ma w).1 = Ok b)
  ∧ (∃ b, (WCIL.clear_fault WCIL.init w).1 = Ok b).
Proof.
  assert (∀ fc data,
            0 ≤ fc < 256 → (∃ d0 d1 d2, data = [d0; d1; d2]) →
            ∀ k : option (list Z) → WCIL.M bool,
              (∀ r w', ∃ b, (k r w').1 = Ok b) →
              ∃ b, ((frame ← WCIL.lift (WCIL._build_frame WCIL.init fc data);
                     response ← WCIL._send_and_receive WCIL.init frame fc;
                     k response) w).1 = Ok b) as Hrun.
  { intros fc data Hfc (d0 & d1 & d2 & ->) k Hk.
    unfold mbind at 1, WCIL.M_bind at 1, WCIL.lift.
    rewrite build_frame_bytes by done.
    unfold mbind, WCIL.M_bind.
    match goal with |- context [WCIL._send_and_receive ?s ?f ?e w] =>
      destruct (send_and_receive_result s f e w) as (r & Hr & _);
      destruct (WCIL._send_and_receive s f e w) as [r' w']
    end.
    cbn [fst] in Hr. subst r'. apply Hk. }
  assert (∀ (t e : string) (data : list Z) r w',
            ∃ b, ((if WCIL.echoes r data
                   then WCIL.print t;; mret true
                   else WCIL.print e;; mret false) w').1 = Ok b) as Hk.
  { intros t e data r w'. destruct (WCIL.echoes r data); by eexists. }
  split; [|split].
  - unfold WCIL.reset_output. unfold mbind at 1, WCIL.M_bind at 1, WCIL.lift at 1.
    change (bytes [1; 0; 0]) with (Ok [1; 0; 0]). cbv iota beta.
    apply (Hrun 2 [1; 0; 0]); [lia|by eexists _, _, _|]. intros. apply Hk.
  - unfold WCIL.set_output_current. destruct (current_ma >? 3500).
    { by eexists. }
    cbv zeta. unfold mbind at 1, WCIL.M_bind at 1, WCIL.lift at 1.
    pose proof (land_byte_l (Z.shiftr current_ma 8) 0xFF ltac:(lia)) as H0.
    pose proof (land_byte_l current_ma 0xFF ltac:(lia)) as H1.
    unfold bytes. cbn [forallb]. decide_cmp. cbn [andb]. cbv iota beta.
    apply (Hrun 3); [lia|by eexists _, _, _|]. intros. apply Hk.
  - unfold WCIL.clear_fault. unfold mbind at 1, WCIL.M_bind at 1, WCIL.lift at 1.
    change (bytes [1; 0; 0]) with (Ok [1; 0; 0]). cbv iota beta.
    apply (Hrun 6 [1; 0; 0]); [lia|by eexists _, _, _|]. intros. apply Hk.
Qed.

(** X27: [set_output_current] with a value of at most 3500 writes one
    frame carrying the value modulo 65536 in two bytes, high byte
    first (a negative value is not rejected), with a checksum byte over
    the function code and the high byte only; when the device answers
    with a well-formed frame repeating the three data bytes, the call
    prints the confirmation and returns [True]. *)
Theorem set_output_current_accepted current_ma w rs :
  current_ma ≤ 3500 →
  WCIL.write_faults w = [] →
  let hi := (current_ma `mod` 65536) `div` 256 in
  let lo := current_ma `mod` 256 in
  let reply := [0x55; 0xAA; 0x01; 0x03; hi; lo; 0x00;
                Z.land (0x03 + hi + lo + 0x00) 0xFF; 0xDA; 0xC3] in
  WCIL.responses w = inl reply :: rs →
  WCIL.set_output_current WCIL.init current_ma w
  = (Ok true,
     WCIL.World [] rs
       (WCIL.trace w ++
        [WCIL.Write [0x55; 0xAA; 0x01; 0x03; hi; lo; 0x00;
                     Z.land (0x03 + hi) 0xFF; 0xDA; 0xC3] true;
         WCIL.Sleep 50;
         WCIL.Read 10 (Some reply);
         WCIL.Print ("Current set to " +:+ pretty current_ma +:+ "mA")])).
Proof.
  intros Hc Hf hi lo reply Hr.
  unfold WCIL.set_output_current.
  destruct (Z.gtb_spec current_ma 3500) as [?|_]; [lia|]. cbv zeta.
  assert (Z.land (Z.shiftr current_ma 8) 0xFF = hi) as ->.
  { rewrite byte_of by lia. subst hi. change (2 ^ 8) with 256.
    Z.div_mod_to_equations; lia. }
  rewrite land_255. fold lo.
  assert (0 ≤ hi < 256) by (subst hi; Z.div_mod_to_equations; lia).
  assert (0 ≤ lo < 256) by (subst lo; Z.div_mod_to_equations; lia).
  unfold mbind at 1, WCIL.M_bind at 1, WCIL.lift at 1.
  unfold bytes. cbn [forallb]. decide_cmp. cbn [andb]. cbv iota beta.
  unfold mbind at 1, WCIL.M_bind at 1, WCIL.lift at 1.
  rewrite build_frame_bytes by lia. cbv iota beta.
  unfold mbind at 1, WCIL.M_bind at 1.
  unfold WCIL._send_and_receive, WCIL.try_except_serial.
  unfold mbind, WCIL.M_bind, WCIL.serial_write, WCIL.time_sleep,
    WCIL.serial_read, WCIL.lift, WCIL.print, WCIL.log, mret, WCIL.M_ret.
  rewrite Hf. cbn [WCIL.responses WCIL.trace WCIL.write_faults].
  rewrite Hr. cbn [WCIL.responses WCIL.trace WCIL.write_faults].
  change (take (Z.to_nat 10) reply) with reply.
  assert (WCIL._validate_response WCIL.init reply 3 = Ok true) as ->.
  { apply validate_response_ten. done. }
  cbn [WCIL.responses WCIL.trace WCIL.write_faults].
  unfold WCIL.echoes.
  change (slice reply (Some 4) (Some 7)) with [hi; lo; 0].
  rewrite bool_decide_eq_false_2 by done.
  rewrite bool_decide_eq_true_2 by done. cbn [negb andb].
  cbn [WCIL.responses WCIL.trace WCIL.write_faults].
  rewrite <- !app_assoc. reflexivity.
Qed.

Lemma set_output_current_accepted_witness :
  WCIL.set_output_current WCIL.init 2000
    (WCIL.World []
       [inl [0x55; 0xAA; 0x01; 0x03; 0x07; 0xD0; 0x00; 0xDA; 0xDA; 0xC3]] [])
  = (Ok true,
     WCIL.World [] []
       [WCIL.Write [0x55; 0xAA; 0x01; 0x03; 0x07; 0xD0; 0x00; 0x0A; 0xDA; 0xC3] true;
        WCIL.Sleep 50;
        WCIL.Read 10 (Some [0x55; 0xAA; 0x01; 0x03; 0x07; 0xD0; 0x00; 0xDA; 0xDA; 0xC3]);
        WCIL.Print "Current set to 2000mA"]).
Proof.
  apply (set_output_current_accepted 2000
           (WCIL.World []
              [inl [0x55; 0xAA; 0x01; 0x03; 0x07; 0xD0; 0x00; 0xDA; 0xDA; 0xC3]] [])
           []); [lia|reflexivity|reflexivity].
Defined.

(** ** The bit-string helpers *)

Lemma le_value_snoc l v :
  DMD.le_value (l ++ [v]) = DMD.le_value l + 256 ^ len l * v.
Proof.
  unfold DMD.le_value. induction l as [|x l IH].
  - change (len []) with 0. simpl. lia.
  - cbn [app foldr]. rewrite IH. unfold len.
    rewrite length_cons, Nat2Z.inj_succ, Z.pow_succ_r by lia. lia.
Qed.

Lemma bits_to_bytes_groups (k : nat) l a :
  length l = (8 * S k)%nat → digits_val 0 l = Some a →
  ∃ bs, bits_to_bytes (str l) = Ok bs
        ∧ length bs = S k
        ∧ Forall (fun b => 0 ≤ b < 256) bs
        ∧ DMD.le_value bs = a.
Proof.
  revert l a. induction k as [|k IH]; intros l a Hlen Hval.
  - assert (l ≠ []) as Hne by (intros ->; done).
    rewrite bits_to_bytes_last by lia.
    rewrite (int2_digits _ _ Hne Hval). cbn [mbind result_bind].
    apply digits_val_bound in Hval. unfold len in Hval. rewrite Hlen in Hval.
    change (2 ^ Z.of_nat (8 * 1)) with 256 in Hval.
    exists [a]. unfold DMD.le_value. cbn [foldr].
    split; [done|]. split; [done|]. split; [|lia].
    apply Forall_cons; split; [done|apply Forall_nil_2].
  - destruct (split_at 8 l) as (c & rest & -> & Hc & Hrest); [lia|].
    rewrite Hlen in Hrest.
    assert (length rest = (8 * S k)%nat) as Hr by lia. clear Hrest.
    apply digits_val_app in Hval as [H1 H2].
    assert (c ≠ [] ∧ rest ≠ []) as [Hn1 Hn2]
      by (split; intros ->; simpl in *; lia).
    rewrite bits_to_bytes_cons by done.
    rewrite (int2_digits _ _ Hn1 H1). cbn [mbind result_bind].
    destruct (IH _ _ Hr H2) as (bs & -> & Hl & Hb & Hv).
    cbn [mbind result_bind].
    pose proof (digits_val_bound _ _ H1) as Hb1.
    unfold len in Hb1. rewrite Hc in Hb1. change (2 ^ Z.of_nat 8) with 256 in Hb1.
    eexists. split; [reflexivity|].
    split; [rewrite length_app; simpl; lia|].
    split; [apply Forall_app; split; [done|apply Forall_cons; split; [done|apply Forall_nil_2]]|].
    rewrite le_value_snoc, Hv.
    assert (len bs = len rest / 8) as ->.
    { unfold len. rewrite Hl, Hr. apply Z.div_unique_exact; lia. }
    assert (256 ^ (len rest / 8) = 2 ^ len rest) as ->.
    { unfold len. rewrite Hr.
      replace (Z.of_nat (8 * S k)) with (8 * Z.of_nat (S k)) by lia.
      rewrite Z.mul_comm, Z.div_mul by lia.
      rewrite Z.mul_comm, Z.pow_mul_r by lia. done. }
    pose proof (Z.div_mod a (2 ^ len rest)) as Hdm.
    assert (0 < 2 ^ len rest) by (apply Z.pow_pos_nonneg; unfold len; lia).
    lia.
Qed.

(** X28: a number that fits into [k] bytes, written by [number_to_bits]
    with [8 * k] bits and cut by [bits_to_bytes], comes out as exactly
    [k] bytes, least significant first. *)
Theorem number_to_bits_little_endian (k : nat) a :
  (0 < k)%nat → 0 ≤ a < 256 ^ Z.of_nat k →
  ∃ bs, bits_to_bytes (number_to_bits a (8 * k)) = Ok bs
        ∧ length bs = k
        ∧ Forall (fun b => 0 ≤ b < 256) bs
        ∧ DMD.le_value bs = a.
Proof.
  intros Hk Ha. destruct k as [|k]; [lia|].
  destruct (number_to_bits_fits a (8 * S k)) as (l & -> & Hlen & Hval); [lia| |].
  { replace (Z.of_nat (8 * S k)) with (8 * Z.of_nat (S k)) by lia.
    rewrite Z.pow_mul_r by lia. done. }
  by apply bits_to_bytes_groups.
Qed.

Lemma number_to_bits_little_endian_witness :
  ∃ bs, bits_to_bytes (number_to_bits 0x1A0C (8 * 2)) = Ok bs
        ∧ length bs = 2%nat
        ∧ Forall (fun b => 0 ≤ b < 256) bs
        ∧ DMD.le_value bs = 0x1A0C.
Proof. apply (number_to_bits_little_endian 2 0x1A0C); [lia|lia]. Defined.

Lemma nat_digits_nonempty a : nat_digits a ≠ [].
Proof.
  destruct a as [|p|p]; simpl; try done.
  intros E. apply (f_equal length) in E. rewrite length_reverse in E.
  destruct p; done.
Qed.

Lemma zfill_nonempty w a : zfill w (nat_digits a) ≠ [].
Proof.
  unfold zfill. intros E. apply app_eq_nil in E as [_ E].
  by apply nat_digits_nonempty in E.
Qed.

(** [number_to_bits] never truncates: reading its string back as a
    base-2 number gives the number itself, for every width and every
    number, also a negative one or one with more bits than the width. *)
Theorem number_to_bits_read_back a (bitlen : nat) :
  int2 (number_to_bits a bitlen) = Ok a.
Proof.
  unfold number_to_bits, format_b.
  destruct (Z.ltb_spec a 0) as [Hneg|Hpos].
  - unfold int2. rewrite chars_str. rewrite decide_True by done.
    unfold unsigned_val.
    pose proof (zfill_nonempty (bitlen - 1) (- a)) as Hne.
    assert (digits_val 0 (zfill (bitlen - 1) (nat_digits (- a))) = Some (- a))
      as Hv.
    { unfold zfill. rewrite digits_val_zeros. apply nat_digits_val. lia. }
    destruct (zfill (bitlen - 1) (nat_digits (- a))); [done|].
    rewrite Hv. cbn. f_equal. lia.
  - apply int2_digits; [apply zfill_nonempty|].
    unfold zfill. rewrite digits_val_zeros. by apply nat_digits_val.
Qed.

(** ** Version and text queries *)

Lemma lor_shift_byte c d :
  0 ≤ c < 256 → 0 ≤ d → Z.lor c (Z.shiftl d 8) = c + 256 * d.
Proof.
  intros Hc Hd.
  pose proof (lor_le16 (c + 256 * d) ltac:(lia)) as H.
  replace ((c + 256 * d) `mod` 256) with c in H
    by (Z.div_mod_to_equations; lia).
  replace ((c + 256 * d) `div` 256) with d in H
    by (Z.div_mod_to_equations; lia).
  done.
Qed.

(** X29: [get_firmware_version] needs sixteen data bytes in the answer.
    With fewer it raises [IndexError]; with sixteen or more it returns
    the four versions as (major, minor, patch), the patch number read
    from two bytes, low byte first. *)
Theorem get_firmware_version_fields flag sq data w rs :
  Z.land flag 0x20 = 0 →
  (length data ≤ 60)%nat →
  Forall (fun b => 0 ≤ b < 256) data →
  DMD.write_faults w = [] →
  DMD.replies w = DMD.answer flag sq data :: rs →
  ((length data < 16)%nat → (DMD.get_firmware_version w).1 = Raise IndexError)
  ∧ (∀ b0 b1 b2 b3 b4 b5 b6 b7 b8 b9 b10 b11 b12 b13 b14 b15 more,
       data = b0 :: b1 :: b2 :: b3 :: b4 :: b5 :: b6 :: b7 :: b8 :: b9
              :: b10 :: b11 :: b12 :: b13 :: b14 :: b15 :: more →
       (DMD.get_firmware_version w).1
       = Ok ((b3, b2, b0 + 256 * b1), (b7, b6, b4 + 256 * b5),
             (b11, b10, b8 + 256 * b9), (b15, b14, b12 + 256 * b13))).
Proof.
  intros Hflag Hlen Hb Hf Hr.
  split.
  - intros Hshort.
    unfold DMD.get_firmware_version.
    unfold mbind at 1, DMD.M_bind at 1.
    rewrite (send_command_answered _ _ flag sq data w rs) by done.
    unfold DMD.lift, DMD.last_item, reply_data. cbn [fst snd].
    do 16 (destruct data as [|? data];
           [unfold mbind, DMD.M_bind; reflexivity|]).
    simpl in Hshort. lia.
  - intros b0 b1 b2 b3 b4 b5 b6 b7 b8 b9 b10 b11 b12 b13 b14 b15 more Hd.
    unfold DMD.get_firmware_version.
    unfold mbind at 1, DMD.M_bind at 1.
    rewrite (send_command_answered _ _ flag sq data w rs) by done.
    unfold DMD.lift, DMD.last_item, reply_data. cbn [fst snd].
    subst data.
    repeat match goal with
           | H : Forall _ (_ :: _) |- _ =>
               apply Forall_cons in H as [? H]
           end.
    unfold mbind, DMD.M_bind. cbv beta zeta.
    set (l := b0 :: b1 :: b2 :: b3 :: b4 :: b5 :: b6 :: b7 :: b8 :: b9
              :: b10 :: b11 :: b12 :: b13 :: b14 :: b15 :: more).
    rewrite (index_lookup l 0 b0 eq_refl : index l 0 = Ok b0),
      (index_lookup l 1 b1 eq_refl : index l 1 = Ok b1),
      (index_lookup l 2 b2 eq_refl : index l 2 = Ok b2),
      (index_lookup l 3 b3 eq_refl : index l 3 = Ok b3),
      (index_lookup l 4 b4 eq_refl : index l 4 = Ok b4),
      (index_lookup l 5 b5 eq_refl : index l 5 = Ok b5),
      (index_lookup l 6 b6 eq_refl : index l 6 = Ok b6),
      (index_lookup l 7 b7 eq_refl : index l 7 = Ok b7),
      (index_lookup l 8 b8 eq_refl : index l 8 = Ok b8),
      (index_lookup l 9 b9 eq_refl : index l 9 = Ok b9),
      (index_lookup l 10 b10 eq_refl : index l 10 = Ok b10),
      (index_lookup l 11 b11 eq_refl : index l 11 = Ok b11),
      (index_lookup l 12 b12 eq_refl : index l 12 = Ok b12),
      (index_lookup l 13 b13 eq_refl : index l 13 = Ok b13),
      (index_lookup l 14 b14 eq_refl : index l 14 = Ok b14),
      (index_lookup l 15 b15 eq_refl : index l 15 = Ok b15).
    cbn [mbind result_bind fst].
    rewrite !lor_shift_byte by lia. reflexivity.
Qed.

Lemma get_firmware_version_fields_witness :
  (DMD.get_firmware_version
     (DMD.World "pattern" []
        [DMD.answer 0 10 [3; 1; 0; 6;  0; 0; 2; 1;  9; 0; 4; 5;  0; 1; 7; 8]]
        [])).1
  = Ok ((6, 0, 3 + 256 * 1), (1, 2, 0 + 256 * 0),
        (5, 4, 9 + 256 * 0), (8, 7, 0 + 256 * 1)).
Proof.
  refine (proj2 (get_firmware_version_fields 0 10
             [3; 1; 0; 6;  0; 0; 2; 1;  9; 0; 4; 5;  0; 1; 7; 8]
             (DMD.World "pattern" []
                [DMD.answer 0 10 [3; 1; 0; 6;  0; 0; 2; 1;  9; 0; 4; 5;  0; 1; 7; 8]]
                [])
             [] _ _ _ _ _) _ _ _ _ _ _ _ _ _ _ _ _ _ _ _ _ [] _);
    [reflexivity|simpl; lia|repeat constructor; lia|reflexivity|reflexivity
    |reflexivity].
Defined.

Lemma chr_code c : chr (Z.of_nat (nat_of_ascii c)) = c.
Proof. unfold chr. by rewrite Nat2Z.id, ascii_nat_embedding. Qed.

Lemma chr_codes (l : list ascii) : chr <$> ((fun c => Z.of_nat (nat_of_ascii c)) <$> l) = l.
Proof.
  induction l as [|c l IH]; [done|]. cbn [fmap list_fmap].
  rewrite chr_code. f_equal. apply IH.
Qed.

Lemma filter_codes (l : list ascii) pad :
  "000"%char ∉ l →
  List.filter (fun i => negb (i =? 0))
    (((fun c => Z.of_nat (nat_of_ascii c)) <$> l) ++ replicate pad 0)
  = (fun c => Z.of_nat (nat_of_ascii c)) <$> l.
Proof.
  intros Hl. rewrite List.filter_app.
  assert (List.filter (fun i => negb (i =? 0)) (replicate pad 0) = []) as ->.
  { induction pad as [|pad IH]; [done|]. simpl. apply IH. }
  rewrite app_nil_r.
  induction l as [|c l IH]; [done|].
  apply not_elem_of_cons in Hl as [Hc Hl].
  cbn [fmap list_fmap List.filter].
  destruct (Z.eqb_spec (Z.of_nat (nat_of_ascii c)) 0) as [E|_].
  - exfalso. apply Hc. rewrite <- (ascii_nat_embedding c).
    replace (nat_of_ascii c) with 0%nat by lia. done.
  - cbn [negb]. f_equal. by apply IH.
Qed.

(** X30: the two queries that return text.  When the device sends the
    character codes of a text without NUL characters, followed by zero
    bytes, [get_error_description] returns the text without the zeros,
    while [get_hardware], which takes the first data byte as the
    product code, returns the tag with one NUL character for each zero
    byte; a product code it does not know gives the name
    [undocumented hardware], not an error. *)
Theorem text_queries text (pad : nat) hw flag sq w rs :
  "000"%char ∉ chars text →
  Z.land flag 0x20 = 0 →
  DMD.write_faults w = [] →
  let bytes := ((fun c => Z.of_nat (nat_of_ascii c)) <$> chars text)
               ++ replicate pad 0 in
  ((length bytes ≤ 60)%nat →
   DMD.replies w = DMD.answer flag sq bytes :: rs →
   (DMD.get_error_description w).1 = Ok text)
  ∧ ((length bytes ≤ 59)%nat →
     DMD.replies w = DMD.answer flag sq (hw :: bytes) :: rs →
     (DMD.get_hardware w).1
     = Ok (default "undocumented hardware" (DMD.hardware_pos !! hw),
           str (chars text ++ replicate pad "000"%char))).
Proof.
  intros Hnul Hflag Hf bs. split.
  - intros Hlen Hr.
    unfold DMD.get_error_description.
    unfold mbind at 1, DMD.M_bind at 1.
    rewrite (send_command_answered _ _ flag sq bs w rs) by done.
    unfold mbind, DMD.M_bind, DMD.lift, DMD.last_item, reply_data, mret, DMD.M_ret.
    cbn [fst snd]. f_equal. subst bs.
    rewrite filter_codes, chr_codes by done.
    apply string_of_list_ascii_of_string.
  - intros Hlen Hr.
    unfold DMD.get_hardware.
    unfold mbind at 1, DMD.M_bind at 1.
    rewrite (send_command_answered _ _ flag sq (hw :: bs) w rs)
      by (done || simpl; lia).
    unfold mbind, DMD.M_bind, DMD.lift, DMD.last_item, reply_data, mret, DMD.M_ret.
    cbn [fst snd]. rewrite index_head. cbn [fst snd].
    rewrite slice_from by lia. change (Z.to_nat 1) with 1%nat.
    cbn [drop]. rewrite drop_0. subst bs.
    rewrite fmap_app, chr_codes, fmap_replicate.
    change (chr 0) with "000"%char.
    unfold DMD.getitem.
    by destruct (DMD.hardware_pos !! hw).
Qed.

Lemma text_queries_witness :
  (DMD.get_error_description
     (DMD.World "pattern" []
        [DMD.answer 0 10 [0x4F; 0x4B; 0; 0]] [])).1 = Ok "OK"
  ∧ (DMD.get_hardware
       (DMD.World "pattern" []
          [DMD.answer 0 10 [0x09; 0x4F; 0x4B; 0; 0]] [])).1
    = Ok ("undocumented hardware", str ["O"; "K"; "000"; "000"]%char).
Proof.
  split.
  - refine (proj1 (text_queries "OK" 2 0x09 0 10
              (DMD.World "pattern" [] [DMD.answer 0 10 [0x4F; 0x4B; 0; 0]] [])
              [] _ _ _) _ _);
      [apply (bool_decide_unpack _); vm_compute; exact I
      |reflexivity|reflexivity|simpl; lia|reflexivity].
  - refine (proj2 (text_queries "OK" 2 0x09 0 10
              (DMD.World "pattern" []
                 [DMD.answer 0 10 [0x09; 0x4F; 0x4B; 0; 0]] [])
              [] _ _ _) _ _);
      [apply (bool_decide_unpack _); vm_compute; exact I
      |reflexivity|reflexivity|simpl; lia|reflexivity].
Defined.
